(** * aws-announcements-scraper: a shallow embedding of the extraction core

    The development follows the Python sources module by module:
    [date_filter.py], [http_client.py], [content_extractor.py],
    [homepage_parser.py], the steps of [scraper_orchestrator.py], the date
    validator of [main.py] and the key paths of [config_manager.py], over
    the records of [models.py].

    Conventions.
    - A Python [str] is a [string]; a character is a code point below 256,
      for which the decimal digits of [\d] and of [int()] are exactly
      ['0'..'9'] and the white space of [\s], [str.strip] and [str.isspace]
      is the set given by [isspace] below.
    - A Python [int] is a [Z]; [len] is a [nat].
    - A function that may raise returns a [result]; code that touches the
      network, the clock or [time.sleep] runs in the monad [IO] over an
      explicit [World].
    - [None] is [None] of an [option].
    - A parsed page is a tree of strings and tags; a reference to one of its
      elements is the element with its path to the root.
    - [urllib.parse.urljoin] and [urlparse], the markup that bs4 writes for
      an element, the markup parser, the scans of the page content for JSON
      data and the page-level date cascade are variables of the sections
      that use them.

    The model comes first, then the definitions that the statements need
    and the example data, then the facts. *)

From Stdlib Require Import ZArith String Ascii List Bool Lia.
From Stdlib Require Import DecimalString.
From stdpp Require Import base gmap sets list strings.

Local Open Scope string_scope.
Local Open Scope Z_scope.

(* ===================================================================== *)
(** * Python values: exceptions and results                               *)
(* ===================================================================== *)

(** A response of [requests]: what the retry policy and the callers read. *)
Record Response := mkResponse {
  status_code : Z;
  text : string
}.

(** The exception classes of [requests.exceptions] that [http_client.py]
    tells apart; [RequestException] is their base class. *)
Inductive RequestExceptionClass :=
| HTTPError
| Timeout
| ConnectionError
| OtherRequestException.

Inductive Exception :=
| ValueError (msg : string)
| TypeError (msg : string)
| RequestException (cls : RequestExceptionClass) (response : option Response).

Inductive result (A : Type) :=
| Return (a : A)
| Raise (e : Exception).
Arguments Return {A} a.
Arguments Raise {A} e.

(** Sequencing of calls that may raise. *)
#[export] Instance result_ret : MRet result := fun A a => Return a.
#[export] Instance result_bind : MBind result := fun A B k m =>
  match m with
  | Return a => k a
  | Raise e => Raise e
  end.

(** [str(e)] of a [ValueError] or [TypeError] is its message. *)
Definition str_of_exception (e : Exception) : string :=
  match e with
  | ValueError msg => msg
  | TypeError msg => msg
  | RequestException _ _ => ""
  end.

Definition is_ValueError (e : Exception) : bool :=
  match e with ValueError _ => true | _ => false end.

(* ===================================================================== *)
(** * Python strings                                                      *)
(* ===================================================================== *)

Definition LF : ascii := "010"%char.
Definition TAB : ascii := "009"%char.
Definition DQUOTE : ascii := "034"%char.

(** The string [s] between double quotes, as in the Python literal
    ['"itemTitle"']. *)
Definition quoted (s : string) : string := String DQUOTE (s ++ String DQUOTE EmptyString).

(** [str.isspace] of one character (code points below 256). *)
Definition isspace (c : ascii) : bool :=
  let n := N_of_ascii c in
  ((9 <=? n) && (n <=? 13) || (28 <=? n) && (n <=? 32)
   || (n =? 133) || (n =? 160))%N.

(** [\d] of [re] and the digits of [int()] (code points below 256). *)
Definition isdigit (c : ascii) : bool :=
  let n := N_of_ascii c in ((48 <=? n) && (n <=? 57))%N.

Definition digit_value (c : ascii) : Z := Z.of_N (N_of_ascii c) - 48.

Fixpoint lstrip (s : string) : string :=
  match s with
  | EmptyString => EmptyString
  | String c s' => if isspace c then lstrip s' else s
  end.

(** [s.rstrip()]: drop the white space at the end. *)
Fixpoint rstrip (s : string) : string :=
  match s with
  | EmptyString => EmptyString
  | String c s' =>
      match rstrip s' with
      | EmptyString => if isspace c then EmptyString else String c EmptyString
      | r => String c r
      end
  end.

(** [s.strip()] *)
Definition strip (s : string) : string := rstrip (lstrip s).

(** [s.startswith(p)] *)
Definition startswith (p s : string) : bool := String.prefix p s.

(** [s.find(sub)]: the least index at which [sub] occurs in [s]. *)
Fixpoint find (sub s : string) : option nat :=
  if String.prefix sub s then Some 0%nat
  else match s with
       | EmptyString => None
       | String _ s' => option_map S (find sub s')
       end.

(** [sub in s] *)
Definition contains (sub s : string) : bool :=
  match find sub s with Some _ => true | None => false end.

(** [s[:n]] and [s[n:]] *)
Definition slice_to (n : nat) (s : string) : string := String.substring 0 n s.
Definition slice_from (n : nat) (s : string) : string :=
  String.substring n (String.length s - n) s.

(** [s.split(c)] for a separator of one character. *)
Fixpoint split_char (c : ascii) (s : string) : list string :=
  match s with
  | EmptyString => [EmptyString]
  | String a s' =>
      if Ascii.eqb a c then EmptyString :: split_char c s'
      else match split_char c s' with
           | [] => [String a EmptyString]
           | w :: ws => String a w :: ws
           end
  end.

(** [s.split(sep, 1)]: [ValueError] on an empty separator, else the text
    before and after the first occurrence of [sep], or [s] alone. *)
Definition split_once (sep s : string) : result (list string) :=
  if String.eqb sep "" then Raise (ValueError "empty separator")
  else match find sep s with
       | Some i => Return [slice_to i s; slice_from (i + String.length sep) s]
       | None => Return [s]
       end.

(** The digits of an [int()] literal: decimal digits, single underscores
    between them only. [seen] says that the previous character was a digit. *)
Fixpoint int_digits (acc : Z) (seen : bool) (s : string) : option Z :=
  match s with
  | EmptyString => if seen then Some acc else None
  | String c s' =>
      if isdigit c then int_digits (10 * acc + digit_value c) true s'
      else if Ascii.eqb c "_" then
             if seen then int_digits acc false s' else None
           else None
  end.

(** [str(n)] of an int and [repr(s)] of a plain string, for messages. *)
Definition str_of_int (n : Z) : string := NilZero.string_of_int (Z.to_int n).
Definition repr (s : string) : string := "'" ++ s ++ "'".

(** [int(s)]: white space around is dropped, one sign is allowed. *)
Definition int (s : string) : result Z :=
  let invalid :=
    Raise (ValueError ("invalid literal for int() with base 10: " ++ repr s)) in
  let unsigned d :=
    match int_digits 0 false d with Some n => Return n | None => invalid end in
  match strip s with
  | EmptyString => invalid
  | String c d =>
      if Ascii.eqb c "-" then
        match int_digits 0 false d with Some n => Return (- n) | None => invalid end
      else if Ascii.eqb c "+" then unsigned d
      else unsigned (String c d)
  end.

(* ===================================================================== *)
(** * models.py                                                           *)
(* ===================================================================== *)

(** The fields of [datetime.datetime] (naive). *)
Record datetime := mkDatetime {
  year : Z;
  month : Z;
  day : Z;
  hour : Z;
  minute : Z;
  second : Z;
  microsecond : Z
}.

Module AnnouncementLink.
Record t := mk {
  title : string;
  url : string;
  preview_text : option string;
  publication_date : option datetime
}.
End AnnouncementLink.

Module EmbeddedLink.
Record t := mk {
  text : string;
  url : string;
  context : string
}.
End EmbeddedLink.

(** [publication_date] is annotated [datetime]; Python does not enforce the
    annotation, so the field holds whatever the constructor call passes. *)
Module AnnouncementContent.
Record t := mk {
  title : string;
  url : string;
  publication_date : option datetime;
  content_text : string;
  embedded_links : list EmbeddedLink.t;
  extraction_timestamp : datetime
}.
End AnnouncementContent.

(** [filter_by_date] reads [announcement.publication_date] and nothing
    else: any record with that attribute will do. *)
Class HasPublicationDate (A : Type) := publication_date : A -> option datetime.
#[export] Instance AnnouncementLink_date : HasPublicationDate AnnouncementLink.t :=
  AnnouncementLink.publication_date.
#[export] Instance AnnouncementContent_date : HasPublicationDate AnnouncementContent.t :=
  AnnouncementContent.publication_date.

(* ===================================================================== *)
(** * date_filter.py                                                      *)
(* ===================================================================== *)

(** [self.date_pattern.match(s)] for [^\d{4}-\d{2}$]: [match] anchors at
    the start; [$] matches at the end of the string and also just before a
    line feed that ends the string. *)
Definition date_pattern_match (s : string) : bool :=
  match s with
  | String y1 (String y2 (String y3 (String y4 (String h (String m1 (String m2 rest)))))) =>
      isdigit y1 && isdigit y2 && isdigit y3 && isdigit y4
      && Ascii.eqb h "-" && isdigit m1 && isdigit m2
      && (String.eqb rest "" || String.eqb rest (String LF ""))
  | _ => false
  end.

Definition invalid_format_msg (date_string : string) : string :=
  "Invalid date format: " ++ date_string ++ ". Expected YYYY-MM format (e.g., '2026-01')".

(** The body of the [try] block of [parse_date_filter]. *)
Definition parse_date_filter_try (date_string : string) : result (option (Z * Z)) :=
  match split_char "-" date_string with
  | [year; month] =>
      match int year with
      | Raise e => Raise e
      | Return year =>
          match int month with
          | Raise e => Raise e
          | Return month =>
              if (month <? 1) || (month >? 12) then
                Raise (ValueError ("Invalid month: " ++ str_of_int month
                                   ++ ". Month must be between 1 and 12"))
              else if (year <? 2000) || (year >? 2100) then
                Raise (ValueError ("Invalid year: " ++ str_of_int year
                                   ++ ". Year must be between 2000 and 2100"))
              else Return (Some (year, month))
          end
      end
  | [] | [_] => Raise (ValueError "not enough values to unpack (expected 2, got 1)")
  | _ => Raise (ValueError "too many values to unpack (expected 2)")
  end.

Definition parse_date_filter (date_string : string) : result (option (Z * Z)) :=
  if String.eqb date_string "" then Return None
  else if negb (date_pattern_match date_string) then
    Raise (ValueError (invalid_format_msg date_string))
  else
    match parse_date_filter_try date_string with
    | Raise (ValueError msg) =>
        if contains "invalid literal" msg
        then Raise (ValueError (invalid_format_msg date_string))
        else Raise (ValueError msg)
    | r => r
    end.

Definition matches_date_criteria (announcement_date : option datetime)
    (target_year target_month : Z) : bool :=
  match announcement_date with
  | None => false
  | Some d => (year d =? target_year) && (month d =? target_month)
  end.

Section FilterByDate.
Context {A : Type} `{HasPublicationDate A}.

(** The [for] loop of [filter_by_date]; [filtered_announcements] is the
    list built so far. *)
Fixpoint filter_loop (target_year target_month : Z)
    (announcements filtered_announcements : list A) : list A :=
  match announcements with
  | [] => filtered_announcements
  | announcement :: rest =>
      filter_loop target_year target_month rest
        (if matches_date_criteria (publication_date announcement) target_year target_month
         then filtered_announcements ++ [announcement]
         else filtered_announcements)
  end.

Definition filter_by_date (announcements : list A) (date_filter : option string)
    : result (list A) :=
  match date_filter with
  | None => Return announcements
  | Some date_filter =>
      if String.eqb date_filter "" then Return announcements
      else
        match parse_date_filter date_filter with
        | Raise e => Raise e
        | Return None => Return announcements
        | Return (Some (target_year, target_month)) =>
            Return (filter_loop target_year target_month announcements [])
        end
  end.

End FilterByDate.


(* ===================================================================== *)
(** * The world: network, sleeps and clock                                *)
(* ===================================================================== *)

(** [network n url timeout] is what the [n]-th GET of the run
    ([session.get(url, timeout=timeout)]) comes back with; [slept] lists the
    arguments of [time.sleep] so far; [clock n] is the [n]-th reading of
    [datetime.now()]. *)
Record World := mkWorld {
  network : nat -> string -> Z -> result Response;
  requests_made : nat;
  slept : list Z;
  clock : nat -> datetime;
  clock_reads : nat
}.

Definition IO (A : Type) : Type := World -> result A * World.

#[export] Instance IO_ret : MRet IO := fun A a w => (Return a, w).
#[export] Instance IO_bind : MBind IO := fun A B k m w =>
  match m w with
  | (Return a, w') => k a w'
  | (Raise e, w') => (Raise e, w')
  end.

Definition raise {A : Type} (e : Exception) : IO A := fun w => (Raise e, w).

(** [try: m except Exception as e: h e] *)
Definition try_except {A : Type} (m : IO A) (h : Exception -> IO A) : IO A :=
  fun w => match m w with
           | (Return a, w') => (Return a, w')
           | (Raise e, w') => h e w'
           end.

Definition lift {A : Type} (r : result A) : IO A := fun w => (r, w).

(** [time.sleep(delay)] *)
Definition sleep (delay : Z) : IO unit := fun w =>
  (Return tt, mkWorld (network w) (requests_made w) (slept w ++ [delay])
                      (clock w) (clock_reads w)).

(** [self.session.get(url, timeout=timeout)] *)
Definition session_get (url : string) (timeout : Z) : IO Response := fun w =>
  (network w (requests_made w) url timeout,
   mkWorld (network w) (S (requests_made w)) (slept w) (clock w) (clock_reads w)).

(** [datetime.now()] *)
Definition datetime_now : IO datetime := fun w =>
  (Return (clock w (clock_reads w)),
   mkWorld (network w) (requests_made w) (slept w) (clock w) (S (clock_reads w))).

(* ===================================================================== *)
(** * http_client.py                                                      *)
(* ===================================================================== *)

Record HTTPClient := mkHTTPClient {
  timeout : Z
}.

(** [response.raise_for_status()] *)
Definition raise_for_status (response : Response) : result unit :=
  if (400 <=? status_code response) && (status_code response <? 600)
  then Raise (RequestException HTTPError (Some response))
  else Return tt.

(** Each [except] clause of [fetch_page] logs and re-raises; the rotation of
    the User-Agent header changes no result. *)
Definition fetch_page (self : HTTPClient) (url : string) (timeout_ : option Z)
    : IO Response :=
  let timeout_ := match timeout_ with None => timeout self | Some t => t end in
  response ← session_get url timeout_;
  _ ← lift (raise_for_status response);
  mret response.

Definition _calculate_exponential_backoff (attempt : Z) : Z :=
  Z.min (2 ^ attempt) 4.

(** [attempt] is an element of [range(max_retries + 1)], never negative. *)
Definition _calculate_rate_limit_delay (attempt : Z) : Z :=
  let delays := [5; 10; 20] in
  nth (Z.to_nat (Z.min attempt (Z.of_nat (length delays) - 1))) delays 0.

(** [isinstance(e, (Timeout, ConnectionError))] *)
Definition is_network_error (cls : RequestExceptionClass) : bool :=
  match cls with Timeout | ConnectionError => true | _ => false end.

(** The [for attempt in range(max_retries + 1)] loop of [fetch_with_retry],
    on the attempts still to run. [continue] is the recursive call; leaving
    the loop raises [last_exception]. *)
Fixpoint retry_loop (self : HTTPClient) (url : string) (max_retries : Z)
    (timeout_ : option Z) (attempts : list Z) (last_exception : option Exception)
    : IO Response :=
  match attempts with
  | [] =>
      match last_exception with
      | Some e => raise e
      | None => raise (TypeError "exceptions must derive from BaseException")
      end
  | attempt :: rest =>
      try_except (fetch_page self url timeout_) (fun e =>
        match e with
        | RequestException cls response =>
            let continue_ := retry_loop self url max_retries timeout_ rest (Some e) in
            match response with
            | Some response =>
                let status_code := status_code response in
                if status_code =? 429 then
                  if attempt <? max_retries then
                    _ ← sleep (_calculate_rate_limit_delay attempt); continue_
                  else raise e
                else if existsb (Z.eqb status_code) [502; 503; 504] then
                  if attempt <? max_retries then
                    _ ← sleep (_calculate_exponential_backoff attempt); continue_
                  else raise e
                else if (400 <=? status_code) && (status_code <? 500)
                        && negb (status_code =? 429) then
                  raise e
                else raise e
            | None =>
                if is_network_error cls then
                  if attempt <? max_retries then
                    _ ← sleep (_calculate_exponential_backoff attempt); continue_
                  else raise e
                else raise e
            end
        | _ => raise e
        end)
  end.

Definition fetch_with_retry (self : HTTPClient) (url : string) (max_retries : Z)
    (timeout_ : option Z) : IO Response :=
  let timeout_ := Some (match timeout_ with None => timeout self | Some t => t end) in
  retry_loop self url max_retries timeout_ (seqZ 0 (max_retries + 1)) None.


(* ===================================================================== *)
(** * bs4: the parsed document                                            *)
(* ===================================================================== *)

(** The tree that [BeautifulSoup(markup, 'html.parser')] builds: strings and
    tags; tag and attribute names are in lower case, as the parser leaves
    them; an attribute holds the text written in the markup. *)
#[warnings="-register-all"] Inductive Node :=
| NavigableString (s : string)
| Tag (name : string) (attrs : gmap string string) (contents : list Node).

(** One step up from a node: the parent's name and attributes, the siblings
    before the node (nearest first) and the siblings after it. *)
Record Crumb := mkCrumb {
  before : list Node;
  parent_name : string;
  parent_attrs : gmap string string;
  after : list Node
}.

(** A node at its place in the document, which is what a Python reference
    to a bs4 object is: [.parent] and the sibling searches read [ancestors]. *)
Record PageElement := mkPageElement {
  node : Node;
  ancestors : list Crumb
}.

(** The [BeautifulSoup] object of a document with the given top-level nodes. *)
Definition BeautifulSoup (contents : list Node) : PageElement :=
  mkPageElement (Tag "[document]" ∅ contents) [].

(** [element.name]: [None] on a string. *)
Definition name_of (n : Node) : option string :=
  match n with
  | NavigableString _ => None
  | Tag name _ _ => Some name
  end.

Definition name_in (names : list string) (n : Node) : bool :=
  match name_of n with
  | Some name => existsb (String.eqb name) names
  | None => false
  end.

(** [tag.get(key)] *)
Definition get (key : string) (n : Node) : option string :=
  match n with
  | NavigableString _ => None
  | Tag _ attrs _ => attrs !! key
  end.

(** [tag.get(key, '')] *)
Definition get_or_empty (key : string) (n : Node) : string :=
  match get key n with Some v => v | None => "" end.

(** [element.parent] *)
Definition parent (e : PageElement) : option PageElement :=
  match ancestors e with
  | [] => None
  | c :: up =>
      Some (mkPageElement
              (Tag (parent_name c) (parent_attrs c) (rev (before c) ++ node e :: after c))
              up)
  end.

(** The document with [e] (possibly changed) at its place. *)
Fixpoint plug (n : Node) (up : list Crumb) : Node :=
  match up with
  | [] => n
  | c :: up' => plug (Tag (parent_name c) (parent_attrs c) (rev (before c) ++ n :: after c)) up'
  end.

Definition root (e : PageElement) : PageElement :=
  mkPageElement (plug (node e) (ancestors e)) [].

(** [element.descendants], in document order. *)
Fixpoint descendants_from (n : Node) (up : list Crumb) : list PageElement :=
  match n with
  | NavigableString _ => []
  | Tag name attrs contents =>
      (fix children (before after : list Node) : list PageElement :=
         match after with
         | [] => []
         | c :: after' =>
             let up' := mkCrumb before name attrs after' :: up in
             mkPageElement c up' :: descendants_from c up' ++ children (c :: before) after'
         end) [] contents
  end.

Definition descendants (e : PageElement) : list PageElement :=
  descendants_from (node e) (ancestors e).

(** [element.find_all(names)] *)
Definition find_all (names : list string) (e : PageElement) : list PageElement :=
  List.filter (fun d => name_in names (node d)) (descendants e).

(** [element.find_all(name, href=True)] and the like *)
Definition find_all_with_attr (name attr : string) (e : PageElement) : list PageElement :=
  List.filter (fun d => name_in [name] (node d) && bool_decide (is_Some (get attr (node d))))
    (descendants e).

(** [element.find(name)] *)
Definition find_tag (name : string) (e : PageElement) : option PageElement :=
  head (find_all [name] e).

(** [element.find_next_siblings()]: the tags among the later siblings. *)
Definition find_next_siblings (e : PageElement) : list Node :=
  match ancestors e with
  | [] => []
  | c :: _ => List.filter (fun n => bool_decide (is_Some (name_of n))) (after c)
  end.

(** The strings below a node, in document order. *)
Fixpoint strings_of (n : Node) : list string :=
  match n with
  | NavigableString s => [s]
  | Tag _ _ contents => flat_map strings_of contents
  end.

Definition nonempty (s : string) : bool := negb (String.eqb s "").

(** [tag.get_text(strip=True)]: every string stripped, the empty ones
    dropped, the rest joined. *)
Definition get_text_strip (n : Node) : string :=
  String.concat "" (List.filter nonempty (map strip (strings_of n))).

(** [s.split()]: the runs of characters other than white space. [word] is
    the run being read, reversed. *)
Fixpoint split_ws_from (word : list ascii) (s : string) : list string :=
  let flush rest :=
    match word with
    | [] => rest
    | _ => string_of_list_ascii (rev word) :: rest
    end in
  match s with
  | EmptyString => flush []
  | String c s' =>
      if isspace c then flush (split_ws_from [] s')
      else split_ws_from (c :: word) s'
  end.

Definition split_ws (s : string) : list string := split_ws_from [] s.

(** The selectors that the title and content cascades pass to
    [select_one]: a tag name, [.class] and [#id]. *)
Definition selector_matches (selector : string) (n : Node) : bool :=
  match selector with
  | String "." cls =>
      match n with
      | Tag _ _ _ => existsb (String.eqb cls) (split_ws (get_or_empty "class" n))
      | NavigableString _ => false
      end
  | String "#" id =>
      match get "id" n with
      | Some v => String.eqb v id
      | None => false
      end
  | _ => name_in [selector] n
  end.

(** [element.select_one(selector)]: the first match in document order. *)
Definition select_one (selector : string) (e : PageElement) : option PageElement :=
  List.find (fun d => selector_matches selector (node d)) (descendants e).

(** What [decompose] of every tag named in [names] below [n] leaves. *)
Fixpoint decompose_all (names : list string) (n : Node) : Node :=
  match n with
  | NavigableString _ => n
  | Tag name attrs contents =>
      Tag name attrs
        ((fix keep (l : list Node) : list Node :=
            match l with
            | [] => []
            | c :: l' =>
                if name_in names c then keep l'
                else decompose_all names c :: keep l'
            end) contents)
  end.


(* ===================================================================== *)
(** * content_extractor.py                                                *)
(* ===================================================================== *)

(** Number of line feeds in the white space that [s] starts with. *)
Fixpoint leading_newlines (s : string) : nat :=
  match s with
  | EmptyString => 0
  | String c s' =>
      if isspace c
      then ((if Ascii.eqb c LF then 1 else 0) + leading_newlines s')%nat
      else 0%nat
  end.

(** Length of the white space that [s] starts with, up to its last line
    feed included. *)
Fixpoint through_last_newline (s : string) : nat :=
  match s with
  | EmptyString => 0
  | String c s' =>
      if isspace c && (Ascii.eqb c LF || (0 <? leading_newlines s')%nat)
      then S (through_last_newline s')
      else 0%nat
  end.

(** [re.sub(r'\n\s*\n\s*\n+', '\n\n', s)]. A match starts at a line feed
    that has two more line feeds in the white space after it, and, the
    quantifiers being greedy, runs through the last line feed of that white
    space. [skip] is the number of characters of the current match still to
    drop. *)
Fixpoint sub_excessive_newlines (skip : nat) (s : string) : string :=
  match s with
  | EmptyString => EmptyString
  | String c s' =>
      match skip with
      | S k => sub_excessive_newlines k s'
      | O =>
          if Ascii.eqb c LF && (2 <=? leading_newlines s')%nat
          then String LF (String LF (sub_excessive_newlines (through_last_newline s') s'))
          else String c (sub_excessive_newlines 0 s')
      end
  end.

(** [re.sub(r'[ \t]+', ' ', s)]; [in_run] says that the previous character
    was a blank or a tab. *)
Fixpoint sub_blanks (in_run : bool) (s : string) : string :=
  match s with
  | EmptyString => EmptyString
  | String c s' =>
      if Ascii.eqb c " " || Ascii.eqb c TAB
      then if in_run then sub_blanks true s' else String " " (sub_blanks true s')
      else String c (sub_blanks false s')
  end.

(** What the loop over [element.descendants] appends for [n] and for the
    nodes below it. *)
Fixpoint text_parts (n : Node) : list string :=
  match n with
  | NavigableString s => [s]
  | Tag name _ contents =>
      (if existsb (String.eqb name) ["p"; "div"; "br"] then [String LF ""]
       else if existsb (String.eqb name) ["h1"; "h2"; "h3"; "h4"; "h5"; "h6"]
            then [String LF (String LF "")]
            else [])
      ++ flat_map text_parts contents
  end.

Definition contents_of (n : Node) : list Node :=
  match n with
  | NavigableString _ => []
  | Tag _ _ contents => contents
  end.

(** [_extract_formatted_text(element)]: the script and style tags below
    [element] are decomposed in place, then the descendants are walked. The
    second component is [element] after the call. *)
Definition _extract_formatted_text (element : Node) : string * Node :=
  let element := decompose_all ["script"; "style"] element in
  let text_parts := flat_map text_parts (contents_of element) in
  let text := String.concat "" text_parts in
  let text := sub_excessive_newlines 0 text in
  let text := sub_blanks false text in
  (strip text, element).

Definition title_selectors : list string :=
  ["h1"; ".announcement-title"; ".post-title"; ".article-title"; "title"].

(** The [for selector in title_selectors] loop of [_extract_title]. *)
Fixpoint title_loop (soup : PageElement) (selectors : list string) : option string :=
  match selectors with
  | [] => None
  | selector :: rest =>
      match select_one selector soup with
      | Some title_element =>
          let title := get_text_strip (node title_element) in
          if nonempty title && (5 <? String.length title)%nat
          then Some title
          else title_loop soup rest
      | None => title_loop soup rest
      end
  end.

Definition _extract_title (soup : PageElement) : option string :=
  title_loop soup title_selectors.

(** The loop of [_find_largest_text_block]. *)
Fixpoint largest_loop (candidates : list PageElement)
    (best_candidate : option PageElement) (max_text_length : nat)
    : option PageElement * nat :=
  match candidates with
  | [] => (best_candidate, max_text_length)
  | candidate :: rest =>
      let text_length := String.length (get_text_strip (node candidate)) in
      if (max_text_length <? text_length)%nat
      then largest_loop rest (Some candidate) text_length
      else largest_loop rest best_candidate max_text_length
  end.

Definition _find_largest_text_block (soup : PageElement) : option PageElement :=
  let candidates := find_all ["div"; "section"; "article"] soup in
  match largest_loop candidates None 0 with
  | (Some best_candidate, max_text_length) =>
      if (100 <? max_text_length)%nat then Some best_candidate else None
  | (None, _) => None
  end.

Definition content_selectors : list string :=
  ["article"; ".announcement-content"; ".post-content"; ".article-content";
   ".content"; "main"; "#content"; ".main-content"].

Fixpoint content_area_loop (soup : PageElement) (selectors : list string)
    : option PageElement :=
  match selectors with
  | [] => _find_largest_text_block soup
  | selector :: rest =>
      match select_one selector soup with
      | Some content_area => Some content_area
      | None => content_area_loop soup rest
      end
  end.

Definition _find_content_area (soup : PageElement) : option PageElement :=
  content_area_loop soup content_selectors.

(** [_extract_content_text(soup)]. The call of [_extract_formatted_text]
    changes the content area in place: the second component is the document
    after the call. *)
Definition _extract_content_text (soup : PageElement) : option string * PageElement :=
  match _find_content_area soup with
  | Some content_area =>
      let '(content_text, element) := _extract_formatted_text (node content_area) in
      let soup := root (mkPageElement element (ancestors content_area)) in
      if nonempty content_text && (50 <? String.length (strip content_text))%nat
      then (Some content_text, soup)
      else (None, soup)
  | None => (None, soup)
  end.

(** [_get_link_context(link)] *)
Definition _get_link_context (link : PageElement) : string :=
  match parent link with
  | Some parent =>
      let context_text := get_text_strip (node parent) in
      if (200 <? String.length context_text)%nat
      then slice_to 200 context_text ++ "..."
      else context_text
  | None => ""
  end.

Section ContentExtractor.

(** [urllib.parse.urljoin]; it raises [ValueError] on some malformed input. *)
Variable urljoin : string -> string -> result string.

(** [_extract_publication_date(soup)]: the page-level cascade over
    structured data, date selectors and text patterns. It returns a date or
    [None], or raises where [json.loads] is handed a script tag without a
    single string. *)
Variable _extract_publication_date : PageElement -> result (option datetime).

(** The nodes that [BeautifulSoup(html_content, 'html.parser')] parses the
    markup into. *)
Variable html_parser : string -> list Node.

(** The body of the loop of [extract_embedded_links] for one link; [None]
    is [continue], also from the [except] clause. *)
Definition embedded_link_of (base_url : string) (link : PageElement)
    : option EmbeddedLink.t :=
  let href := strip (get_or_empty "href" (node link)) in
  if negb (nonempty href) then None
  else
    match urljoin base_url href with
    | Raise _ => None
    | Return absolute_url =>
        if startswith "#" href then None
        else
          let link_text := get_text_strip (node link) in
          let link_text := if nonempty link_text then link_text else href in
          let context := _get_link_context link in
          Some (EmbeddedLink.mk link_text absolute_url context)
    end.

Definition extract_embedded_links (soup : PageElement) (base_url : string)
    : list EmbeddedLink.t :=
  let content_area :=
    match _find_content_area soup with
    | Some content_area => content_area
    | None => soup
    end in
  let links := find_all_with_attr "a" "href" content_area in
  omap (embedded_link_of base_url) links.

(** [parse_announcement_page], from the parsed document on: [soup] is
    [BeautifulSoup(html_content, 'html.parser')]. *)
Definition parse_announcement_page (soup : PageElement) (url : string)
    (publication_date : option datetime) : IO AnnouncementContent.t :=
  title ← match _extract_title soup with
          | Some title =>
              if nonempty title then mret title
              else raise (ValueError "Could not extract title from announcement page")
          | None => raise (ValueError "Could not extract title from announcement page")
          end;
  publication_date ←
    match publication_date with
    | Some _ => mret publication_date
    | None =>
        publication_date ← lift (_extract_publication_date soup);
        match publication_date with
        | Some _ => mret publication_date
        | None => now ← datetime_now; mret (Some now)
        end
    end;
  let '(content_text, soup) := _extract_content_text soup in
  content_text ← match content_text with
                 | Some content_text =>
                     if nonempty content_text then mret content_text
                     else raise (ValueError "Could not extract content text from announcement page")
                 | None => raise (ValueError "Could not extract content text from announcement page")
                 end;
  let embedded_links := extract_embedded_links soup url in
  extraction_timestamp ← datetime_now;
  mret (AnnouncementContent.mk title url publication_date content_text
          embedded_links extraction_timestamp).

(** [extract_content]: a [RequestException] passes through, any other
    exception comes out as a [ValueError]. *)
Definition extract_content (http_client : HTTPClient) (url : string)
    (publication_date : option datetime) : IO AnnouncementContent.t :=
  try_except
    (response ← fetch_with_retry http_client url 3 None;
     let html_content := text response in
     parse_announcement_page (BeautifulSoup (html_parser html_content)) url publication_date)
    (fun e =>
       match e with
       | RequestException _ _ => raise e
       | _ => raise (ValueError ("Content parsing failed: " ++ str_of_exception e))
       end).

End ContentExtractor.


(* ===================================================================== *)
(** * homepage_parser.py                                                  *)
(* ===================================================================== *)

(** The six fields of [urllib.parse.ParseResult]. *)
Module ParseResult.
Record t := mk {
  scheme : string;
  netloc : string;
  path : string;
  params : string;
  query : string;
  fragment : string
}.
End ParseResult.

(** [c.lower()] of one character (code points below 256). *)
Definition lower_char (c : ascii) : ascii :=
  let n := N_of_ascii c in
  if ((65 <=? n) && (n <=? 90) || (192 <=? n) && (n <=? 222) && negb (n =? 215))%N
  then ascii_of_N (n + 32)
  else c.

(** [s.lower()] *)
Fixpoint lower (s : string) : string :=
  match s with
  | EmptyString => EmptyString
  | String c s' => String (lower_char c) (lower s')
  end.

Definition skip_patterns : list string :=
  ["/about/"; "/contact/"; "/support/"; "/pricing/";
   "/documentation/"; "/console/"; "/signin/"; "/signup/";
   "javascript:"; "mailto:"; "#"].

Definition announcement_patterns : list string :=
  ["/new/"; "/announcement/"; "/blog/"; "/press/";
   "/release/"; "/update/"; "/launch/"].

(** [_extract_link_title(anchor)] *)
Definition _extract_link_title (anchor : PageElement) : string :=
  let title := strip (get_or_empty "title" (node anchor)) in
  if nonempty title then title
  else
    let text := get_text_strip (node anchor) in
    if nonempty text then text
    else
      match find_tag "img" anchor with
      | Some img =>
          let alt_text := strip (get_or_empty "alt" (node img)) in
          if nonempty alt_text then alt_text else ""
      | None => ""
      end.

(** [_extract_preview_text(anchor)]. [str.split] raises [ValueError] when
    [link_text] is empty. *)
Definition _extract_preview_text (anchor : PageElement) : result (option string) :=
  match parent anchor with
  | Some parent =>
      let meaningful sibling :=
        let text := get_text_strip sibling in
        nonempty text && (20 <? String.length text)%nat in
      match List.find meaningful (find_next_siblings parent) with
      | Some sibling => Return (Some (slice_to 200 (get_text_strip sibling)))
      | None =>
          let parent_text := get_text_strip (node parent) in
          let link_text := get_text_strip (node anchor) in
          if nonempty parent_text && contains link_text parent_text then
            remaining ← split_once link_text parent_text;
            match remaining with
            | _ :: after_link :: _ =>
                if nonempty (strip after_link) then
                  let preview := strip after_link in
                  Return (if (20 <? String.length preview)%nat
                          then Some (slice_to 200 preview) else None)
                else Return None
            | _ => Return None
            end
          else Return None
      end
  | None => Return None
  end.

(** [element.find_parent(name)] *)
Fixpoint find_parent_from (name : string) (n : Node) (up : list Crumb)
    : option PageElement :=
  match up with
  | [] => None
  | c :: up' =>
      let p := Tag (parent_name c) (parent_attrs c) (rev (before c) ++ n :: after c) in
      if String.eqb (parent_name c) name then Some (mkPageElement p up')
      else find_parent_from name p up'
  end.

Definition find_parent (name : string) (e : PageElement) : option PageElement :=
  find_parent_from name (node e) (ancestors e).

(** The loop that removes duplicates at the end of
    [_extract_from_json_data]. *)
Fixpoint unique_loop (announcements : list AnnouncementLink.t)
    (seen_urls : gset string) (unique_announcements : list AnnouncementLink.t)
    : list AnnouncementLink.t :=
  match announcements with
  | [] => unique_announcements
  | announcement :: rest =>
      if decide (AnnouncementLink.url announcement ∉ seen_urls)
      then unique_loop rest ({[AnnouncementLink.url announcement]} ∪ seen_urls)
             (unique_announcements ++ [announcement])
      else unique_loop rest seen_urls unique_announcements
  end.

Section HomepageParser.

Variable base_url : string.

(** [urllib.parse.urljoin] and [urllib.parse.urlparse]; both raise
    [ValueError] on some malformed input. *)
Variable urljoin : string -> string -> result string.
Variable urlparse : string -> result ParseResult.t.

(** [str(element)]: the markup that bs4 writes for an element. *)
Variable str_of_node : Node -> string.

(** The announcements that the loop over [json_patterns] collects from the
    page content, in order: for each regex hit, the braces are matched
    outward, the object is loaded and [_parse_announcement_from_json] maps
    it to a link or drops it. *)
Variable json_pattern_announcements : string -> list AnnouncementLink.t.

(** [_extract_from_large_json_structure(page_content)] *)
Variable _extract_from_large_json_structure : string -> list AnnouncementLink.t.

Definition _resolve_url (href : string) : result string :=
  if startswith "http://" href || startswith "https://" href then Return href
  else urljoin base_url href.

Definition _is_announcement_url (url : string) : bool :=
  match urlparse url with
  | Raise _ => false
  | Return parsed =>
      if nonempty (ParseResult.netloc parsed)
         && negb (contains "amazonaws.cn" (ParseResult.netloc parsed))
      then false
      else
        let path := lower (ParseResult.path parsed) in
        if existsb (fun pattern => contains pattern path) skip_patterns then false
        else if existsb (fun pattern => contains pattern path) announcement_patterns
             then true
             else (1 <? String.length path)%nat && negb (String.eqb path "/")
  end.

(** The value of [announcements] when the loop that removes duplicates
    starts. *)
Definition json_announcements (section : PageElement) : list AnnouncementLink.t :=
  let page_content :=
    str_of_node (node (match find_parent "html" section with
                       | Some html => html
                       | None => section
                       end)) in
  let announcements := json_pattern_announcements page_content in
  match announcements with
  | [] => _extract_from_large_json_structure page_content
  | _ => announcements
  end.

Definition _extract_from_json_data (section : PageElement) : list AnnouncementLink.t :=
  unique_loop (json_announcements section) ∅ [].

(** The body of the [try] in the loop of [extract_announcement_links]:
    [Return None] is [continue]; an exception is caught by the loop. *)
Definition anchor_link (anchor : PageElement) : result (option AnnouncementLink.t) :=
  let href := strip (get_or_empty "href" (node anchor)) in
  if negb (nonempty href) then Return None
  else
    full_url ← _resolve_url href;
    if negb (_is_announcement_url full_url) then Return None
    else
      let title := _extract_link_title anchor in
      if negb (nonempty title) then Return None
      else
        preview_text ← _extract_preview_text anchor;
        Return (Some (AnnouncementLink.mk title full_url preview_text None)).

(** The [for anchor in anchor_tags] loop. *)
Fixpoint anchor_loop (anchor_tags : list PageElement) (links : list AnnouncementLink.t)
    : list AnnouncementLink.t :=
  match anchor_tags with
  | [] => links
  | anchor :: rest =>
      match anchor_link anchor with
      | Return (Some announcement_link) => anchor_loop rest (links ++ [announcement_link])
      | Return None => anchor_loop rest links
      | Raise _ => anchor_loop rest links
      end
  end.

Definition extract_announcement_links (section : PageElement) : list AnnouncementLink.t :=
  let json_links := _extract_from_json_data section in
  match json_links with
  | _ :: _ => json_links
  | [] =>
      let anchor_tags := find_all_with_attr "a" "href" section in
      anchor_loop anchor_tags []
  end.

(** The walk up the tree in [find_announcements_section], [depth] levels
    at most, from [current]. *)
Fixpoint walk_up (depth : nat) (current : option PageElement) : option PageElement :=
  match depth, current with
  | S depth', Some current =>
      if name_in ["div"; "section"; "article"] (node current)
         && bool_decide (find_all ["a"] current <> [])
      then Some current
      else walk_up depth' (parent current)
  | _, _ => None
  end.

(** The loop over the strings that contain the heading of the section. *)
Fixpoint heading_loop (elements : list PageElement) : option PageElement :=
  match elements with
  | [] => None
  | element :: rest =>
      match walk_up 5 (parent element) with
      | Some current => Some current
      | None => heading_loop rest
      end
  end.

(** The test that [find_all] runs on a class attribute for
    [class_=lambda x: x and any(keyword in x.lower() for keyword in ...)]:
    some class of the element contains a keyword. *)
Definition class_has_keyword (n : Node) : bool :=
  existsb (fun x =>
             existsb (fun keyword => contains keyword (lower x))
               ["news"; "announcement"; "recent"; "latest"])
    (split_ws (get_or_empty "class" n)).

Definition find_announcements_section (soup : PageElement) : option PageElement :=
  let page_content := str_of_node (node soup) in
  if contains (quoted "itemTitle") page_content && contains (quoted "itemLink") page_content
  then Some soup
  else
    let target_text := "Most Recent Announcements from Amazon Web Services" in
    let elements :=
      List.filter (fun d => match node d with
                            | NavigableString text => nonempty text && contains target_text text
                            | Tag _ _ _ => false
                            end) (descendants soup) in
    match heading_loop elements with
    | Some current => Some current
    | None =>
        let potential_sections :=
          List.filter (fun d => name_in ["div"; "section"; "ul"] (node d)
                                && class_has_keyword (node d)) (descendants soup) in
        match List.find (fun section =>
                           (3 <=? length (find_all_with_attr "a" "href" section))%nat)
                potential_sections with
        | Some section => Some section
        | None =>
            if contains (quoted "itemTitle") page_content then Some soup else None
        end
    end.

(** [parse_homepage], from the parsed document on: [soup] is
    [BeautifulSoup(html_content, 'html.parser')]. The [except] clause logs
    and re-raises. *)
Definition parse_homepage (soup : PageElement) : result (list AnnouncementLink.t) :=
  match find_announcements_section soup with
  | None =>
      Raise (ValueError
               "Could not find 'Most Recent Announcements from Amazon Web Services' section")
  | Some announcements_section =>
      Return (extract_announcement_links announcements_section)
  end.

End HomepageParser.


(* ===================================================================== *)
(** * scraper_orchestrator.py                                             *)
(* ===================================================================== *)

Module FailedExtraction.
Record t := mk {
  url : string;
  error_message : string;
  error_type : string;
  timestamp : datetime
}.
End FailedExtraction.

(** The orchestrator with what it reads of its configuration: the keys
    [http.max_retries], [http.rate_limit_delay] (in whole seconds) and
    [filtering.date_filter]. *)
Record ScraperOrchestrator := mkScraperOrchestrator {
  http_client : HTTPClient;
  max_retries : Z;
  rate_limit_delay : Z;
  date_filter_config : option string
}.

(** The loop of [_apply_date_filtering_to_links]; a link without a
    publication date is skipped. *)
Fixpoint links_loop (filter_year filter_month : Z)
    (announcement_links filtered_links : list AnnouncementLink.t)
    : list AnnouncementLink.t :=
  match announcement_links with
  | [] => filtered_links
  | link :: rest =>
      links_loop filter_year filter_month rest
        (match AnnouncementLink.publication_date link with
         | Some publication_date =>
             if (year publication_date =? filter_year)
                && (month publication_date =? filter_month)
             then (filtered_links ++ [link])%list
             else filtered_links
         | None => filtered_links
         end)
  end.

(** [_apply_date_filtering_to_links]: the filter string is split and read
    here, not by [parse_date_filter]; the [except] clause answers every
    exception with the unfiltered links. *)
Definition _apply_date_filtering_to_links (self : ScraperOrchestrator)
    (announcement_links : list AnnouncementLink.t) : list AnnouncementLink.t :=
  match date_filter_config self with
  | None => announcement_links
  | Some date_filter_config =>
      if negb (nonempty date_filter_config) then announcement_links
      else
        match split_char "-" date_filter_config with
        | [year_str; month_str] =>
            match int year_str with
            | Raise _ => announcement_links
            | Return filter_year =>
                match int month_str with
                | Raise _ => announcement_links
                | Return filter_month =>
                    links_loop filter_year filter_month announcement_links []
                end
            end
        | _ => announcement_links
        end
  end.

(** [_apply_date_filtering]: [filter_by_date] under a [try]; the [except]
    clause answers every exception with the unfiltered announcements. *)
Definition _apply_date_filtering (self : ScraperOrchestrator)
    (announcements : list AnnouncementContent.t) : list AnnouncementContent.t :=
  match date_filter_config self with
  | None => announcements
  | Some date_filter_config =>
      if negb (nonempty date_filter_config) then announcements
      else
        match filter_by_date announcements (Some date_filter_config) with
        | Return filtered_announcements => filtered_announcements
        | Raise _ => announcements
        end
  end.

Section ScraperOrchestrator.

Variable urljoin : string -> string -> result string.
Variable urlparse : string -> result ParseResult.t.
Variable _extract_publication_date : PageElement -> result (option datetime).
Variable html_parser : string -> list Node.
Variable str_of_node : Node -> string.
Variable json_pattern_announcements : string -> list AnnouncementLink.t.
Variable _extract_from_large_json_structure : string -> list AnnouncementLink.t.

(** [str(e)] and [type(e).__name__] of an exception of [requests]. *)
Variable str_of_request_exception : RequestExceptionClass -> option Response -> string.
Variable name_of_request_exception : RequestExceptionClass -> option Response -> string.

Definition error_message_of (e : Exception) : string :=
  match e with
  | RequestException cls response => str_of_request_exception cls response
  | _ => str_of_exception e
  end.

Definition error_type_of (e : Exception) : string :=
  match e with
  | ValueError _ => "ValueError"
  | TypeError _ => "TypeError"
  | RequestException cls response => name_of_request_exception cls response
  end.

(** [_fetch_homepage_links]; the [except] clause logs and re-raises. The
    parser is [HomepageParser()], with its default base URL. *)
Definition _fetch_homepage_links (self : ScraperOrchestrator) (target_url : string)
    : IO (list AnnouncementLink.t) :=
  response ← fetch_with_retry (http_client self) target_url (max_retries self) None;
  lift (parse_homepage "https://www.amazonaws.cn/en/new/" urljoin urlparse str_of_node
          json_pattern_announcements _extract_from_large_json_structure
          (BeautifulSoup (html_parser (text response)))).

(** The loop of [_extract_all_content] from the [i]-th of [total] links
    on; the counters of the orchestrator, which only the log reads, are
    left out. *)
Fixpoint extract_all_loop (self : ScraperOrchestrator) (total i : nat)
    (announcement_links : list AnnouncementLink.t)
    (successful_extractions : list AnnouncementContent.t)
    (failed_extractions : list FailedExtraction.t)
    : IO (list AnnouncementContent.t * list FailedExtraction.t) :=
  match announcement_links with
  | [] => mret (successful_extractions, failed_extractions)
  | link :: rest =>
      extractions ←
        try_except
          (content ← extract_content urljoin _extract_publication_date html_parser
                       (http_client self) (AnnouncementLink.url link)
                       (AnnouncementLink.publication_date link);
           mret ((successful_extractions ++ [content])%list, failed_extractions))
          (fun e =>
             timestamp ← datetime_now;
             let failure :=
               FailedExtraction.mk (AnnouncementLink.url link) (error_message_of e)
                 (error_type_of e) timestamp in
             mret (successful_extractions, (failed_extractions ++ [failure])%list));
      _ ← (if (i <? total)%nat && (0 <? rate_limit_delay self)
           then sleep (rate_limit_delay self) else mret tt);
      extract_all_loop self total (S i) rest (fst extractions) (snd extractions)
  end.

Definition _extract_all_content (self : ScraperOrchestrator)
    (announcement_links : list AnnouncementLink.t)
    : IO (list AnnouncementContent.t * list FailedExtraction.t) :=
  extract_all_loop self (length announcement_links) 1 announcement_links [] [].

End ScraperOrchestrator.


(* ===================================================================== *)
(** * main.py                                                             *)
(* ===================================================================== *)

(** What a validator of a command-line argument answers: the value, or
    [argparse.ArgumentTypeError] with its message. *)
Inductive validated (A : Type) :=
| Valid (a : A)
| ArgumentTypeError (msg : string).
Arguments Valid {A} a.
Arguments ArgumentTypeError {A} msg.

(** [validate_date_filter]: the [except ValueError] clause catches what
    the unpacking and [int] raise, not the [ArgumentTypeError]s raised in
    the [try] block. *)
Definition validate_date_filter (date_string : string) : validated string :=
  let invalid :=
    ArgumentTypeError ("Invalid date format '" ++ date_string
                       ++ "'. Expected YYYY-MM format (e.g., 2026-01)") in
  if negb (nonempty date_string) then ArgumentTypeError "Date filter cannot be empty"
  else if negb (date_pattern_match date_string) then invalid
  else
    match split_char "-" date_string with
    | [year_str; month_str] =>
        match int year_str with
        | Raise _ => invalid
        | Return year =>
            match int month_str with
            | Raise _ => invalid
            | Return month =>
                if (year <? 2000) || (year >? 2100) then
                  ArgumentTypeError ("Year " ++ str_of_int year
                                     ++ " is outside reasonable range (2000-2100)")
                else if (month <? 1) || (month >? 12) then
                  ArgumentTypeError ("Month " ++ str_of_int month
                                     ++ " is invalid. Must be between 01 and 12")
                else Valid date_string
            end
        end
    | _ => invalid
    end.


(* ===================================================================== *)
(** * config_manager.py                                                   *)
(* ===================================================================== *)

Module ConfigurationManager.
Section Config.

(** The values of a configuration other than dicts: None, numbers,
    strings, lists. Subscripting one with a string key, or assigning to it
    under a string key, raises [TypeError]. *)
Variable Scalar : Type.

#[warnings="-register-all"] Inductive Value :=
| Leaf (scalar : Scalar)
| Dict (items : gmap string Value).

(** The loop of [get]; [None] is the [KeyError] or [TypeError] that the
    [except] clause answers with the default. *)
Fixpoint get_loop (keys : list string) (value : Value) : option Value :=
  match keys with
  | [] => Some value
  | key :: rest =>
      match value with
      | Dict items =>
          match items !! key with
          | Some value => get_loop rest value
          | None => None
          end
      | Leaf _ => None
      end
  end.

(** [get(key_path, default)] on the configuration [config]. *)
Definition get (config : Value) (key_path : string) (default : Value) : Value :=
  let keys := split_char "." key_path in
  match get_loop keys config with
  | Some value => value
  | None => default
  end.

(** [set]: the walk to the parent of the target key, which creates the
    dicts that are missing, and the assignment; the dicts are updated in
    place, so the configuration afterwards is [config] with the path
    rebuilt. [None] is the [TypeError] of a value on the way that is not a
    dict; nothing has been changed when it is raised. *)
Fixpoint set_loop (keys : list string) (last_key : string) (value config : Value)
    : option Value :=
  match config with
  | Leaf _ => None
  | Dict items =>
      match keys with
      | [] => Some (Dict (<[last_key := value]> items))
      | key :: rest =>
          let child := match items !! key with
                       | Some child => child
                       | None => Dict ∅
                       end in
          match set_loop rest last_key value child with
          | Some child => Some (Dict (<[key := child]> items))
          | None => None
          end
      end
  end.

(** [set(key_path, value)] on the configuration [config]. *)
Definition set (config : Value) (key_path : string) (value : Value) : option Value :=
  let keys := split_char "." key_path in
  set_loop (removelast keys) (List.last keys "") value config.

End Config.
End ConfigurationManager.

(* ===================================================================== *)
(** * Reference instances of the library functions                        *)
(* ===================================================================== *)

(** The library functions that the sections above take as variables are
    instantiated here, to run the model on examples. *)

Definition isalpha_ascii (c : ascii) : bool :=
  let n := N_of_ascii c in
  ((65 <=? n) && (n <=? 90) || (97 <=? n) && (n <=? 122))%N.

Definition is_scheme_char (c : ascii) : bool :=
  isalpha_ascii c || isdigit c
  || Ascii.eqb c "+" || Ascii.eqb c "-" || Ascii.eqb c ".".

(** The least index of a character of [s] that satisfies [p]. *)
Fixpoint find_char (p : ascii -> bool) (s : string) : option nat :=
  match s with
  | EmptyString => None
  | String c s' => if p c then Some 0%nat else option_map S (find_char p s')
  end.

(** [s.partition(c)], without the separator. *)
Definition cut_at (c : ascii) (s : string) : string * string :=
  match find_char (Ascii.eqb c) s with
  | Some i => (slice_to i s, slice_from (S i) s)
  | None => (s, "")
  end.

(** [urlparse] as in [urllib.parse], for a URL free of control characters,
    brackets and path parameters: scheme, then [//netloc] up to the first
    of [/?#], then fragment and query. *)
Definition urlparse_ref (url : string) : result ParseResult.t :=
  let '(scheme, url) :=
    match find_char (Ascii.eqb ":") url with
    | Some (S i) =>
        let s := slice_to (S i) url in
        if isalpha_ascii (match s with String c _ => c | _ => " "%char end)
           && bool_decide (find_char (fun c => negb (is_scheme_char c)) s = None)
        then (lower s, slice_from (S (S i)) url)
        else ("", url)
    | _ => ("", url)
    end in
  let '(netloc, url) :=
    if startswith "//" url then
      let rest := slice_from 2 url in
      match find_char (fun c => Ascii.eqb c "/" || Ascii.eqb c "?" || Ascii.eqb c "#") rest with
      | Some i => (slice_to i rest, slice_from i rest)
      | None => (rest, "")
      end
    else ("", url) in
  let '(url, fragment) := cut_at "#" url in
  let '(url, query) := cut_at "?" url in
  Return (ParseResult.mk scheme netloc url "" query fragment).

(** The index after the last [/] of [s]. *)
Fixpoint after_last_slash (s : string) : nat :=
  match s with
  | EmptyString => 0
  | String c s' =>
      match find_char (Ascii.eqb "/") s' with
      | Some _ => S (after_last_slash s')
      | None => if Ascii.eqb c "/" then 1%nat else 0%nat
      end
  end.

(** [urljoin] as in [urllib.parse], for an absolute base and a reference
    that is absolute, starts with [/], or is a relative path free of dot
    segments. *)
Definition urljoin_ref (base url : string) : result string :=
  b ← urlparse_ref base;
  u ← urlparse_ref url;
  let origin := ParseResult.scheme b ++ "://" ++ ParseResult.netloc b in
  if nonempty (ParseResult.scheme u) then Return url
  else if startswith "//" url then Return (ParseResult.scheme b ++ ":" ++ url)
  else if startswith "/" url then Return (origin ++ url)
  else Return (origin
               ++ slice_to (after_last_slash (ParseResult.path b)) (ParseResult.path b)
               ++ url).

Definition default_base_url : string := "https://www.amazonaws.cn/en/new/".

(** [str(element)] as bs4 writes it, for text free of the characters that
    it escapes: tags with their attributes around their contents. *)
Fixpoint markup_ref (n : Node) : string :=
  match n with
  | NavigableString s => s
  | Tag name attrs contents =>
      "<" ++ name
      ++ String.concat ""
           (map (fun kv => " " ++ fst kv ++ "=" ++ quoted (snd kv)) (map_to_list attrs))
      ++ ">" ++ String.concat "" (map markup_ref contents)
      ++ "</" ++ name ++ ">"
  end.

(** The scans for JSON data on a page content without ["itemTitle"]: every
    pattern of [_extract_from_json_data] and of
    [_extract_from_large_json_structure] needs one, so they find nothing. *)
Definition no_json (page_content : string) : list AnnouncementLink.t := [].


(* ===================================================================== *)
(** * Definitions for the statements                                      *)
(* ===================================================================== *)

(** The character of a decimal digit. *)
Definition digit_char (d : Z) : ascii := ascii_of_N (Z.to_N (d + 48)).

(** The date filter string of a year and a month, as [f"{y:04d}-{m:02d}"]
    writes it: four digits, a hyphen, two digits. *)
Definition format_yyyy_mm (y m : Z) : string :=
  String (digit_char ((y / 1000) mod 10))
    (String (digit_char ((y / 100) mod 10))
       (String (digit_char ((y / 10) mod 10))
          (String (digit_char (y mod 10))
             (String "-"
                (String (digit_char ((m / 10) mod 10))
                   (String (digit_char (m mod 10)) EmptyString)))))).

(** Stated from the specification: a 4-digit year, a hyphen and a 2-digit
    month, the year in [2000,2100] and the month in [1,12]. *)
Definition yyyy_mm_valid (s : string) : Prop :=
  exists y m, 2000 <= y <= 2100 /\ 1 <= m <= 12 /\ s = format_yyyy_mm y m.

(** [s.endswith('\n')] *)
Fixpoint ends_with_newline (s : string) : bool :=
  match s with
  | EmptyString => false
  | String c EmptyString => Ascii.eqb c LF
  | String _ s' => ends_with_newline s'
  end.

(** Stated from the specification: the records of [l] whose publication
    date falls in the given month of the given year, in the order of [l]. *)
Definition records_in_month {A : Type} `{HasPublicationDate A} (y m : Z) (l : list A)
    : list A :=
  List.filter (fun a => match publication_date a with
                        | Some d => (year d =? y) && (month d =? m)
                        | None => false
                        end) l.

Definition has_url (u : string) (a : AnnouncementLink.t) : bool :=
  String.eqb (AnnouncementLink.url a) u.

(** Stated from the specification: of the entries with the URL [u], the
    first encountered. *)
Definition first_with_url (u : string) (l : list AnnouncementLink.t)
    : list AnnouncementLink.t :=
  match List.find (has_url u) l with
  | Some first => [first]
  | None => []
  end.

(** The string is empty or starts with a character that is not white space. *)
Definition starts_clean (s : string) : Prop :=
  match s with
  | EmptyString => True
  | String c _ => isspace c = false
  end.

Definition title_error : Exception :=
  ValueError "Could not extract title from announcement page".
Definition content_error : Exception :=
  ValueError "Could not extract content text from announcement page".

(** The world after one more reading of the clock. *)
Definition tick (w : World) : World :=
  mkWorld (network w) (requests_made w) (slept w) (clock w) (S (clock_reads w)).

(** The publication date that [parse_announcement_page] settles on, with
    the world after settling it. *)
Definition resolve_publication_date
    (_extract_publication_date : PageElement -> result (option datetime))
    (soup : PageElement) (publication_date : option datetime) (w : World) : result (option datetime) * World :=
  match publication_date with
  | Some d => (Return (Some d), w)
  | None =>
      match _extract_publication_date soup with
      | Raise e => (Raise e, w)
      | Return (Some found) => (Return (Some found), w)
      | Return None => (Return (Some (clock w (clock_reads w))), tick w)
      end
  end.

(** The URL parses to a network host that is not empty and does not
    contain amazonaws.cn. *)
Definition off_domain (urlparse : string -> result ParseResult.t) (url : string) : Prop :=
  exists parsed, urlparse url = Return parsed
    /\ ParseResult.netloc parsed <> ""
    /\ contains "amazonaws.cn" (ParseResult.netloc parsed) = false.

(** The URL parses to the given path on the site itself: no host, or a
    host that contains amazonaws.cn. *)
Definition same_domain_path (urlparse : string -> result ParseResult.t)
    (url path : string) : Prop :=
  exists parsed, urlparse url = Return parsed
    /\ (ParseResult.netloc parsed = ""
        \/ contains "amazonaws.cn" (ParseResult.netloc parsed) = true)
    /\ ParseResult.path parsed = path.

(* ===================================================================== *)
(** * Example data                                                        *)
(* ===================================================================== *)

Definition link_on (title url : string) (date : option datetime) : AnnouncementLink.t :=
  AnnouncementLink.mk title url None date.

Definition three_links : list AnnouncementLink.t :=
  [link_on "January one" "https://www.amazonaws.cn/new/a" (Some (mkDatetime 2026 1 15 0 0 0 0));
   link_on "February" "https://www.amazonaws.cn/new/b" (Some (mkDatetime 2026 2 3 0 0 0 0));
   link_on "Undated" "https://www.amazonaws.cn/new/c" None;
   link_on "January two" "https://www.amazonaws.cn/new/d" (Some (mkDatetime 2026 1 31 0 0 0 0))].

(** Discovered entries, the third with the URL of the first. *)
Definition repeated_links : list AnnouncementLink.t :=
  [link_on "First" "https://www.amazonaws.cn/new/a" None;
   link_on "Other" "https://www.amazonaws.cn/new/b" None;
   link_on "Again" "https://www.amazonaws.cn/new/a" None].

Definition always_503 : World :=
  mkWorld (fun n _ _ => Return (mkResponse 503 ("Service Unavailable #" ++ str_of_int (Z.of_nat n))))
    0 [] (fun n => mkDatetime 2026 11 6 12 0 (Z.of_nat n) 0) 0.

(** A world without network, at noon. *)
Definition offline_world : World :=
  mkWorld (fun _ _ _ => Raise (RequestException ConnectionError None))
    0 [] (fun n => mkDatetime 2026 11 6 12 0 (Z.of_nat n) 0) 0.

Definition fifty_characters : string :=
  "AWS Lambda now supports functions written in Rust.".

Definition el (name : string) (contents : list Node) : Node := Tag name ∅ contents.

(** A page with a title and an article of the given text. *)
Definition page_with_text (heading body : string) : PageElement :=
  BeautifulSoup
    [el "html"
       [el "head" [el "title" [NavigableString "AWS announces a new feature"]];
        el "body"
          [el "h1" [NavigableString heading];
           el "article" [el "p" [NavigableString body]]]]].

Definition page_fifty : PageElement :=
  page_with_text "AWS Lambda adds Rust" fifty_characters.
Definition page_fifty_one : PageElement :=
  page_with_text "AWS Lambda adds Rust" (fifty_characters ++ "!").
Definition page_short_h1 : PageElement :=
  page_with_text "Short" (fifty_characters ++ " It is available in all regions.").
Definition page_without_title : PageElement :=
  BeautifulSoup [el "html" [el "body" [el "article" [el "p" [NavigableString fifty_characters]]]]].

(** A page-level date extraction that finds no date. *)
Definition no_page_date (soup : PageElement) : result (option datetime) := Return None.

Definition supplied_date : datetime := mkDatetime 2026 1 15 0 0 0 0.
Definition detail_url : string := "https://www.amazonaws.cn/new/2026/01/feature-x".

Definition anchor (attrs : list (string * string)) (contents : list Node) : Node :=
  Tag "a" (list_to_map attrs) contents.

Definition section_heading : Node :=
  el "h2" [NavigableString "Most Recent Announcements from Amazon Web Services"].

Definition landing_page (entries : list Node) : PageElement :=
  BeautifulSoup
    [el "html"
       [el "body"
          [Tag "div" (list_to_map [("class", "announcements")])
             (section_heading :: entries)]]].

(** Three anchors: one to another site, one to an announcement, one to a
    navigation page. *)
Definition landing_three_anchors : PageElement :=
  landing_page
    [el "ul"
       [el "li" [anchor [("href", "https://aws.example.com/new/2026/01/feature-x")]
                   [NavigableString "Mirror of Feature X"]];
        el "li" [anchor [("href", "/new/2026/01/feature-x")] [NavigableString "Feature X"]];
        el "li" [anchor [("href", "/about/team")] [NavigableString "Our team"]]]].

(** An anchor around an icon, titled by its title attribute, followed by
    text in the same paragraph. *)
Definition landing_icon_link : PageElement :=
  landing_page
    [el "p"
       [anchor [("href", "/new/2026/01/feature-x"); ("title", "Feature X")]
          [Tag "img" (list_to_map [("src", "icon.png")]) []];
        NavigableString " Read more"]].

(** Link Discovery on a parsed landing page, with the reference instances
    of the library functions. *)
Definition link_discovery (page : PageElement) : result (list AnnouncementLink.t) :=
  parse_homepage default_base_url urljoin_ref urlparse_ref markup_ref no_json no_json page.

Definition section_of (page : PageElement) : PageElement :=
  match find_announcements_section markup_ref page with
  | Some section => section
  | None => page
  end.

(* ===================================================================== *)
(** * Definitions for the further facts                                   *)
(* ===================================================================== *)

(** ** http_client.py *)

(** The world after one more request. *)
Definition requested (w : World) : World :=
  mkWorld (network w) (S (requests_made w)) (slept w) (clock w) (clock_reads w).

(** The world after one more call of [time.sleep]. *)
Definition rested (delay : Z) (w : World) : World :=
  mkWorld (network w) (requests_made w) (slept w ++ [delay]) (clock w) (clock_reads w).

(** What [fetch_page] makes of the [i]-th request of the run: the response,
    the [HTTPError] that [raise_for_status] raises on a status from 400 to
    599, or the exception of the transport. *)
Definition request_outcome (w : World) (i : nat) (url : string) (t : Z) : result Response :=
  match network w i url t with
  | Return response =>
      if (400 <=? status_code response) && (status_code response <? 600)
      then Raise (RequestException HTTPError (Some response))
      else Return response
  | Raise e => Raise e
  end.

(** What the [except] clause of [fetch_with_retry] decides on the error of
    attempt [attempt]: the delay to sleep before the next attempt, or [None]
    to raise the error again. *)
Definition retry_delay (max_retries attempt : Z) (e : Exception) : option Z :=
  match e with
  | RequestException cls (Some response) =>
      if status_code response =? 429 then
        if attempt <? max_retries then Some (_calculate_rate_limit_delay attempt) else None
      else if existsb (Z.eqb (status_code response)) [502; 503; 504] then
        if attempt <? max_retries then Some (_calculate_exponential_backoff attempt) else None
      else None
  | RequestException cls None =>
      if is_network_error cls && (attempt <? max_retries)
      then Some (_calculate_exponential_backoff attempt)
      else None
  | _ => None
  end.

(** The statuses that [fetch_with_retry] retries. *)
Definition retryable_status (status : Z) : Prop :=
  status = 429 \/ status = 502 \/ status = 503 \/ status = 504.

(** The delay that a response of status 429, 502, 503 or 504 is retried
    after. *)
Definition status_delay (status attempt : Z) : Z :=
  if status =? 429 then _calculate_rate_limit_delay attempt
  else _calculate_exponential_backoff attempt.

(** A server that answers 503 to the first request and 200 from then on. *)
Definition recovering_server : World :=
  mkWorld (fun n _ _ => Return (mkResponse (if decide (n = 0%nat) then 503 else 200) "<html></html>"))
    0 [] (fun n => mkDatetime 2026 11 6 12 0 (Z.of_nat n) 0) 0.

(** A server that answers every request with the given status. *)
Definition server_with_status (status : Z) : World :=
  mkWorld (fun _ _ _ => Return (mkResponse status "")) 0 []
    (fun n => mkDatetime 2026 11 6 12 0 (Z.of_nat n) 0) 0.

(** ** content_extractor.py *)

(** The element that [extract_embedded_links] collects anchors from. *)
Definition link_scope (soup : PageElement) : PageElement :=
  match _find_content_area soup with
  | Some content_area => content_area
  | None => soup
  end.

(** An article with a relative link, a fragment link and the same relative
    link again, after a long paragraph. *)
Definition page_with_links : PageElement :=
  BeautifulSoup
    [el "html"
       [el "head" [el "title" [NavigableString "AWS announces a new feature"]];
        el "body"
          [el "h1" [NavigableString "AWS Lambda adds Rust"];
           el "article"
             [el "p" [NavigableString (fifty_characters ++ " Read on.")];
              el "p" [NavigableString "See the ";
                      anchor [("href", "/lambda/rust")] [NavigableString "guide"];
                      NavigableString ", the ";
                      anchor [("href", "#top")] [NavigableString "top"];
                      NavigableString " and the ";
                      anchor [("href", "/lambda/rust")] [];
                      NavigableString "."]]]]].

(** Number of line feeds that [s] starts with. *)
Fixpoint lf_run (s : string) : nat :=
  match s with
  | EmptyString => 0
  | String c s' => if Ascii.eqb c LF then S (lf_run s') else 0%nat
  end.

Definition three_line_feeds : string := String LF (String LF (String LF "")).


(** No white space run of [s] holds more than [n] line feeds. *)
Fixpoint newlines_bounded (n : nat) (s : string) : bool :=
  match s with
  | EmptyString => true
  | String _ s' => (leading_newlines s <=? n)%nat && newlines_bounded n s'
  end.

(** [s] has no tab and no two blanks in a row; with [in_run], it does not
    start with a blank either. *)
Fixpoint blanks_normal (in_run : bool) (s : string) : bool :=
  match s with
  | EmptyString => true
  | String c s' =>
      if Ascii.eqb c " " || Ascii.eqb c TAB
      then negb in_run && Ascii.eqb c " " && blanks_normal true s'
      else blanks_normal false s'
  end.

(** ** scraper_orchestrator.py and config_manager.py *)

(** An orchestrator with the default settings and a filter for January
    2026. *)
Definition orchestrator_january : ScraperOrchestrator :=
  mkScraperOrchestrator (mkHTTPClient 30) 3 1 (Some "2026-01").

(** The texts of a request exception, for the examples. *)
Definition request_error_text (cls : RequestExceptionClass) (response : option Response)
    : string :=
  match response with
  | Some response => str_of_int (status_code response) ++ " Server Error"
  | None => "request failed"
  end.

Definition request_error_name (cls : RequestExceptionClass) (response : option Response)
    : string :=
  match cls with
  | HTTPError => "HTTPError"
  | Timeout => "Timeout"
  | ConnectionError => "ConnectionError"
  | OtherRequestException => "RequestException"
  end.

(** A configuration with the timeout of the HTTP client only; the scalars
    are integers. *)
Definition config_with_timeout : ConfigurationManager.Value Z :=
  ConfigurationManager.Dict Z
    {[ "http" := ConfigurationManager.Dict Z {[ "timeout" := ConfigurationManager.Leaf Z 300 ]} ]}.
(* ===================================================================== *)
(** * Facts                                                               *)
(* ===================================================================== *)

(* ---------------------------------------------------------------- *)
(** ** date_filter.py: parse_date_filter *)

Lemma isdigit_facts c :
  isdigit c = true ->
  isspace c = false /\ Ascii.eqb c "-" = false /\ Ascii.eqb c "+" = false
  /\ Ascii.eqb c "_" = false
  /\ 0 <= digit_value c <= 9 /\ c = digit_char (digit_value c).
Proof.
  destruct c as [[] [] [] [] [] [] [] []]; vm_compute; intros Hd;
    try discriminate Hd; repeat split; discriminate.
Qed.

Lemma int_raises_ValueError s e : int s = Raise e -> is_ValueError e = true.
Proof.
  unfold int. destruct (strip s) as [|c d]; [intros [= <-]; reflexivity|].
  repeat match goal with
         | |- context [if ?b then _ else _] => destruct b
         | |- context [match int_digits ?a ?b ?c with _ => _ end] => destruct (int_digits a b c)
         end; intros [= <-]; reflexivity.
Qed.

Lemma try_raises_ValueError s e :
  parse_date_filter_try s = Raise e -> is_ValueError e = true.
Proof.
  unfold parse_date_filter_try.
  destruct (split_char "-" s) as [|yr [|mo [|? ?]]]; try (intros [= <-]; reflexivity).
  destruct (int yr) as [y|e1] eqn:Ey; [|intros [= <-]; eauto using int_raises_ValueError].
  destruct (int mo) as [m|e1] eqn:Em; [|intros [= <-]; eauto using int_raises_ValueError].
  repeat match goal with |- context [if ?b then _ else _] => destruct b end;
    intros [= <-]; reflexivity.
Qed.

Lemma pattern_match_inv s :
  date_pattern_match s = true ->
  exists y1 y2 y3 y4 m1 m2 rest,
    s = String y1 (String y2 (String y3 (String y4 (String "-" (String m1 (String m2 rest))))))
    /\ isdigit y1 = true /\ isdigit y2 = true /\ isdigit y3 = true /\ isdigit y4 = true
    /\ isdigit m1 = true /\ isdigit m2 = true
    /\ (rest = "" \/ rest = String LF "").
Proof.
  destruct s as [|y1 [|y2 [|y3 [|y4 [|h [|m1 [|m2 rest]]]]]]]; try discriminate.
  cbn [date_pattern_match]. intros Hm.
  apply andb_prop in Hm as [Hm Hrest].
  apply andb_prop in Hm as [Hm Hm2]. apply andb_prop in Hm as [Hm Hm1].
  apply andb_prop in Hm as [Hm Hh]. apply andb_prop in Hm as [Hm Hy4].
  apply andb_prop in Hm as [Hm Hy3]. apply andb_prop in Hm as [Hy1 Hy2].
  apply Ascii.eqb_eq in Hh; subst h.
  exists y1, y2, y3, y4, m1, m2, rest.
  repeat (split; [assumption || reflexivity|]).
  apply orb_prop in Hrest as [H|H]; apply String.eqb_eq in H; auto.
Qed.

Lemma digit_char_value d : 0 <= d <= 9 -> digit_value (digit_char d) = d /\ isdigit (digit_char d) = true.
Proof.
  intros Hd. assert (d = 0 \/ d = 1 \/ d = 2 \/ d = 3 \/ d = 4 \/ d = 5 \/ d = 6 \/ d = 7 \/ d = 8 \/ d = 9) as Hc by lia.
  repeat (destruct Hc as [->|Hc]; [split; reflexivity|]). subst; split; reflexivity.
Qed.

Lemma int_year y1 y2 y3 y4 :
  isdigit y1 = true -> isdigit y2 = true -> isdigit y3 = true -> isdigit y4 = true ->
  int (String y1 (String y2 (String y3 (String y4 ""))))
  = Return (1000 * digit_value y1 + 100 * digit_value y2 + 10 * digit_value y3 + digit_value y4).
Proof.
  intros H1 H2 H3 H4.
  destruct (isdigit_facts _ H1) as (S1 & M1 & P1 & U1 & _).
  destruct (isdigit_facts _ H2) as (S2 & _).
  destruct (isdigit_facts _ H3) as (S3 & _).
  destruct (isdigit_facts _ H4) as (S4 & _).
  unfold int, strip. cbn [lstrip rstrip]. rewrite S1. cbn [rstrip]. rewrite S4, ?S3, ?S2, ?S1.
  rewrite M1, P1. cbn [int_digits]. rewrite H1, H2, H3, H4. f_equal. lia.
Qed.

Lemma int_month m1 m2 rest :
  isdigit m1 = true -> isdigit m2 = true -> rest = "" \/ rest = String LF "" ->
  int (String m1 (String m2 rest)) = Return (10 * digit_value m1 + digit_value m2).
Proof.
  intros H1 H2 Hr.
  destruct (isdigit_facts _ H1) as (S1 & M1 & P1 & U1 & _).
  destruct (isdigit_facts _ H2) as (S2 & _).
  unfold int, strip. cbn [lstrip]. rewrite S1.
  destruct Hr as [-> | ->]; cbn [rstrip]; change (isspace LF) with true; cbv iota; rewrite ?S2, ?S1;
  rewrite M1, P1; cbn [int_digits]; rewrite H1, H2; f_equal; lia.
Qed.

Lemma split_date y1 y2 y3 y4 m1 m2 rest :
  isdigit y1 = true -> isdigit y2 = true -> isdigit y3 = true -> isdigit y4 = true ->
  isdigit m1 = true -> isdigit m2 = true -> rest = "" \/ rest = String LF "" ->
  split_char "-" (String y1 (String y2 (String y3 (String y4 (String "-" (String m1 (String m2 rest)))))))
  = [String y1 (String y2 (String y3 (String y4 ""))); String m1 (String m2 rest)].
Proof.
  intros H1 H2 H3 H4 H5 H6 Hr.
  repeat match goal with H : isdigit _ = true |- _ =>
    let M := fresh "M" in destruct (isdigit_facts _ H) as (_ & M & _); clear H end.
  cbn [split_char]. rewrite M, M0, M1, M2, M3, M4.
  change (Ascii.eqb "-" "-") with true. cbv iota.
  destruct Hr as [-> | ->]; reflexivity.
Qed.

Lemma format_of_digits y1 y2 y3 y4 m1 m2 :
  isdigit y1 = true -> isdigit y2 = true -> isdigit y3 = true -> isdigit y4 = true ->
  isdigit m1 = true -> isdigit m2 = true ->
  format_yyyy_mm
    (1000 * digit_value y1 + 100 * digit_value y2 + 10 * digit_value y3 + digit_value y4)
    (10 * digit_value m1 + digit_value m2)
  = String y1 (String y2 (String y3 (String y4 (String "-" (String m1 (String m2 "")))))).
Proof.
  intros H1 H2 H3 H4 H5 H6.
  destruct (isdigit_facts _ H1) as (_ & _ & _ & _ & B1 & E1).
  destruct (isdigit_facts _ H2) as (_ & _ & _ & _ & B2 & E2).
  destruct (isdigit_facts _ H3) as (_ & _ & _ & _ & B3 & E3).
  destruct (isdigit_facts _ H4) as (_ & _ & _ & _ & B4 & E4).
  destruct (isdigit_facts _ H5) as (_ & _ & _ & _ & B5 & E5).
  destruct (isdigit_facts _ H6) as (_ & _ & _ & _ & B6 & E6).
  unfold format_yyyy_mm.
  set (y := 1000 * digit_value y1 + 100 * digit_value y2 + 10 * digit_value y3 + digit_value y4).
  set (m := 10 * digit_value m1 + digit_value m2).
  replace ((y / 1000) mod 10) with (digit_value y1) by (subst y; Z.div_mod_to_equations; lia).
  replace ((y / 100) mod 10) with (digit_value y2) by (subst y; Z.div_mod_to_equations; lia).
  replace ((y / 10) mod 10) with (digit_value y3) by (subst y; Z.div_mod_to_equations; lia).
  replace (y mod 10) with (digit_value y4) by (subst y; Z.div_mod_to_equations; lia).
  replace ((m / 10) mod 10) with (digit_value m1) by (subst m; Z.div_mod_to_equations; lia).
  replace (m mod 10) with (digit_value m2) by (subst m; Z.div_mod_to_equations; lia).
  congruence.
Qed.

Lemma parse_date_filter_cases s :
  (s = "" /\ parse_date_filter s = Return None)
  \/ (s <> "" /\ exists msg, parse_date_filter s = Raise (ValueError msg))
  \/ (exists y m, 2000 <= y <= 2100 /\ 1 <= m <= 12
        /\ (s = format_yyyy_mm y m \/ s = format_yyyy_mm y m ++ String LF "")
        /\ parse_date_filter s = Return (Some (y, m))).
Proof.
  unfold parse_date_filter.
  destruct (String.eqb s "") eqn:Es.
  { apply String.eqb_eq in Es. auto. }
  apply String.eqb_neq in Es.
  destruct (date_pattern_match s) eqn:Hp; cbn [negb]; [|right; left; eauto].
  apply pattern_match_inv in Hp
    as (y1 & y2 & y3 & y4 & m1 & m2 & rest & -> & H1 & H2 & H3 & H4 & H5 & H6 & Hr).
  unfold parse_date_filter_try.
  rewrite split_date, int_year, (int_month m1 m2 rest) by assumption.
  pose proof (format_of_digits y1 y2 y3 y4 m1 m2 H1 H2 H3 H4 H5 H6) as Hf.
  set (y := 1000 * digit_value y1 + 100 * digit_value y2 + 10 * digit_value y3 + digit_value y4) in *.
  set (m := 10 * digit_value m1 + digit_value m2) in *.
  destruct ((m <? 1) || (m >? 12)) eqn:Hm.
  { right; left. split; [assumption|].
    match goal with |- context [contains ?a ?b] => destruct (contains a b) end; eauto. }
  destruct ((y <? 2000) || (y >? 2100)) eqn:Hy.
  { right; left. split; [assumption|].
    match goal with |- context [contains ?a ?b] => destruct (contains a b) end; eauto. }
  right; right. exists y, m.
  apply orb_false_elim in Hm as [Hm1 Hm2]. apply orb_false_elim in Hy as [Hy1 Hy2].
  repeat split; try lia.
  rewrite Hf. destruct Hr as [-> | ->]; [left | right]; reflexivity.
Qed.

Lemma parse_date_filter_roundtrip y m :
  2000 <= y <= 2100 -> 1 <= m <= 12 ->
  parse_date_filter (format_yyyy_mm y m) = Return (Some (y, m)).
Proof.
  intros Hy Hm.
  assert (forall d, 0 <= d mod 10 <= 9) as Hd by (intros d; Z.div_mod_to_equations; lia).
  destruct (digit_char_value _ (Hd (y / 1000))) as [V1 D1].
  destruct (digit_char_value _ (Hd (y / 100))) as [V2 D2].
  destruct (digit_char_value _ (Hd (y / 10))) as [V3 D3].
  destruct (digit_char_value _ (Hd y)) as [V4 D4].
  destruct (digit_char_value _ (Hd (m / 10))) as [V5 D5].
  destruct (digit_char_value _ (Hd m)) as [V6 D6].
  unfold parse_date_filter, format_yyyy_mm.
  cbn [String.eqb date_pattern_match].
  rewrite D1, D2, D3, D4, D5, D6. cbn [andb orb negb Ascii.eqb Bool.eqb].
  unfold parse_date_filter_try.
  rewrite split_date, int_year, int_month by auto.
  rewrite V1, V2, V3, V4, V5, V6.
  replace (1000 * ((y / 1000) mod 10) + 100 * ((y / 100) mod 10)
           + 10 * ((y / 10) mod 10) + y mod 10) with y
    by (Z.div_mod_to_equations; lia).
  replace (10 * ((m / 10) mod 10) + m mod 10) with m by (Z.div_mod_to_equations; lia).
  replace (m <? 1) with false by lia. replace (m >? 12) with false by lia.
  replace (y <? 2000) with false by lia. replace (y >? 2100) with false by lia.
  reflexivity.
Qed.

Lemma ends_with_newline_append s : ends_with_newline (s ++ String LF "") = true.
Proof.
  induction s as [|c s IH]; [reflexivity|].
  destruct s; [reflexivity | exact IH].
Qed.


Lemma not_valid_2026_13 : ~ yyyy_mm_valid "2026-13".
Proof.
  intros (y & m & _ & Hm & E). unfold format_yyyy_mm in E.
  injection E as _ _ _ _ E5 E6.
  assert (m = 1 \/ m = 2 \/ m = 3 \/ m = 4 \/ m = 5 \/ m = 6 \/ m = 7 \/ m = 8
          \/ m = 9 \/ m = 10 \/ m = 11 \/ m = 12) as Hc by lia.
  repeat (destruct Hc as [-> | Hc]; [discriminate|]). subst m. discriminate.
Qed.



(** The line feed that [$] lets through: the string is not of the form
    YYYY-MM, and is parsed all the same. *)
Example parse_date_filter_trailing_newline :
  parse_date_filter (String.append "2026-01" (String LF "")) = Return (Some (2026, 1)).
Proof. reflexivity. Qed.

(* ---------------------------------------------------------------- *)
(** ** date_filter.py: filter_by_date *)

Section FilterByDateFacts.
Context {A : Type} `{HasPublicationDate A}.

Lemma filter_loop_spec (y m : Z) (l acc : list A) :
  filter_loop y m l acc = (acc ++ records_in_month y m l)%list.
Proof.
  revert acc. induction l as [|a l IH]; intros acc; cbn [filter_loop].
  - unfold records_in_month. cbn. rewrite app_nil_r. reflexivity.
  - rewrite IH. unfold records_in_month, matches_date_criteria. cbn [List.filter].
    destruct (publication_date a) as [d|]; [|reflexivity].
    destruct ((year d =? y) && (month d =? m)); [|reflexivity].
    rewrite <- app_assoc. reflexivity.
Qed.

Lemma records_in_month_idempotent (y m : Z) (l : list A) :
  records_in_month y m (records_in_month y m l) = records_in_month y m l.
Proof.
  unfold records_in_month. induction l as [|a l IH]; [reflexivity|].
  cbn [List.filter].
  destruct (match publication_date a with
            | Some d => (year d =? y) && (month d =? m)
            | None => false
            end) eqn:E; [|assumption].
  cbn [List.filter]. rewrite E, IH. reflexivity.
Qed.

Lemma records_in_month_sublist (y m : Z) (l : list A) :
  records_in_month y m l `sublist_of` l.
Proof.
  unfold records_in_month. induction l as [|a l IH]; cbn [List.filter].
  - constructor.
  - destruct (match publication_date a with Some _ => _ | None => _ end);
      [apply sublist_skip | apply sublist_cons]; assumption.
Qed.

Lemma elem_of_records_in_month (y m : Z) (l : list A) (a : A) :
  a ∈ records_in_month y m l
  <-> a ∈ l /\ exists d, publication_date a = Some d /\ year d = y /\ month d = m.
Proof.
  unfold records_in_month. rewrite !list_elem_of_In, filter_In.
  split; intros [Hin Hd]; (split; [assumption|]).
  - destruct (publication_date a) as [d|]; [|discriminate].
    exists d. apply andb_prop in Hd as [Hy Hm]. repeat split; lia.
  - destruct Hd as (d & -> & <- & <-). rewrite !Z.eqb_refl. reflexivity.
Qed.

Lemma filter_by_date_parsed (l : list A) (f : string) (y m : Z) :
  parse_date_filter f = Return (Some (y, m)) ->
  filter_by_date l (Some f) = Return (records_in_month y m l).
Proof.
  intros Hp. unfold filter_by_date.
  destruct (String.eqb f "") eqn:E.
  { apply String.eqb_eq in E. subst f. discriminate Hp. }
  rewrite Hp, filter_loop_spec. reflexivity.
Qed.

(** C4. With no filter string filter_by_date returns its input list. With
    a filter string that parses to a year and a month it returns a list, and
    whenever it returns a list, filtering that list again with the same
    filter returns the same list. *)
Theorem filter_by_date_idempotent :
  (forall l : list A, filter_by_date l None = Return l)
  /\ (forall (l : list A) f y m,
        parse_date_filter f = Return (Some (y, m)) ->
        exists l', filter_by_date l (Some f) = Return l')
  /\ (forall (l l' : list A) f,
        filter_by_date l f = Return l' -> filter_by_date l' f = Return l').
Proof.
  split; [reflexivity|]. split.
  - intros l f y m Hp. eexists. apply filter_by_date_parsed. eassumption.
  - intros l l' [f|]; [|intros [= <-]; reflexivity].
    destruct (parse_date_filter_cases f)
      as [[-> _] | [[Hne [msg Hr]] | (y & m & _ & _ & _ & Hp)]].
    + intros [= <-]. reflexivity.
    + unfold filter_by_date. apply String.eqb_neq in Hne. rewrite Hne, Hr. discriminate.
    + rewrite !(filter_by_date_parsed _ f y m Hp). intros [= <-].
      rewrite records_in_month_idempotent. reflexivity.
Qed.

(** C5. With a filter that parses to (year, month), filter_by_date
    returns the records whose publication date has that calendar year and
    month, in their original relative order: the result is a subsequence of
    the input, a record is in it exactly when it is in the input with a
    date of that year and month, and a record without a publication date
    never matches and is never in it. *)
Theorem filter_by_date_active (l : list A) (f : string) (y m : Z) :
  parse_date_filter f = Return (Some (y, m)) ->
  exists l',
    filter_by_date l (Some f) = Return l'
    /\ l' = records_in_month y m l
    /\ l' `sublist_of` l
    /\ (forall a, a ∈ l' <->
          a ∈ l /\ exists d, publication_date a = Some d /\ year d = y /\ month d = m)
    /\ (forall a, publication_date a = None ->
          matches_date_criteria (publication_date a) y m = false /\ a ∉ l').
Proof.
  intros Hp. exists (records_in_month y m l).
  split; [apply filter_by_date_parsed; assumption|].
  split; [reflexivity|]. split; [apply records_in_month_sublist|].
  split; [apply elem_of_records_in_month|].
  intros a Ha. split; [rewrite Ha; reflexivity|].
  rewrite elem_of_records_in_month. intros [_ (d & Hd & _)]. congruence.
Qed.

End FilterByDateFacts.

Lemma filter_by_date_idempotent_witness :
  exists l', filter_by_date three_links (Some "2026-01") = Return l'
             /\ filter_by_date l' (Some "2026-01") = Return l'.
Proof.
  destruct (@filter_by_date_idempotent AnnouncementLink.t _) as (_ & Hret & Hidem).
  destruct (Hret three_links "2026-01" 2026 1) as [l' Hl']; [reflexivity|].
  exists l'. split; [exact Hl' | exact (Hidem three_links l' (Some "2026-01") Hl')].
Defined.

Lemma filter_by_date_active_witness :
  filter_by_date three_links (Some "2026-01")
  = Return [link_on "January one" "https://www.amazonaws.cn/new/a" (Some (mkDatetime 2026 1 15 0 0 0 0));
            link_on "January two" "https://www.amazonaws.cn/new/d" (Some (mkDatetime 2026 1 31 0 0 0 0))].
Proof.
  destruct (filter_by_date_active three_links "2026-01" 2026 1) as (l' & -> & -> & _);
    reflexivity.
Defined.

(* ---------------------------------------------------------------- *)
(** ** http_client.py: fetch_with_retry *)

Example exponential_backoff_schedule :
  map _calculate_exponential_backoff [0; 1; 2; 3; 4] = [1; 2; 4; 4; 4].
Proof. reflexivity. Qed.

Example rate_limit_schedule :
  map _calculate_rate_limit_delay [0; 1; 2; 3; 4] = [5; 10; 20; 20; 20].
Proof. reflexivity. Qed.

Lemma exponential_backoff_spec attempt :
  0 <= attempt -> _calculate_exponential_backoff attempt = Z.min (2 ^ attempt) 4
                  /\ 1 <= _calculate_exponential_backoff attempt <= 4.
Proof.
  intros Ha. unfold _calculate_exponential_backoff. split; [reflexivity|].
  pose proof (Z.pow_pos_nonneg 2 attempt ltac:(lia) Ha). lia.
Qed.

(** One attempt against a server that answers 503: the request is made and
    [fetch_page] raises the HTTPError of the response. *)
Lemma fetch_page_503 self url t w resp :
  network w (requests_made w) url t = Return resp ->
  status_code resp = 503 ->
  fetch_page self url (Some t) w
  = (Raise (RequestException HTTPError (Some resp)),
     mkWorld (network w) (S (requests_made w)) (slept w) (clock w) (clock_reads w)).
Proof.
  intros Hn Hs. unfold fetch_page, mbind, IO_bind, session_get, lift, raise_for_status.
  rewrite Hn, Hs. reflexivity.
Qed.

(** One turn of the loop on a 503 while retries remain: sleep the
    backoff of this attempt and go on with the next one. *)
Lemma retry_loop_503_continue self url max_retries t attempt rest last w resp :
  network w (requests_made w) url t = Return resp ->
  status_code resp = 503 ->
  attempt < max_retries ->
  retry_loop self url max_retries (Some t) (attempt :: rest) last w
  = retry_loop self url max_retries (Some t) rest
      (Some (RequestException HTTPError (Some resp)))
      (mkWorld (network w) (S (requests_made w))
         (slept w ++ [_calculate_exponential_backoff attempt]) (clock w) (clock_reads w)).
Proof.
  intros Hn Hs Hlt. cbn [retry_loop]. unfold try_except.
  rewrite (fetch_page_503 self url t w resp Hn Hs). rewrite Hs.
  replace (attempt <? max_retries) with true by lia. reflexivity.
Qed.

(** The turn of the loop on a 503 when no retry remains: the error of this
    attempt is raised again. *)
Lemma retry_loop_503_exhausted self url max_retries t attempt rest last w resp :
  network w (requests_made w) url t = Return resp ->
  status_code resp = 503 ->
  ~ attempt < max_retries ->
  retry_loop self url max_retries (Some t) (attempt :: rest) last w
  = (Raise (RequestException HTTPError (Some resp)),
     mkWorld (network w) (S (requests_made w)) (slept w) (clock w) (clock_reads w)).
Proof.
  intros Hn Hs Hlt. cbn [retry_loop]. unfold try_except.
  rewrite (fetch_page_503 self url t w resp Hn Hs). rewrite Hs.
  replace (attempt <? max_retries) with false by lia. reflexivity.
Qed.



(* ---------------------------------------------------------------- *)
(** ** homepage_parser.py: duplicates in the structured-data path *)

Lemma unique_loop_app l seen acc :
  unique_loop l seen acc = (acc ++ unique_loop l seen [])%list.
Proof.
  revert seen acc. induction l as [|a l IH]; intros seen acc; cbn [unique_loop].
  - rewrite app_nil_r. reflexivity.
  - destruct (decide (AnnouncementLink.url a ∉ seen)); [|apply IH].
    rewrite (IH _ (acc ++ [a])%list), (IH _ ([] ++ [a])%list), <- app_assoc.
    reflexivity.
Qed.

Lemma unique_loop_cons a l seen :
  unique_loop (a :: l) seen []
  = if decide (AnnouncementLink.url a ∉ seen)
    then a :: unique_loop l ({[AnnouncementLink.url a]} ∪ seen) []
    else unique_loop l seen [].
Proof.
  cbn [unique_loop]. destruct (decide _); [|reflexivity].
  rewrite unique_loop_app. reflexivity.
Qed.

Lemma unique_loop_sublist l seen : unique_loop l seen [] `sublist_of` l.
Proof.
  revert seen. induction l as [|a l IH]; intros seen.
  - constructor.
  - rewrite unique_loop_cons. destruct (decide _);
      [apply sublist_skip | apply sublist_cons]; apply IH.
Qed.

Lemma unique_loop_filter u l seen :
  List.filter (has_url u) (unique_loop l seen [])
  = if decide (u ∈ seen) then [] else first_with_url u l.
Proof.
  revert seen. induction l as [|a l IH]; intros seen.
  - cbn. destruct (decide _); reflexivity.
  - rewrite unique_loop_cons. unfold first_with_url in *. cbn [List.find].
    destruct (decide (AnnouncementLink.url a ∉ seen)) as [Hnew|Hold].
    + cbn [List.filter]. rewrite IH.
      destruct (has_url u a) eqn:E; unfold has_url in E.
      * apply String.eqb_eq in E. subst u.
        rewrite decide_True by (apply elem_of_union; left; apply elem_of_singleton; reflexivity).
        rewrite decide_False by assumption. reflexivity.
      * apply String.eqb_neq in E.
        destruct (decide (u ∈ seen)) as [Hin|Hout].
        -- rewrite decide_True by (apply elem_of_union; right; assumption). reflexivity.
        -- rewrite decide_False; [reflexivity|].
           rewrite elem_of_union, elem_of_singleton. intros [Heq|Hin]; congruence.
    + rewrite IH.
      destruct (decide (u ∈ seen)) as [Hin|Hout]; [reflexivity|].
      destruct (has_url u a) eqn:E; [|reflexivity]. unfold has_url in E.
      apply String.eqb_eq in E. subst u. apply dec_stable in Hold. contradiction.
Qed.

Lemma unique_loop_NoDup l seen :
  NoDup (map AnnouncementLink.url (unique_loop l seen []))
  /\ forall a, a ∈ unique_loop l seen [] -> AnnouncementLink.url a ∉ seen.
Proof.
  revert seen. induction l as [|a l IH]; intros seen.
  - split; [constructor | intros a Ha; inversion Ha].
  - rewrite unique_loop_cons. destruct (decide _) as [Hnew|Hold]; [|apply IH].
    destruct (IH ({[AnnouncementLink.url a]} ∪ seen)) as [Hnd Hout].
    split.
    + cbn [map]. constructor; [|assumption].
      intros Hin. apply list_elem_of_fmap in Hin as (b & Hb & Hin).
      apply Hout in Hin. apply Hin. apply elem_of_union; left.
      apply elem_of_singleton. congruence.
    + intros b Hb. apply elem_of_cons in Hb as [-> | Hb]; [assumption|].
      apply Hout in Hb. intros Hin. apply Hb. apply elem_of_union; right. assumption.
Qed.

Section JsonPathFacts.
Context (base_url : string)
        (urljoin : string -> string -> result string)
        (urlparse : string -> result ParseResult.t)
        (str_of_node : Node -> string)
        (json_pattern_announcements : string -> list AnnouncementLink.t)
        (_extract_from_large_json_structure : string -> list AnnouncementLink.t).

(** C3. In the structured-data path the output has no two entries with the
    same URL; it is a subsequence of the discovered entries, so the
    survivors keep their first-seen relative order; and for every URL the
    entries of the output with that URL are exactly the first discovered
    entry with it (none if no entry has it). When the output is not empty,
    it is what extract_announcement_links returns. *)
Theorem json_links_unique_by_url (section : PageElement) :
  let discovered :=
    json_announcements str_of_node json_pattern_announcements
      _extract_from_large_json_structure section in
  let output :=
    _extract_from_json_data str_of_node json_pattern_announcements
      _extract_from_large_json_structure section in
  NoDup (map AnnouncementLink.url output)
  /\ output `sublist_of` discovered
  /\ (forall u, List.filter (has_url u) output = first_with_url u discovered)
  /\ (output <> [] ->
      extract_announcement_links base_url urljoin urlparse str_of_node
        json_pattern_announcements _extract_from_large_json_structure section
      = output).
Proof.
  intros discovered output. subst output. unfold _extract_from_json_data. fold discovered.
  split; [apply unique_loop_NoDup|]. split; [apply unique_loop_sublist|]. split.
  - intros u. rewrite unique_loop_filter.
    rewrite decide_False by apply not_elem_of_empty. reflexivity.
  - intros Hne. unfold extract_announcement_links, _extract_from_json_data. fold discovered.
    destruct (unique_loop discovered ∅ []); [contradiction | reflexivity].
Qed.

End JsonPathFacts.

Lemma json_links_unique_by_url_witness :
  extract_announcement_links default_base_url urljoin_ref urlparse_ref markup_ref
    (fun _ => repeated_links) no_json (BeautifulSoup [])
  = [link_on "First" "https://www.amazonaws.cn/new/a" None;
     link_on "Other" "https://www.amazonaws.cn/new/b" None].
Proof.
  destruct (json_links_unique_by_url default_base_url urljoin_ref urlparse_ref markup_ref
              (fun _ => repeated_links) no_json (BeautifulSoup [])) as (_ & _ & _ & Hout).
  rewrite Hout; [vm_compute; reflexivity | vm_compute; discriminate].
Defined.

Example unique_loop_keeps_first :
  unique_loop repeated_links ∅ []
  = [link_on "First" "https://www.amazonaws.cn/new/a" None;
     link_on "Other" "https://www.amazonaws.cn/new/b" None].
Proof. vm_compute. reflexivity. Qed.


(* ---------------------------------------------------------------- *)
(** ** content_extractor.py *)

(** [strip] twice is [strip] once. *)
Lemma lstrip_starts_clean s : starts_clean (lstrip s).
Proof.
  induction s as [|c s IH]; [exact I|]. cbn [lstrip].
  destruct (isspace c) eqn:E; [assumption | exact E].
Qed.

Lemma lstrip_clean s : starts_clean s -> lstrip s = s.
Proof. destruct s as [|c s]; [reflexivity|]. cbn. intros ->. reflexivity. Qed.

Lemma rstrip_starts_clean s : starts_clean s -> starts_clean (rstrip s).
Proof.
  destruct s as [|c s]; [intros _; exact I|]. cbn [starts_clean rstrip]. intros Hc.
  destruct (rstrip s); [rewrite Hc|]; exact Hc.
Qed.

Lemma rstrip_idempotent s : rstrip (rstrip s) = rstrip s.
Proof.
  induction s as [|c s IH]; [reflexivity|]. cbn [rstrip].
  destruct (rstrip s) as [|c' r] eqn:E.
  - destruct (isspace c) eqn:Ec; [reflexivity|]. cbn [rstrip]. rewrite Ec. reflexivity.
  - change (rstrip (String c (String c' r)))
      with (match rstrip (String c' r) with
            | EmptyString => if isspace c then EmptyString else String c EmptyString
            | r0 => String c r0
            end).
    rewrite IH. reflexivity.
Qed.

Lemma strip_idempotent s : strip (strip s) = strip s.
Proof.
  unfold strip.
  rewrite (lstrip_clean (rstrip (lstrip s)))
    by (apply rstrip_starts_clean, lstrip_starts_clean).
  apply rstrip_idempotent.
Qed.

Lemma nonempty_of_length s n : (n < String.length s)%nat -> nonempty s = true.
Proof. destruct s; cbn; [lia | reflexivity]. Qed.

Lemma title_loop_valid soup selectors title :
  title_loop soup selectors = Some title ->
  nonempty title = true /\ (5 < String.length title)%nat.
Proof.
  induction selectors as [|selector rest IH]; [discriminate|]. cbn [title_loop].
  destruct (select_one selector soup) as [e|]; [|assumption].
  destruct (nonempty (get_text_strip (node e)) && (5 <? String.length (get_text_strip (node e)))%nat)
    eqn:E; [|assumption].
  intros [= <-]. apply andb_prop in E as [E1 E2]. apply Nat.ltb_lt in E2. split; assumption.
Qed.

(** The length gate of [_extract_content_text]: the flattened text of the
    content area is kept when it has more than 50 characters, and only
    then. *)
Lemma _extract_content_text_gate soup area :
  _find_content_area soup = Some area ->
  fst (_extract_content_text soup)
  = let flattened := fst (_extract_formatted_text (node area)) in
    if (50 <? String.length flattened)%nat then Some flattened else None.
Proof.
  intros Ha. unfold _extract_content_text. rewrite Ha.
  unfold _extract_formatted_text. cbn [fst].
  rewrite strip_idempotent.
  match goal with |- context [strip ?t] => set (flattened := strip t) end.
  destruct (50 <? String.length flattened)%nat eqn:E.
  - rewrite (nonempty_of_length flattened 50) by (apply Nat.ltb_lt; exact E). reflexivity.
  - rewrite andb_false_r. reflexivity.
Qed.

Lemma _extract_content_text_nonempty soup c :
  fst (_extract_content_text soup) = Some c -> nonempty c = true.
Proof.
  unfold _extract_content_text.
  destruct (_find_content_area soup) as [area|]; [|discriminate].
  destruct (_extract_formatted_text (node area)) as [t element].
  destruct (nonempty t) eqn:E; cbn [andb]; [|discriminate].
  destruct (50 <? String.length (strip t))%nat; [|discriminate].
  cbn [fst]. intros [= <-]. exact E.
Qed.

Section ContentExtractorFacts.
Context (urljoin : string -> string -> result string)
        (_extract_publication_date : PageElement -> result (option datetime))
        (html_parser : string -> list Node).

Local Abbreviation parse_page := (parse_announcement_page urljoin _extract_publication_date).
Local Abbreviation resolve_date := (resolve_publication_date _extract_publication_date).

(** [parse_announcement_page] step by step: title, date, text, links. *)
Lemma parse_announcement_page_unfold soup url date w :
  parse_page soup url date w
  = match _extract_title soup with
    | None => (Raise title_error, w)
    | Some title =>
        match resolve_date soup date w with
        | (Raise e, w1) => (Raise e, w1)
        | (Return publication_date, w1) =>
            match _extract_content_text soup with
            | (None, _) => (Raise content_error, w1)
            | (Some content_text, soup') =>
                (Return (AnnouncementContent.mk title url publication_date content_text
                           (extract_embedded_links urljoin soup' url)
                           (clock w1 (clock_reads w1))),
                 tick w1)
            end
        end
    end.
Proof.
  unfold parse_announcement_page, resolve_publication_date.
  destruct (_extract_title soup) as [title|] eqn:Et; [|reflexivity].
  destruct (title_loop_valid _ _ _ Et) as [Hne _].
  unfold mbind at 1, IO_bind at 1. rewrite Hne.
  unfold mret at 1, IO_ret at 1. cbv beta iota.
  destruct (_extract_content_text soup) as [[c|] soup'] eqn:Ec.
  - assert (nonempty c = true) as Hc
      by (apply (_extract_content_text_nonempty soup); rewrite Ec; reflexivity).
    rewrite Hc.
    destruct date as [d|]; [reflexivity|].
    unfold mbind, IO_bind, lift.
    destruct (_extract_publication_date soup) as [[found|]|e]; reflexivity.
  - destruct date as [d|]; [reflexivity|].
    unfold mbind, IO_bind, lift.
    destruct (_extract_publication_date soup) as [[found|]|e]; reflexivity.
Qed.

(** [extract_content] turns every failure of the parse into a
    [ValueError]. *)
Lemma extract_content_parse_error http_client url date w response w1 e w2 :
  fetch_with_retry http_client url 3 None w = (Return response, w1) ->
  parse_page (BeautifulSoup (html_parser (text response))) url date w1 = (Raise e, w2) ->
  (forall cls r, e <> RequestException cls r) ->
  exists msg,
    extract_content urljoin _extract_publication_date html_parser http_client url date w
    = (Raise (ValueError msg), w2).
Proof.
  intros Hf Hp Hcls. unfold extract_content, try_except, mbind, IO_bind.
  rewrite Hf, Hp. destruct e as [msg|msg|cls r]; [eexists; reflexivity ..|].
  exfalso. exact (Hcls cls r eq_refl).
Qed.

(** C6, amended. Let the content area of a page be found and its flattened
    text have n characters. If n is at most 50, the text is rejected:
    _extract_content_text yields None, parse_announcement_page raises for
    every URL and date, with the ValueError for missing content text
    whenever the title is found and a date is supplied, and extract_content
    raises ValueError once the page is fetched (the page-level date
    extraction raising no network error of its own). If n is more than 50, the
    text is not rejected: _extract_content_text yields it, and with a title
    and a supplied date the page parses to a record that carries it. *)
Theorem content_text_length_gate (soup area : PageElement) :
  _find_content_area soup = Some area ->
  let flattened := fst (_extract_formatted_text (node area)) in
  ((String.length flattened <= 50)%nat ->
     fst (_extract_content_text soup) = None
     /\ (forall url date w, exists e w', parse_page soup url date w = (Raise e, w'))
     /\ (forall url d w title, _extract_title soup = Some title ->
           parse_page soup url (Some d) w = (Raise content_error, w))
     /\ (forall http_client url date w response w1,
           fetch_with_retry http_client url 3 None w = (Return response, w1) ->
           BeautifulSoup (html_parser (text response)) = soup ->
           (forall cls r, _extract_publication_date soup <> Raise (RequestException cls r)) ->
           exists msg w',
             extract_content urljoin _extract_publication_date html_parser
               http_client url date w
             = (Raise (ValueError msg), w')))
  /\ ((50 < String.length flattened)%nat ->
        fst (_extract_content_text soup) = Some flattened
        /\ (forall url d w title, _extract_title soup = Some title ->
              exists content,
                parse_page soup url (Some d) w = (Return content, tick w)
                /\ AnnouncementContent.content_text content = flattened)).
Proof.
  intros Ha flattened. pose proof (_extract_content_text_gate soup area Ha) as Hg.
  fold flattened in Hg. cbv zeta in Hg. split; intros Hlen.
  - replace (50 <? String.length flattened)%nat with false in Hg
      by (symmetry; apply Nat.ltb_ge; exact Hlen).
    assert (forall url date w,
              (exists title, _extract_title soup = Some title
                 /\ parse_page soup url date w
                    = match resolve_date soup date w with
                      | (Raise e, w1) => (Raise e, w1)
                      | (Return _, w1) => (Raise content_error, w1)
                      end)
              \/ (_extract_title soup = None
                  /\ parse_page soup url date w = (Raise title_error, w))) as Hparse.
    { intros url date w. rewrite parse_announcement_page_unfold.
      destruct (_extract_title soup) as [title|]; [left | right; auto].
      exists title. split; [reflexivity|].
      destruct (resolve_date soup date w) as [[pd|e] w1]; [|reflexivity].
      destruct (_extract_content_text soup) as [[c|] soup']; [discriminate Hg | reflexivity]. }
    split; [exact Hg|]. split; [|split].
    + intros url date w. destruct (Hparse url date w) as [(title & _ & ->) | [_ ->]].
      * destruct (resolve_date soup date w) as [[pd|e] w1]; eauto.
      * eauto.
    + intros url d w title Ht. destruct (Hparse url (Some d) w) as [(t & _ & ->) | [Hn _]].
      * reflexivity.
      * congruence.
    + intros http_client url date w response w1 Hf Hs Hx.
      assert (exists e w2, parse_page soup url date w1 = (Raise e, w2)
                           /\ forall cls r, e <> RequestException cls r) as (e & w2 & Hp & He).
      { destruct (Hparse url date w1) as [(t & _ & ->) | [_ ->]];
          [|eexists _, _; split; [reflexivity | discriminate]].
        destruct date as [d|]; cbn [resolve_publication_date];
          [eexists _, _; split; [reflexivity | discriminate]|].
        destruct (_extract_publication_date soup) as [[found|]|e] eqn:Ed;
          try (eexists _, _; split; [reflexivity | discriminate]).
        eexists _, _. split; [reflexivity|]. intros cls r ->. exact (Hx cls r eq_refl). }
      rewrite <- Hs in Hp.
      destruct (extract_content_parse_error http_client url date w response w1 e w2 Hf Hp He)
        as [msg Hmsg].
      eauto.
  - replace (50 <? String.length flattened)%nat with true in Hg
      by (symmetry; apply Nat.ltb_lt; exact Hlen).
    split; [exact Hg|].
    intros url d w title Ht. rewrite parse_announcement_page_unfold, Ht.
    cbn [resolve_publication_date].
    destruct (_extract_content_text soup) as [[c|] soup']; [|discriminate Hg].
    cbn [fst] in Hg. injection Hg as ->. eexists. split; reflexivity.
Qed.

(** C7. A page on which no selector of the title cascade selects an
    element has no title, and parsing it raises the ValueError for a
    missing title. A page whose first h1 has a text of exactly 5 characters
    gets the title that the rest of the cascade finds: the h1 counts as
    absent, a title must be longer than 5 characters. *)
Theorem title_cascade (soup : PageElement) :
  ((forall selector, In selector title_selectors -> select_one selector soup = None) ->
     _extract_title soup = None
     /\ forall url date w, parse_page soup url date w = (Raise title_error, w))
  /\ (forall h1, select_one "h1" soup = Some h1 ->
        String.length (get_text_strip (node h1)) = 5%nat ->
        _extract_title soup
        = title_loop soup [".announcement-title"; ".post-title"; ".article-title"; "title"]).
Proof.
  split.
  - intros Hnone.
    assert (_extract_title soup = None) as Ht.
    { unfold _extract_title, title_selectors, title_loop.
      rewrite !Hnone by (unfold title_selectors; cbn; tauto). reflexivity. }
    split; [exact Ht|]. intros url date w.
    rewrite parse_announcement_page_unfold, Ht. reflexivity.
  - intros h1 Hsel Hlen. unfold _extract_title, title_selectors.
    cbn [title_loop]. rewrite Hsel, Hlen. rewrite andb_false_r. reflexivity.
Qed.

(** The date of a record that [parse_announcement_page] returns. *)
Lemma parse_announcement_page_dated soup url date w content w' :
  parse_page soup url date w = (Return content, w') ->
  exists d, AnnouncementContent.publication_date content = Some d
    /\ match date with
       | Some supplied => d = supplied
       | None =>
           match _extract_publication_date soup with
           | Return (Some found) => d = found
           | Return None => d = clock w (clock_reads w)
           | Raise _ => False
           end
       end.
Proof.
  rewrite parse_announcement_page_unfold.
  destruct (_extract_title soup) as [title|]; [|discriminate].
  destruct date as [supplied|]; cbn [resolve_publication_date].
  - destruct (_extract_content_text soup) as [[c|] soup']; [|discriminate].
    intros [= <- _]. eexists. split; reflexivity.
  - destruct (_extract_publication_date soup) as [[found|]|e]; [| |discriminate];
      (destruct (_extract_content_text soup) as [[c|] soup']; [|discriminate]);
      intros [= <- _]; eexists; split; reflexivity.
Qed.

(** What [extract_content] returns is what [parse_announcement_page]
    returned on the page fetched. *)
Lemma extract_content_returns http_client url date w content w' :
  extract_content urljoin _extract_publication_date html_parser http_client url date w
  = (Return content, w') ->
  exists response w1,
    fetch_with_retry http_client url 3 None w = (Return response, w1)
    /\ parse_page (BeautifulSoup (html_parser (text response))) url date w1
       = (Return content, w').
Proof.
  unfold extract_content, try_except, mbind, IO_bind.
  destruct (fetch_with_retry http_client url 3 None w) as [[response|e] w1].
  - destruct (parse_page _ url date w1) as [[c|e] w2] eqn:Hp.
    + intros [= <- <-]. eauto.
    + destruct e; discriminate.
  - destruct e; discriminate.
Qed.


End ContentExtractorFacts.

(** C6 as stated fails at a text of exactly 50 characters: it is not under
    50 characters, and the page is rejected for its length all the same. *)
Lemma fifty_characters_rejected :
  option_map (fun area => String.length (fst (_extract_formatted_text (node area))))
    (_find_content_area page_fifty) = Some 50%nat
  /\ _extract_title page_fifty = Some "AWS Lambda adds Rust"
  /\ parse_announcement_page urljoin_ref no_page_date page_fifty detail_url
       (Some supplied_date) offline_world
     = (Raise (ValueError "Could not extract content text from announcement page"),
        offline_world).
Proof. repeat split; vm_compute; reflexivity. Qed.

Lemma content_text_length_gate_witness :
  (exists e w', parse_announcement_page urljoin_ref no_page_date page_fifty detail_url
                  None offline_world = (Raise e, w'))
  /\ fst (_extract_content_text page_fifty_one) = Some (fifty_characters ++ "!").
Proof.
  split.
  - destruct (_find_content_area page_fifty) as [area|] eqn:Ha; [|discriminate Ha].
    destruct (content_text_length_gate urljoin_ref no_page_date (fun _ => []) page_fifty area Ha)
      as [Hshort _].
    destruct Hshort as (_ & Hraise & _).
    + injection Ha as <-. vm_compute. lia.
    + exact (Hraise detail_url None offline_world).
  - destruct (_find_content_area page_fifty_one) as [area|] eqn:Ha; [|discriminate Ha].
    destruct (content_text_length_gate urljoin_ref no_page_date (fun _ => []) page_fifty_one area Ha)
      as [_ Hlong].
    destruct Hlong as [Hkept _].
    + injection Ha as <-. vm_compute. lia.
    + rewrite Hkept. injection Ha as <-. vm_compute. reflexivity.
Defined.

Lemma title_cascade_witness :
  _extract_title page_short_h1 = Some "AWS announces a new feature"
  /\ parse_announcement_page urljoin_ref no_page_date page_without_title detail_url
       (Some supplied_date) offline_world
     = (Raise (ValueError "Could not extract title from announcement page"), offline_world).
Proof.
  split.
  - destruct (title_cascade urljoin_ref no_page_date page_short_h1) as [_ Hh1].
    erewrite Hh1; [reflexivity | vm_compute; reflexivity | reflexivity].
  - destruct (title_cascade urljoin_ref no_page_date page_without_title) as [Hnone _].
    destruct Hnone as [_ Hraise].
    + intros selector Hin. cbn in Hin.
      repeat (destruct Hin as [<- | Hin]; [reflexivity|]). destruct Hin.
    + exact (Hraise detail_url (Some supplied_date) offline_world).
Defined.


(* ---------------------------------------------------------------- *)
(** ** homepage_parser.py: the anchor scan *)

Section AnchorScanFacts.
Context (base_url : string)
        (urljoin : string -> string -> result string)
        (urlparse : string -> result ParseResult.t)
        (str_of_node : Node -> string)
        (json_pattern_announcements : string -> list AnnouncementLink.t)
        (_extract_from_large_json_structure : string -> list AnnouncementLink.t).

Local Abbreviation is_announcement_url := (_is_announcement_url urlparse).
Local Abbreviation resolve_url := (_resolve_url base_url urljoin).
Local Abbreviation link_of_anchor := (anchor_link base_url urljoin urlparse).
Local Abbreviation links_of_section :=
  (extract_announcement_links base_url urljoin urlparse str_of_node
     json_pattern_announcements _extract_from_large_json_structure).
Local Abbreviation off_domain := (off_domain urlparse).
Local Abbreviation same_domain_path := (same_domain_path urlparse).
Local Abbreviation json_links_of_section :=
  (_extract_from_json_data str_of_node json_pattern_announcements
     _extract_from_large_json_structure).

Lemma nonempty_true s : nonempty s = true <-> s <> "".
Proof.
  unfold nonempty. rewrite negb_true_iff. split.
  - intros E. apply String.eqb_neq. exact E.
  - intros E. apply String.eqb_neq. exact E.
Qed.

Lemma is_announcement_url_off_domain url :
  off_domain url -> is_announcement_url url = false.
Proof.
  intros (parsed & Hp & Hne & Hout). unfold _is_announcement_url.
  rewrite Hp, Hout. apply nonempty_true in Hne. rewrite Hne. reflexivity.
Qed.

Lemma is_announcement_url_same_domain url path :
  same_domain_path url path ->
  is_announcement_url url
  = let path := lower path in
    if existsb (fun pattern => contains pattern path) skip_patterns then false
    else if existsb (fun pattern => contains pattern path) announcement_patterns then true
         else (1 <? String.length path)%nat && negb (String.eqb path "/").
Proof.
  intros (parsed & Hp & Hdom & <-). unfold _is_announcement_url. rewrite Hp.
  destruct Hdom as [-> | ->]; [reflexivity|]. rewrite andb_false_r. reflexivity.
Qed.

(** The first half of C8: a same-domain path /about/team is on the
    navigation denylist. *)
Lemma is_announcement_url_about_team url :
  same_domain_path url "/about/team" -> is_announcement_url url = false.
Proof. intros H. rewrite (is_announcement_url_same_domain url _ H). reflexivity. Qed.

(** A same-domain path /new/2026/01/feature-x is on the announcement
    allowlist and not on the denylist. *)
Lemma is_announcement_url_feature_x url :
  same_domain_path url "/new/2026/01/feature-x" -> is_announcement_url url = true.
Proof. intros H. rewrite (is_announcement_url_same_domain url _ H). reflexivity. Qed.

(** An anchor that passes the URL test and yields a title is turned into a
    link, provided that the extraction of its preview text returns. *)
Lemma anchor_link_included anchor full_url preview :
  resolve_url (strip (get_or_empty "href" (node anchor))) = Return full_url ->
  strip (get_or_empty "href" (node anchor)) <> "" ->
  is_announcement_url full_url = true ->
  _extract_link_title anchor <> "" ->
  _extract_preview_text anchor = Return preview ->
  link_of_anchor anchor
  = Return (Some (AnnouncementLink.mk (_extract_link_title anchor) full_url preview None)).
Proof.
  intros Hr Hh Hu Ht Hp. unfold anchor_link.
  apply nonempty_true in Hh, Ht. rewrite Hh. cbn [negb].
  unfold mbind at 1, result_bind at 1. rewrite Hr, Hu. cbn [negb]. rewrite Ht. cbn [negb].
  unfold mbind, result_bind. rewrite Hp. reflexivity.
Qed.

(** An anchor whose preview extraction raises is dropped by the [except]
    clause of the loop. *)
Lemma anchor_link_preview_raises anchor full_url e :
  resolve_url (strip (get_or_empty "href" (node anchor))) = Return full_url ->
  strip (get_or_empty "href" (node anchor)) <> "" ->
  is_announcement_url full_url = true ->
  _extract_link_title anchor <> "" ->
  _extract_preview_text anchor = Raise e ->
  link_of_anchor anchor = Raise e.
Proof.
  intros Hr Hh Hu Ht Hp. unfold anchor_link.
  apply nonempty_true in Hh, Ht. rewrite Hh. cbn [negb].
  unfold mbind at 1, result_bind at 1. rewrite Hr, Hu. cbn [negb]. rewrite Ht. cbn [negb].
  unfold mbind, result_bind. rewrite Hp. reflexivity.
Qed.

Lemma anchor_link_accepted anchor link :
  link_of_anchor anchor = Return (Some link) ->
  is_announcement_url (AnnouncementLink.url link) = true.
Proof.
  unfold anchor_link.
  destruct (negb (nonempty (strip (get_or_empty "href" (node anchor))))); [discriminate|].
  unfold mbind at 1, result_bind at 1.
  destruct (resolve_url _) as [full_url|e]; [|discriminate].
  destruct (is_announcement_url full_url) eqn:Hu; cbn [negb]; [|discriminate].
  destruct (negb (nonempty (_extract_link_title anchor))); [discriminate|].
  unfold mbind, result_bind.
  destruct (_extract_preview_text anchor) as [preview|e]; [|discriminate].
  intros [= <-]. exact Hu.
Qed.

Lemma anchor_loop_accepted anchor_tags links :
  Forall (fun link => is_announcement_url (AnnouncementLink.url link) = true) links ->
  Forall (fun link => is_announcement_url (AnnouncementLink.url link) = true)
    (anchor_loop base_url urljoin urlparse anchor_tags links).
Proof.
  revert links. induction anchor_tags as [|anchor rest IH]; intros links Hl; [exact Hl|].
  cbn [anchor_loop]. destruct (link_of_anchor anchor) as [[link|]|e] eqn:E; try (apply IH, Hl).
  apply IH. apply Forall_app. split; [exact Hl|].
  constructor; [|constructor]. apply (anchor_link_accepted anchor link E).
Qed.

(** C10. A URL whose network host is not empty and does not contain
    amazonaws.cn fails the URL test whatever its path is; an anchor that
    resolves to such a URL contributes no link; and when the structured-data
    path yields nothing, no link in the output of extract_announcement_links
    has such a URL. *)
Theorem off_domain_links_rejected (section : PageElement) :
  (forall url, off_domain url -> is_announcement_url url = false)
  /\ (forall anchor full_url,
        resolve_url (strip (get_or_empty "href" (node anchor))) = Return full_url ->
        off_domain full_url ->
        link_of_anchor anchor = Return None)
  /\ (json_links_of_section section = [] ->
      forall link, In link (links_of_section section) ->
                   ~ off_domain (AnnouncementLink.url link)).
Proof.
  split; [exact is_announcement_url_off_domain|]. split.
  - intros anchor full_url Hr Hoff. unfold anchor_link.
    destruct (negb (nonempty (strip (get_or_empty "href" (node anchor))))); [reflexivity|].
    unfold mbind, result_bind. rewrite Hr.
    rewrite (is_announcement_url_off_domain full_url Hoff). reflexivity.
  - intros Hjson link Hin Hoff. unfold extract_announcement_links in Hin.
    rewrite Hjson in Hin.
    pose proof (anchor_loop_accepted (find_all_with_attr "a" "href" section) []
                  (List.Forall_nil _)) as Hall.
    rewrite List.Forall_forall in Hall. specialize (Hall link Hin).
    rewrite (is_announcement_url_off_domain _ Hoff) in Hall. discriminate.
Qed.

End AnchorScanFacts.

Example landing_three_anchors_links :
  link_discovery landing_three_anchors
  = Return [AnnouncementLink.mk "Feature X" "https://www.amazonaws.cn/new/2026/01/feature-x"
              None None].
Proof. vm_compute. reflexivity. Qed.

Example landing_three_anchors_section :
  option_map (fun s => name_of (node s))
    (find_announcements_section markup_ref landing_three_anchors)
  = Some (Some "div").
Proof. vm_compute. reflexivity. Qed.

Lemma off_domain_links_rejected_witness :
  (forall a rest,
     find_all_with_attr "a" "href" (section_of landing_three_anchors) = a :: rest ->
     anchor_link default_base_url urljoin_ref urlparse_ref a = Return None)
  /\ ~ off_domain urlparse_ref "https://www.amazonaws.cn/new/2026/01/feature-x".
Proof.
  destruct (off_domain_links_rejected default_base_url urljoin_ref urlparse_ref
              markup_ref no_json no_json (section_of landing_three_anchors))
    as (_ & Hanchor & Houtput).
  split.
  - intros a rest E. vm_compute in E. injection E as <- _.
    apply (Hanchor _ "https://aws.example.com/new/2026/01/feature-x"); [reflexivity|].
    exists (ParseResult.mk "https" "aws.example.com" "/new/2026/01/feature-x" "" "" "").
    split; [reflexivity|]. split; [discriminate | reflexivity].
  - apply (Houtput eq_refl
             (AnnouncementLink.mk "Feature X" "https://www.amazonaws.cn/new/2026/01/feature-x"
                None None)).
    vm_compute. left. reflexivity.
Defined.

(** C8, on the landing page [landing_icon_link]. The only anchor of the
    announcements section resolves to the same-domain path
    /new/2026/01/feature-x, which passes the URL test, and it yields the
    title of its title attribute. Its link text is empty, so the split of
    the parent's text on it raises ValueError, the [except] clause of the
    loop drops the anchor, and Link Discovery returns no link: the anchor is
    not included. *)
Theorem icon_link_anchor_dropped :
  exists a,
    find_all_with_attr "a" "href" (section_of landing_icon_link) = [a]
    /\ _resolve_url default_base_url urljoin_ref (strip (get_or_empty "href" (node a)))
       = Return "https://www.amazonaws.cn/new/2026/01/feature-x"
    /\ urlparse_ref "https://www.amazonaws.cn/new/2026/01/feature-x"
       = Return (ParseResult.mk "https" "www.amazonaws.cn" "/new/2026/01/feature-x" "" "" "")
    /\ _is_announcement_url urlparse_ref "https://www.amazonaws.cn/new/2026/01/feature-x" = true
    /\ _extract_link_title a = "Feature X"
    /\ get_text_strip (node a) = ""
    /\ option_map (fun p => get_text_strip (node p)) (parent a) = Some "Read more"
    /\ _extract_preview_text a = Raise (ValueError "empty separator")
    /\ anchor_link default_base_url urljoin_ref urlparse_ref a
       = Raise (ValueError "empty separator")
    /\ link_discovery landing_icon_link = Return [].
Proof.
  eexists. split; [vm_compute; reflexivity|].
  repeat split; vm_compute; reflexivity.
Qed.

(* ===================================================================== *)
(** * Further facts                                                       *)
(* ===================================================================== *)

(* ---------------------------------------------------------------- *)
(** ** http_client.py: the retry loop in general *)

Lemma fetch_page_outcome self url t w :
  fetch_page self url (Some t) w = (request_outcome w (requests_made w) url t, requested w).
Proof.
  unfold fetch_page, request_outcome, mbind, IO_bind, session_get, lift, raise_for_status.
  destruct (network w (requests_made w) url t) as [response|e]; [|reflexivity].
  destruct ((400 <=? status_code response) && (status_code response <? 600)); reflexivity.
Qed.

(** One turn of the loop: the outcome of the request decides, through
    [retry_delay], between returning, sleeping and going on, and raising. *)
Lemma retry_loop_turn self url max_retries t attempt rest last w :
  retry_loop self url max_retries (Some t) (attempt :: rest) last w
  = match request_outcome w (requests_made w) url t with
    | Return response => (Return response, requested w)
    | Raise e =>
        match retry_delay max_retries attempt e with
        | Some delay =>
            retry_loop self url max_retries (Some t) rest (Some e) (rested delay (requested w))
        | None => (Raise e, requested w)
        end
    end.
Proof.
  cbn [retry_loop]. unfold try_except. rewrite fetch_page_outcome.
  destruct (request_outcome w (requests_made w) url t) as [response|e]; [reflexivity|].
  destruct e as [msg|msg|cls [response|]]; try reflexivity; cbn [retry_delay].
  - destruct (status_code response =? 429).
    { destruct (attempt <? max_retries); reflexivity. }
    destruct (existsb (Z.eqb (status_code response)) [502; 503; 504]).
    { destruct (attempt <? max_retries); reflexivity. }
    match goal with |- context [if ?b then _ else _] => destruct b end; reflexivity.
  - destruct (is_network_error cls); [|reflexivity].
    destruct (attempt <? max_retries); reflexivity.
Qed.

Lemma exponential_backoff_values attempt :
  0 <= attempt ->
  _calculate_exponential_backoff attempt
  = if attempt =? 0 then 1 else if attempt =? 1 then 2 else 4.
Proof.
  intros Ha. unfold _calculate_exponential_backoff.
  destruct (attempt =? 0) eqn:E0; [apply Z.eqb_eq in E0; subst; reflexivity|].
  destruct (attempt =? 1) eqn:E1; [apply Z.eqb_eq in E1; subst; reflexivity|].
  apply Z.eqb_neq in E0, E1.
  assert (2 ^ 2 <= 2 ^ attempt) by (apply Z.pow_le_mono_r; lia).
  change (2 ^ 2) with 4 in *. lia.
Qed.

Lemma rate_limit_delay_values attempt :
  0 <= attempt ->
  _calculate_rate_limit_delay attempt
  = if attempt =? 0 then 5 else if attempt =? 1 then 10 else 20.
Proof.
  intros Ha. unfold _calculate_rate_limit_delay.
  destruct (attempt =? 0) eqn:E0; [apply Z.eqb_eq in E0; subst; reflexivity|].
  destruct (attempt =? 1) eqn:E1; [apply Z.eqb_eq in E1; subst; reflexivity|].
  apply Z.eqb_neq in E0, E1.
  replace (Z.min attempt (Z.of_nat (length [5; 10; 20]) - 1)) with 2
    by (cbn [length]; lia).
  reflexivity.
Qed.

(** X1. From attempt 0 on, the exponential backoff is 1, 2 and then
    4 seconds for good, and the rate-limit delay is 5, 10 and then 20
    seconds for good: both never decrease and are capped. *)
Theorem retry_delays_capped (attempt : Z) :
  0 <= attempt ->
  _calculate_exponential_backoff attempt
  = (if attempt =? 0 then 1 else if attempt =? 1 then 2 else 4)
  /\ _calculate_rate_limit_delay attempt
     = (if attempt =? 0 then 5 else if attempt =? 1 then 10 else 20)
  /\ _calculate_exponential_backoff attempt <= _calculate_exponential_backoff (attempt + 1) <= 4
  /\ _calculate_rate_limit_delay attempt <= _calculate_rate_limit_delay (attempt + 1) <= 20.
Proof.
  intros Ha.
  rewrite !exponential_backoff_values, !rate_limit_delay_values by lia.
  repeat split; repeat match goal with |- context [?a =? ?b] => destruct (Z.eqb_spec a b) end; lia.
Qed.

Lemma retry_delays_capped_witness :
  _calculate_exponential_backoff 7 = 4 /\ _calculate_rate_limit_delay 7 = 20.
Proof.
  destruct (retry_delays_capped 7) as (Hb & Hr & _); [lia|]. split; [exact Hb | exact Hr].
Defined.

Lemma retry_delay_some max_retries attempt e delay :
  0 <= attempt ->
  retry_delay max_retries attempt e = Some delay ->
  attempt < max_retries /\ In delay [1; 2; 4; 5; 10; 20].
Proof.
  intros Ha. unfold retry_delay.
  pose proof (exponential_backoff_values attempt Ha) as Hb.
  pose proof (rate_limit_delay_values attempt Ha) as Hr.
  assert (In (_calculate_exponential_backoff attempt) [1; 2; 4; 5; 10; 20]) as Ib.
  { rewrite Hb. destruct (attempt =? 0); [|destruct (attempt =? 1)]; cbn; tauto. }
  assert (In (_calculate_rate_limit_delay attempt) [1; 2; 4; 5; 10; 20]) as Ir.
  { rewrite Hr. destruct (attempt =? 0); [|destruct (attempt =? 1)]; cbn; tauto. }
  destruct e as [msg|msg|cls [response|]]; try discriminate.
  - destruct (status_code response =? 429).
    { destruct (attempt <? max_retries) eqn:E; [|discriminate].
      intros [= <-]. split; [lia | exact Ir]. }
    destruct (existsb (Z.eqb (status_code response)) [502; 503; 504]); [|discriminate].
    destruct (attempt <? max_retries) eqn:E; [|discriminate].
    intros [= <-]. split; [lia | exact Ib].
  - destruct (is_network_error cls); [|discriminate].
    destruct (attempt <? max_retries) eqn:E; [|discriminate].
    intros [= <-]. split; [lia | exact Ib].
Qed.

(** The loop from attempt [a] to attempt [max_retries], [k] attempts after
    [a]: what it leaves of the world and where its result comes from. *)
Lemma retry_loop_run self url max_retries t k :
  forall a last w res w',
    0 <= a -> a + Z.of_nat k = max_retries ->
    retry_loop self url max_retries (Some t) (seqZ a (Z.of_nat (S k))) last w = (res, w') ->
    network w' = network w /\ clock w' = clock w /\ clock_reads w' = clock_reads w
    /\ exists (r : nat) (delays : list Z),
         requests_made w' = (requests_made w + S r)%nat
         /\ slept w' = (slept w ++ delays)%list
         /\ (r <= k)%nat /\ length delays = r
         /\ Forall (fun d => In d [1; 2; 4; 5; 10; 20]) delays
         /\ res = request_outcome w (requests_made w + r) url t.
Proof.
  induction k as [|k IH]; intros a last w res w' Ha Hn;
    rewrite seqZ_cons by lia; rewrite retry_loop_turn.
  - destruct (request_outcome w (requests_made w) url t) as [response|e] eqn:Ho.
    + intros [= <- <-]. repeat split. exists 0%nat, [].
      rewrite Nat.add_0_r, app_nil_r, Ho. cbn. repeat split; auto; lia.
    + destruct (retry_delay max_retries a e) as [delay|] eqn:Hd.
      { apply retry_delay_some in Hd as [Hlt _]; [lia | assumption]. }
      intros [= <- <-]. repeat split. exists 0%nat, [].
      rewrite Nat.add_0_r, app_nil_r, Ho. cbn. repeat split; auto; lia.
  - destruct (request_outcome w (requests_made w) url t) as [response|e] eqn:Ho.
    + intros [= <- <-]. repeat split. exists 0%nat, [].
      rewrite Nat.add_0_r, app_nil_r, Ho. cbn. repeat split; auto; lia.
    + destruct (retry_delay max_retries a e) as [delay|] eqn:Hd.
      * apply retry_delay_some in Hd as [Hlt Hin]; [|assumption].
        replace (Z.pred (Z.of_nat (S (S k)))) with (Z.of_nat (S k)) by lia.
        intros Hrun. apply IH in Hrun as (Hnet & Hclk & Hrd & r & delays & Hreq & Hsl & Hr & Hlen & Hall & Hres);
          [|lia|lia].
        cbn [network clock clock_reads requests_made slept rested requested] in *.
        repeat split; try assumption.
        exists (S r), (delay :: delays). repeat split.
        -- lia.
        -- rewrite Hsl, <- app_assoc. reflexivity.
        -- lia.
        -- cbn. lia.
        -- constructor; assumption.
        -- rewrite Hres. unfold request_outcome. cbn [network].
           replace (requests_made w + S r)%nat with (S (requests_made w) + r)%nat by lia.
           reflexivity.
      * intros [= <- <-]. repeat split. exists 0%nat, [].
        rewrite Nat.add_0_r, app_nil_r, Ho. cbn. repeat split; auto; lia.
Qed.



(** X3. For every behaviour of the network and every max_retries >= 0, what
    fetch_with_retry returns or raises is the outcome of the last request it
    made: the response of that request when its status is outside 400..599,
    else the HTTPError of that response or the exception of the transport.
    So a returned response never has a status from 400 to 599, and an error
    is always the last one observed. *)
Theorem fetch_with_retry_last_outcome (self : HTTPClient) (url : string) (max_retries : Z)
    (timeout_ : option Z) (w w' : World) (res : result Response) :
  0 <= max_retries ->
  fetch_with_retry self url max_retries timeout_ w = (res, w') ->
  res = request_outcome w (requests_made w' - 1) url
          (match timeout_ with None => timeout self | Some t => t end)
  /\ (forall response, res = Return response ->
        ~ (400 <= status_code response < 600)).
Proof.
  intros Hn. unfold fetch_with_retry.
  replace (max_retries + 1) with (Z.of_nat (S (Z.to_nat max_retries))) by lia.
  intros Hrun. apply retry_loop_run in Hrun
    as (_ & _ & _ & r & delays & Hreq & _ & _ & _ & _ & Hres); [|lia|lia].
  replace (requests_made w' - 1)%nat with (requests_made w + r)%nat by lia.
  split; [exact Hres|].
  intros response ->. symmetry in Hres. unfold request_outcome in Hres.
  destruct (network w (requests_made w + r) url _) as [resp|e]; [|discriminate].
  destruct ((400 <=? status_code resp) && (status_code resp <? 600)) eqn:E; [discriminate|].
  injection Hres as ->. lia.
Qed.

Lemma fetch_with_retry_last_outcome_witness :
  fst (fetch_with_retry (mkHTTPClient 30) "https://www.amazonaws.cn/en/new/" 3 None
         recovering_server)
  = Return (mkResponse 200 "<html></html>").
Proof.
  destruct (fetch_with_retry (mkHTTPClient 30) "https://www.amazonaws.cn/en/new/" 3 None
              recovering_server) as [res w'] eqn:E.
  destruct (fetch_with_retry_last_outcome _ _ 3 _ _ _ _ ltac:(lia) E) as [Hres _].
  cbn [fst]. rewrite Hres. vm_compute in E. injection E as _ <-. reflexivity.
Defined.

Lemma request_outcome_retryable w i url t response :
  network w i url t = Return response ->
  retryable_status (status_code response) ->
  request_outcome w i url t = Raise (RequestException HTTPError (Some response)).
Proof.
  intros Hn Hs. unfold request_outcome. rewrite Hn.
  replace ((400 <=? status_code response) && (status_code response <? 600)) with true
    by (unfold retryable_status in Hs; lia).
  reflexivity.
Qed.

Lemma retry_delay_retryable max_retries attempt cls response :
  retryable_status (status_code response) ->
  retry_delay max_retries attempt (RequestException cls (Some response))
  = if attempt <? max_retries
    then Some (status_delay (status_code response) attempt) else None.
Proof.
  intros Hs. unfold retry_delay, status_delay.
  destruct (status_code response =? 429) eqn:E; [reflexivity|].
  replace (existsb (Z.eqb (status_code response)) [502; 503; 504]) with true; [reflexivity|].
  apply Z.eqb_neq in E. cbn [existsb].
  destruct Hs as [Hs | [Hs | [Hs | Hs]]]; rewrite Hs in *; try reflexivity. contradiction.
Qed.

(** X4. A response whose status is from 400 to 599 and is none of 429, 502,
    503 and 504 (so 404, and also 500) is not retried, whatever max_retries
    is: fetch_with_retry makes that one request, does not sleep, and raises
    the HTTPError of the response. The same holds for a request exception
    that carries no response and is neither a timeout nor a connection
    error. *)
Theorem fetch_with_retry_no_retry (self : HTTPClient) (url : string) (max_retries : Z)
    (timeout_ : option Z) (w : World) :
  0 <= max_retries ->
  let t := match timeout_ with None => timeout self | Some t => t end in
  (forall response,
     network w (requests_made w) url t = Return response ->
     400 <= status_code response < 600 ->
     ~ retryable_status (status_code response) ->
     fetch_with_retry self url max_retries timeout_ w
     = (Raise (RequestException HTTPError (Some response)), requested w))
  /\ (network w (requests_made w) url t = Raise (RequestException OtherRequestException None) ->
      fetch_with_retry self url max_retries timeout_ w
      = (Raise (RequestException OtherRequestException None), requested w)).
Proof.
  intros Hn t. unfold fetch_with_retry. fold t.
  rewrite seqZ_cons by lia. rewrite retry_loop_turn. unfold request_outcome. split.
  - intros response Hnet Hs Hnr. rewrite Hnet.
    replace ((400 <=? status_code response) && (status_code response <? 600)) with true by lia.
    cbn [retry_delay].
    replace (status_code response =? 429) with false by (unfold retryable_status in Hnr; lia).
    replace (existsb (Z.eqb (status_code response)) [502; 503; 504]) with false; [reflexivity|].
    cbn [existsb]. unfold retryable_status in Hnr. lia.
  - intros ->. reflexivity.
Qed.

Lemma fetch_with_retry_no_retry_witness :
  fetch_with_retry (mkHTTPClient 30) "https://www.amazonaws.cn/en/new/" 3 None
    (server_with_status 500)
  = (Raise (RequestException HTTPError (Some (mkResponse 500 ""))),
     requested (server_with_status 500)).
Proof.
  destruct (fetch_with_retry_no_retry (mkHTTPClient 30) "https://www.amazonaws.cn/en/new/" 3
              None (server_with_status 500)) as [Hstatus _]; [lia|].
  apply Hstatus; [reflexivity | cbn; lia | unfold retryable_status; cbn; lia].
Defined.

(** The loop against a server that always answers the same retryable
    status. *)
Lemma retry_loop_exhausts self url max_retries t status k :
  forall a last w,
    0 <= a -> a + Z.of_nat k = max_retries ->
    retryable_status status ->
    (forall i, exists response,
        network w i url t = Return response /\ status_code response = status) ->
    exists final w',
      retry_loop self url max_retries (Some t) (seqZ a (Z.of_nat (S k))) last w
      = (Raise (RequestException HTTPError (Some final)), w')
      /\ network w (requests_made w + k)%nat url t = Return final
      /\ requests_made w' = (requests_made w + S k)%nat
      /\ slept w' = (slept w ++ map (status_delay status) (seqZ a (Z.of_nat k)))%list.
Proof.
  induction k as [|k IH]; intros a last w Ha Hn Hs Hserver;
    rewrite seqZ_cons by lia; rewrite retry_loop_turn;
    destruct (Hserver (requests_made w)) as (response & Hnet & Hst);
    rewrite (request_outcome_retryable _ _ _ _ _ Hnet) by (rewrite Hst; exact Hs);
    rewrite retry_delay_retryable by (rewrite Hst; exact Hs).
  - replace (a <? max_retries) with false by lia.
    exists response. eexists. split; [reflexivity|].
    rewrite Nat.add_0_r. cbn. rewrite app_nil_r. repeat split; try assumption; lia.
  - replace (a <? max_retries) with true by lia.
    replace (Z.pred (Z.of_nat (S (S k)))) with (Z.of_nat (S k)) by lia.
    destruct (IH (Z.succ a) (Some (RequestException HTTPError (Some response)))
                (rested (status_delay (status_code response) a) (requested w)))
      as (final & w' & Hrun & Hfin & Hreq & Hsl); [lia | lia | exact Hs | exact Hserver |].
    exists final, w'. split; [exact Hrun|].
    cbn [network requests_made slept rested requested] in *.
    split; [rewrite <- Hfin; f_equal; lia|]. split; [lia|].
    rewrite Hsl, <- app_assoc, Hst. f_equal.
    rewrite (seqZ_cons a (Z.of_nat (S k))) by lia.
    replace (Z.pred (Z.of_nat (S k))) with (Z.of_nat k) by lia. reflexivity.
Qed.



(** X6. With a negative max_retries the loop of fetch_with_retry has no
    turn: no request is made, nothing is slept, and the final
    [raise last_exception] raises TypeError, last_exception being None. *)
Theorem fetch_with_retry_negative_retries (self : HTTPClient) (url : string)
    (max_retries : Z) (timeout_ : option Z) (w : World) :
  max_retries < 0 ->
  fetch_with_retry self url max_retries timeout_ w
  = (Raise (TypeError "exceptions must derive from BaseException"), w).
Proof.
  intros Hn. unfold fetch_with_retry. rewrite seqZ_nil by lia. reflexivity.
Qed.

Lemma fetch_with_retry_negative_retries_witness :
  fetch_with_retry (mkHTTPClient 30) "https://www.amazonaws.cn/en/new/" (-1) None
    (server_with_status 200)
  = (Raise (TypeError "exceptions must derive from BaseException"), server_with_status 200).
Proof. apply fetch_with_retry_negative_retries. lia. Defined.

(** The loop when the first [k] requests are answered 502, 503 or 504 and
    the next one is answered with a status outside 400..599. *)
Lemma retry_loop_recovers self url max_retries t k :
  forall m a last w good,
    0 <= a -> a + Z.of_nat m = max_retries -> (k <= m)%nat ->
    (forall i, (i < k)%nat -> exists response,
        network w (requests_made w + i)%nat url t = Return response
        /\ In (status_code response) [502; 503; 504]) ->
    network w (requests_made w + k)%nat url t = Return good ->
    ~ (400 <= status_code good < 600) ->
    exists w',
      retry_loop self url max_retries (Some t) (seqZ a (Z.of_nat (S m))) last w
      = (Return good, w')
      /\ requests_made w' = (requests_made w + S k)%nat
      /\ slept w' = (slept w ++ map _calculate_exponential_backoff (seqZ a (Z.of_nat k)))%list.
Proof.
  induction k as [|k IH]; intros m a last w good Ha Hn Hk Hfail Hgood Hok;
    rewrite seqZ_cons by lia; rewrite retry_loop_turn.
  - unfold request_outcome. rewrite Nat.add_0_r in Hgood. rewrite Hgood.
    replace ((400 <=? status_code good) && (status_code good <? 600)) with false by lia.
    eexists. split; [reflexivity|]. cbn. rewrite app_nil_r. split; [lia | reflexivity].
  - destruct (Hfail 0%nat ltac:(lia)) as (response & Hnet & Hst).
    rewrite Nat.add_0_r in Hnet.
    assert (retryable_status (status_code response)) as Hs
      by (unfold retryable_status; cbn in Hst; lia).
    rewrite (request_outcome_retryable _ _ _ _ _ Hnet Hs), (retry_delay_retryable _ _ _ _ Hs).
    replace (a <? max_retries) with true by lia.
    destruct m as [|m]; [lia|].
    replace (Z.pred (Z.of_nat (S (S m)))) with (Z.of_nat (S m)) by lia.
    destruct (IH m (Z.succ a) (Some (RequestException HTTPError (Some response)))
                (rested (status_delay (status_code response) a) (requested w)) good)
      as (w' & Hrun & Hreq & Hsl); [lia | lia | lia | | | exact Hok |].
    + intros i Hi. cbn [network requests_made rested requested].
      destruct (Hfail (S i) ltac:(lia)) as (r & Hr & Hrs). exists r.
      replace (S (requests_made w) + i)%nat with (requests_made w + S i)%nat by lia. auto.
    + cbn [network requests_made rested requested].
      replace (S (requests_made w) + k)%nat with (requests_made w + S k)%nat by lia.
      exact Hgood.
    + exists w'. split; [exact Hrun|].
      cbn [network requests_made slept rested requested] in *. split; [lia|].
      rewrite Hsl, <- app_assoc. f_equal.
      rewrite (seqZ_cons a (Z.of_nat (S k))) by lia.
      replace (Z.pred (Z.of_nat (S k))) with (Z.of_nat k) by lia.
      cbn [map app]. f_equal. unfold status_delay.
      replace (status_code response =? 429) with false by (cbn in Hst; lia). reflexivity.
Qed.

(** X7. If the first k <= max_retries requests are answered 502, 503 or 504
    and the next request is answered with a status outside 400..599, then
    fetch_with_retry returns that response after k + 1 requests, having
    slept the exponential backoff of attempts 0 to k - 1 and nothing
    more. *)
Theorem fetch_with_retry_recovers (self : HTTPClient) (url : string) (max_retries : Z)
    (timeout_ : option Z) (w : World) (k : nat) (good : Response) :
  let t := match timeout_ with None => timeout self | Some t => t end in
  Z.of_nat k <= max_retries ->
  (forall i, (i < k)%nat -> exists response,
      network w (requests_made w + i)%nat url t = Return response
      /\ In (status_code response) [502; 503; 504]) ->
  network w (requests_made w + k)%nat url t = Return good ->
  ~ (400 <= status_code good < 600) ->
  exists w',
    fetch_with_retry self url max_retries timeout_ w = (Return good, w')
    /\ requests_made w' = (requests_made w + k + 1)%nat
    /\ slept w' = (slept w ++ map _calculate_exponential_backoff (seqZ 0 (Z.of_nat k)))%list.
Proof.
  intros t Hk Hfail Hgood Hok. unfold fetch_with_retry. fold t.
  replace (max_retries + 1) with (Z.of_nat (S (Z.to_nat max_retries))) by lia.
  destruct (retry_loop_recovers self url max_retries t k (Z.to_nat max_retries) 0 None w good)
    as (w' & Hrun & Hreq & Hsl); try assumption; try lia.
  exists w'. split; [exact Hrun|]. split; [lia | exact Hsl].
Qed.

Lemma fetch_with_retry_recovers_witness :
  exists w',
    fetch_with_retry (mkHTTPClient 30) "https://www.amazonaws.cn/en/new/" 3 None
      recovering_server
    = (Return (mkResponse 200 "<html></html>"), w')
    /\ requests_made w' = 2%nat
    /\ slept w' = [1].
Proof.
  destruct (fetch_with_retry_recovers (mkHTTPClient 30) "https://www.amazonaws.cn/en/new/" 3
              None recovering_server 1 (mkResponse 200 "<html></html>"))
    as (w' & Hrun & Hreq & Hsl).
  - lia.
  - intros i Hi. replace i with 0%nat by lia. eexists. split; [reflexivity|]. cbn. tauto.
  - reflexivity.
  - cbn. lia.
  - exists w'. split; [exact Hrun|]. split; [exact Hreq | exact Hsl].
Defined.

(* ---------------------------------------------------------------- *)
(** ** date_filter.py: further facts *)



Section FilterByDateFurther.
Context {A : Type} `{HasPublicationDate A}.

Lemma records_in_month_app (y m : Z) (l1 l2 : list A) :
  records_in_month y m (l1 ++ l2)%list
  = (records_in_month y m l1 ++ records_in_month y m l2)%list.
Proof. unfold records_in_month. apply List.filter_app. Qed.

(** X9. Whenever filter_by_date returns, the list it returns is a
    subsequence of its input: no record is added, duplicated or reordered,
    and the result is never longer than the input. When it does not return,
    it raises ValueError, and only for a filter string that is not empty. *)
Theorem filter_by_date_subsequence (l : list A) (f : option string) :
  (forall l', filter_by_date l f = Return l' ->
     l' `sublist_of` l /\ (length l' <= length l)%nat)
  /\ (forall e, filter_by_date l f = Raise e ->
        (exists msg, e = ValueError msg) /\ exists s, f = Some s /\ s <> "").
Proof.
  destruct f as [s|]; [|split; [intros l' [= <-]; split; [reflexivity | lia] | discriminate]].
  destruct (parse_date_filter_cases s)
    as [[-> _] | [[Hne [msg Hr]] | (y & m & _ & _ & _ & Hp)]].
  - split; [intros l' [= <-]; split; [reflexivity | lia] | discriminate].
  - unfold filter_by_date. pose proof Hne as Hne'. apply String.eqb_neq in Hne'.
    rewrite Hne', Hr. split; [discriminate|]. intros e [= <-]. eauto.
  - rewrite (filter_by_date_parsed l s y m Hp). split; [|discriminate].
    intros l' [= <-]. pose proof (records_in_month_sublist y m l) as Hsub.
    split; [exact Hsub | apply sublist_length; exact Hsub].
Qed.

(** X10. Filtering distributes over concatenation: when filter_by_date
    returns on two lists, it returns on their concatenation the
    concatenation of the two results, so that filtering batch by batch and
    filtering all at once keep the same records in the same order. *)
Theorem filter_by_date_app (l1 l2 l1' l2' : list A) (f : option string) :
  filter_by_date l1 f = Return l1' ->
  filter_by_date l2 f = Return l2' ->
  filter_by_date (l1 ++ l2)%list f = Return (l1' ++ l2')%list.
Proof.
  destruct f as [s|]; [|intros [= <-] [= <-]; reflexivity].
  destruct (parse_date_filter_cases s)
    as [[-> _] | [[Hne [msg Hr]] | (y & m & _ & _ & _ & Hp)]].
  - intros [= <-] [= <-]. reflexivity.
  - unfold filter_by_date. apply String.eqb_neq in Hne. rewrite Hne, Hr. discriminate.
  - rewrite !(filter_by_date_parsed _ s y m Hp). intros [= <-] [= <-].
    rewrite records_in_month_app. reflexivity.
Qed.

End FilterByDateFurther.

Lemma filter_by_date_subsequence_witness :
  exists l', filter_by_date three_links (Some "2026-02") = Return l'
             /\ (length l' <= 4)%nat.
Proof.
  destruct (filter_by_date three_links (Some "2026-02")) as [l'|e] eqn:E; [|discriminate E].
  exists l'. split; [reflexivity|].
  destruct (filter_by_date_subsequence three_links (Some "2026-02")) as [Hret _].
  destruct (Hret l' E) as [_ Hlen]. exact Hlen.
Defined.

Lemma filter_by_date_app_witness :
  filter_by_date (three_links ++ three_links)%list (Some "2026-02")
  = Return ([link_on "February" "https://www.amazonaws.cn/new/b" (Some (mkDatetime 2026 2 3 0 0 0 0))]
            ++ [link_on "February" "https://www.amazonaws.cn/new/b" (Some (mkDatetime 2026 2 3 0 0 0 0))])%list.
Proof.
  apply (filter_by_date_app three_links three_links); reflexivity.
Defined.

(* ---------------------------------------------------------------- *)
(** ** content_extractor.py: further facts *)

Lemma length_append (s1 s2 : string) :
  String.length (s1 ++ s2) = (String.length s1 + String.length s2)%nat.
Proof.
  induction s1 as [|c s1 IH]; [reflexivity|].
  change (S (String.length (s1 ++ s2)) = S (String.length s1 + String.length s2)).
  f_equal. exact IH.
Qed.

Lemma length_slice_to (n : nat) (s : string) :
  String.length (slice_to n s) = Nat.min n (String.length s).
Proof.
  unfold slice_to. revert s. induction n as [|n IH]; intros [|c s]; cbn; try reflexivity.
  rewrite IH. reflexivity.
Qed.

Lemma _extract_content_text_long soup c :
  fst (_extract_content_text soup) = Some c -> (50 < String.length c)%nat.
Proof.
  unfold _extract_content_text.
  destruct (_find_content_area soup) as [area|]; [|discriminate].
  unfold _extract_formatted_text.
  rewrite strip_idempotent.
  match goal with |- context [strip ?t] => set (flattened := strip t) end.
  destruct (nonempty flattened); cbn [andb]; [|discriminate].
  destruct (50 <? String.length flattened)%nat eqn:E; [|discriminate].
  cbn [fst]. intros [= <-]. apply Nat.ltb_lt. exact E.
Qed.

Section ContentExtractorFurther.
Context (urljoin : string -> string -> result string)
        (_extract_publication_date : PageElement -> result (option datetime))
        (html_parser : string -> list Node).

Local Abbreviation parse_page := (parse_announcement_page urljoin _extract_publication_date).

(** What a call of [parse_announcement_page] leaves of the world. *)
Lemma parse_announcement_page_world soup url date w res w' :
  parse_page soup url date w = (res, w') ->
  network w' = network w /\ requests_made w' = requests_made w /\ slept w' = slept w
  /\ clock w' = clock w
  /\ (clock_reads w <= clock_reads w' <= clock_reads w + 2)%nat.
Proof.
  rewrite parse_announcement_page_unfold.
  destruct (_extract_title soup) as [title|]; [|intros [= <- <-]; repeat split; lia].
  unfold resolve_publication_date.
  destruct date as [d|].
  - destruct (_extract_content_text soup) as [[c|] soup'];
      intros [= <- <-]; cbn; repeat split; lia.
  - destruct (_extract_publication_date soup) as [[found|]|e];
      try (destruct (_extract_content_text soup) as [[c|] soup']);
      intros [= <- <-]; cbn; repeat split; lia.
Qed.

(** X11. When parse_announcement_page returns a record, its title has more
    than 5 characters and is the title that _extract_title found, its
    content text has more than 50 characters, its url is the URL passed in,
    its extraction timestamp is the last reading of the clock, taken after
    the one that a defaulted publication date comes from, and the call has
    made no request and slept no time. *)
Theorem parse_announcement_page_returns (soup : PageElement) (url : string)
    (date : option datetime) (w w' : World) (content : AnnouncementContent.t) :
  parse_page soup url date w = (Return content, w') ->
  _extract_title soup = Some (AnnouncementContent.title content)
  /\ (5 < String.length (AnnouncementContent.title content))%nat
  /\ fst (_extract_content_text soup) = Some (AnnouncementContent.content_text content)
  /\ (50 < String.length (AnnouncementContent.content_text content))%nat
  /\ AnnouncementContent.url content = url
  /\ (clock_reads w < clock_reads w' <= clock_reads w + 2)%nat
  /\ AnnouncementContent.extraction_timestamp content = clock w (clock_reads w' - 1)
  /\ requests_made w' = requests_made w /\ slept w' = slept w.
Proof.
  intros Hp. pose proof (parse_announcement_page_world _ _ _ _ _ _ Hp)
    as (_ & Hreq & Hsl & _ & _).
  revert Hp. rewrite parse_announcement_page_unfold.
  destruct (_extract_title soup) as [title|] eqn:Et; [|discriminate].
  destruct (title_loop_valid _ _ _ Et) as [_ Hlen].
  destruct (_extract_content_text soup) as [[c|] soup'] eqn:Ec.
  - assert (50 < String.length c)%nat as Hc
      by (apply (_extract_content_text_long soup); rewrite Ec; reflexivity).
    unfold resolve_publication_date. destruct date as [d|].
    + intros [= <- <-]. cbn. rewrite Nat.sub_0_r. repeat split; auto; lia.
    + destruct (_extract_publication_date soup) as [[found|]|e]; [| |discriminate];
        intros [= <- <-]; cbn; rewrite ?Nat.sub_0_r; repeat split; auto; lia.
  - destruct (resolve_publication_date _extract_publication_date soup date w) as [[pd|e] w1];
      discriminate.
Qed.

(** X12. extract_content raises nothing but request exceptions, which pass
    through from the fetch, and ValueError, which every other failure is
    turned into; and it makes at least one request and at most four, that is
    the fetch with its three retries, and none for the parse. *)
Theorem extract_content_outcomes (http_client : HTTPClient) (url : string)
    (date : option datetime) (w w' : World) (res : result AnnouncementContent.t) :
  extract_content urljoin _extract_publication_date html_parser http_client url date w
  = (res, w') ->
  (forall e, res = Raise e ->
     (exists cls response, e = RequestException cls response) \/ exists msg, e = ValueError msg)
  /\ (requests_made w + 1 <= requests_made w' <= requests_made w + 4)%nat.
Proof.
  unfold extract_content, try_except, mbind, IO_bind, fetch_with_retry.
  change (3 + 1) with (Z.of_nat (S 3)).
  destruct (retry_loop _ _ _ _ _ _ w) as [fetched w1] eqn:Hf.
  apply retry_loop_run in Hf as (_ & _ & _ & r & delays & Hreq & _ & Hr & _); [|lia|lia].
  destruct fetched as [response|e].
  - destruct (parse_page _ url date w1) as [parsed w2] eqn:Hp.
    apply parse_announcement_page_world in Hp as (_ & Hreq2 & _).
    destruct parsed as [content|e].
    + intros [= <- <-]. split; [discriminate | lia].
    + destruct e as [msg|msg|cls resp]; intros [= <- <-];
        (split; [intros e [= <-]; eauto | lia]).
  - destruct e as [msg|msg|cls resp]; intros [= <- <-];
      (split; [intros e [= <-]; eauto | lia]).
Qed.

End ContentExtractorFurther.

Lemma length_omap_le {X Y : Type} (f : X -> option Y) (l : list X) :
  (length (omap f l) <= length l)%nat.
Proof.
  induction l as [|x l IH]; [reflexivity|].
  change (omap f (x :: l)) with (match f x with Some y => y :: omap f l | None => omap f l end).
  destruct (f x); cbn [length]; lia.
Qed.

Lemma _get_link_context_bounded link :
  (String.length (_get_link_context link) <= 203)%nat.
Proof.
  unfold _get_link_context. destruct (parent link) as [p|]; [|cbn; lia].
  destruct (200 <? String.length (get_text_strip (node p)))%nat eqn:E.
  - rewrite length_append, length_slice_to.
    change (String.length "...") with 3%nat. lia.
  - apply Nat.ltb_ge in E. lia.
Qed.

Section EmbeddedLinksFacts.
Context (urljoin : string -> string -> result string).

(** X13. Every embedded link that extract_embedded_links collects comes
    from an anchor of the content area (of the whole document when there is
    none) whose stripped href is not empty and does not start with #; its
    url is what urljoin makes of that href against the base URL, its text is
    not empty (the href stands in for an empty link text) and its context
    has at most 203 characters. There are at most as many links as anchors
    with an href. *)
Theorem extract_embedded_links_invariants (soup : PageElement) (base_url : string) :
  (length (extract_embedded_links urljoin soup base_url)
   <= length (find_all_with_attr "a" "href" (link_scope soup)))%nat
  /\ forall link, In link (extract_embedded_links urljoin soup base_url) ->
       EmbeddedLink.text link <> ""
       /\ (String.length (EmbeddedLink.context link) <= 203)%nat
       /\ exists a, In a (find_all_with_attr "a" "href" (link_scope soup))
            /\ strip (get_or_empty "href" (node a)) <> ""
            /\ startswith "#" (strip (get_or_empty "href" (node a))) = false
            /\ urljoin base_url (strip (get_or_empty "href" (node a)))
               = Return (EmbeddedLink.url link).
Proof.
  unfold extract_embedded_links. fold (link_scope soup). split; [apply length_omap_le|].
  intros link Hin. apply list_elem_of_In, list_elem_of_omap in Hin as (a & Ha & Hlink).
  apply list_elem_of_In in Ha. unfold embedded_link_of in Hlink.
  set (href := strip (get_or_empty "href" (node a))) in *.
  destruct (nonempty href) eqn:Hne; cbn [negb] in Hlink; [|discriminate].
  destruct (urljoin base_url href) as [absolute_url|e] eqn:Hu; [|discriminate].
  destruct (startswith "#" href) eqn:Hs; [discriminate|].
  injection Hlink as <-. cbn [EmbeddedLink.text EmbeddedLink.context EmbeddedLink.url].
  apply negb_true_iff, String.eqb_neq in Hne.
  split; [|split; [apply _get_link_context_bounded|]].
  - destruct (nonempty (get_text_strip (node a))) eqn:Ht; [|exact Hne].
    apply negb_true_iff, String.eqb_neq in Ht. exact Ht.
  - exists a. auto.
Qed.

End EmbeddedLinksFacts.

Example page_with_links_links :
  extract_embedded_links urljoin_ref page_with_links detail_url
  = [EmbeddedLink.mk "guide" "https://www.amazonaws.cn/lambda/rust"
       "See theguide, thetopand the.";
     EmbeddedLink.mk "/lambda/rust" "https://www.amazonaws.cn/lambda/rust"
       "See theguide, thetopand the."].
Proof. vm_compute. reflexivity. Qed.

Lemma extract_embedded_links_invariants_witness :
  Forall (fun link => EmbeddedLink.text link <> ""
                      /\ (String.length (EmbeddedLink.context link) <= 203)%nat)
    (extract_embedded_links urljoin_ref page_with_links detail_url).
Proof.
  destruct (extract_embedded_links_invariants urljoin_ref page_with_links detail_url)
    as [_ Hall].
  apply List.Forall_forall. intros link Hin.
  destruct (Hall link Hin) as (Ht & Hc & _). split; assumption.
Defined.

Lemma parse_announcement_page_returns_witness :
  exists content w',
    parse_announcement_page urljoin_ref no_page_date page_with_links detail_url
      (Some supplied_date) offline_world = (Return content, w')
    /\ (50 < String.length (AnnouncementContent.content_text content))%nat
    /\ requests_made w' = 0%nat.
Proof.
  destruct (parse_announcement_page urljoin_ref no_page_date page_with_links detail_url
              (Some supplied_date) offline_world) as [[content|e] w'] eqn:E;
    [|vm_compute in E; discriminate E].
  exists content, w'. split; [reflexivity|].
  destruct (parse_announcement_page_returns _ _ _ _ _ _ _ _ E)
    as (_ & _ & _ & Hlen & _ & _ & _ & Hreq & _).
  split; [exact Hlen | exact Hreq].
Defined.

Lemma extract_content_outcomes_witness :
  exists res w',
    extract_content urljoin_ref no_page_date (fun _ => []) (mkHTTPClient 30) detail_url None
      (server_with_status 503) = (res, w')
    /\ (1 <= requests_made w' <= 4)%nat.
Proof.
  destruct (extract_content urljoin_ref no_page_date (fun _ => []) (mkHTTPClient 30) detail_url
              None (server_with_status 503)) as [res w'] eqn:E.
  exists res, w'. split; [reflexivity|].
  destruct (extract_content_outcomes _ _ _ _ _ _ _ _ _ E) as [_ Hreq].
  cbn in Hreq. lia.
Defined.

(** *** The shape of the flattened text *)

Lemma contains_cons sub c s :
  contains sub (String c s) = String.prefix sub (String c s) || contains sub s.
Proof.
  unfold contains. cbn [find].
  destruct (String.prefix sub (String c s)); [reflexivity|].
  destruct (find sub s); reflexivity.
Qed.

Lemma contains_empty sub : contains sub "" = String.prefix sub "".
Proof. unfold contains. cbn [find]. destruct (String.prefix sub ""); reflexivity. Qed.

Lemma prefix_app sub p r :
  String.prefix sub p = true -> String.prefix sub (p ++ r) = true.
Proof.
  revert p. induction sub as [|a sub IH]; intros p.
  { intros _. destruct p; [change ("" ++ r) with r; destruct r|]; reflexivity. }
  destruct p as [|c p]; [discriminate|].
  change (String c p ++ r) with (String c (p ++ r)). cbn [String.prefix].
  destruct (ascii_dec a c); [apply IH | discriminate].
Qed.

(** A string that occurs in a prefix or in a suffix of [s] occurs in [s]. *)
Lemma contains_app_l sub p r : contains sub p = true -> contains sub (p ++ r) = true.
Proof.
  induction p as [|c p IH].
  - rewrite contains_empty. intros H. destruct sub; [|discriminate].
    change ("" ++ r) with r. destruct r; reflexivity.
  - change (String c p ++ r) with (String c (p ++ r)). rewrite !contains_cons.
    intros H. apply orb_prop in H as [H|H].
    + apply (prefix_app _ _ r) in H. change (String c p ++ r) with (String c (p ++ r)) in H.
      rewrite H. reflexivity.
    + rewrite (IH H). apply orb_true_r.
Qed.

Lemma contains_lstrip sub s : contains sub s = false -> contains sub (lstrip s) = false.
Proof.
  induction s as [|c s IH]; [trivial|]. cbn [lstrip].
  destruct (isspace c); [|trivial].
  rewrite contains_cons. intros H. apply orb_false_elim in H as [_ H]. auto.
Qed.

Lemma rstrip_prefix s : exists r, s = rstrip s ++ r.
Proof.
  induction s as [|c s [r IH]]; [exists ""; reflexivity|]. cbn [rstrip].
  destruct (rstrip s) as [|c' t] eqn:E.
  - destruct (isspace c).
    + exists (String c s). reflexivity.
    + exists s. reflexivity.
  - exists r. change (String c (String c' t) ++ r) with (String c (String c' t ++ r)).
    rewrite <- IH. reflexivity.
Qed.

Lemma contains_strip sub s : contains sub s = false -> contains sub (strip s) = false.
Proof.
  intros H. unfold strip. apply contains_lstrip in H.
  destruct (rstrip_prefix (lstrip s)) as [r Hr].
  destruct (contains sub (rstrip (lstrip s))) eqn:E; [|reflexivity].
  apply (contains_app_l _ _ r) in E. rewrite <- Hr in E. congruence.
Qed.

Lemma prefix_cons a s1 b s2 :
  String.prefix (String a s1) (String b s2) = Ascii.eqb b a && String.prefix s1 s2.
Proof.
  cbn [String.prefix]. destruct (ascii_dec a b) as [->|Hne].
  - rewrite Ascii.eqb_refl. reflexivity.
  - replace (Ascii.eqb b a) with false; [reflexivity|].
    symmetry. apply Ascii.eqb_neq. congruence.
Qed.

Lemma prefix_three_line_feeds s :
  String.prefix three_line_feeds s = (3 <=? lf_run s)%nat.
Proof.
  unfold three_line_feeds.
  destruct s as [|a s]; [reflexivity|]. rewrite prefix_cons. cbn [lf_run].
  destruct (Ascii.eqb a LF); [|reflexivity].
  destruct s as [|b s]; [reflexivity|]. rewrite prefix_cons. cbn [lf_run].
  destruct (Ascii.eqb b LF); [|reflexivity].
  destruct s as [|c s]; [reflexivity|]. rewrite prefix_cons. cbn [lf_run].
  destruct (Ascii.eqb c LF); [|reflexivity].
  destruct s; reflexivity.
Qed.

Lemma leading_newlines_cons c s :
  leading_newlines (String c s)
  = if isspace c then ((if Ascii.eqb c LF then 1 else 0) + leading_newlines s)%nat else 0%nat.
Proof. reflexivity. Qed.

Lemma newlines_bounded_cons n c s :
  newlines_bounded n (String c s)
  = (leading_newlines (String c s) <=? n)%nat && newlines_bounded n s.
Proof. reflexivity. Qed.

Lemma isspace_LF : isspace LF = true.
Proof. reflexivity. Qed.

(** After the first substitution no white space run holds more than two
    line feeds; inside a match, what follows the match starts with none. *)
Lemma sub_excessive_newlines_bounded s :
  ((leading_newlines (sub_excessive_newlines 0 s) <= Nat.min (leading_newlines s) 2)%nat
   /\ newlines_bounded 2 (sub_excessive_newlines 0 s) = true)
  /\ (leading_newlines (sub_excessive_newlines (through_last_newline s) s) = 0%nat
      /\ newlines_bounded 2 (sub_excessive_newlines (through_last_newline s) s) = true).
Proof.
  induction s as [|c s [[IH1 IH2] [IH3 IH4]]].
  { cbn. repeat split; lia. }
  assert (Hfirst :
    (leading_newlines (sub_excessive_newlines 0 (String c s))
       <= Nat.min (leading_newlines (String c s)) 2)%nat
    /\ newlines_bounded 2 (sub_excessive_newlines 0 (String c s)) = true).
  { cbn [sub_excessive_newlines].
    destruct (Ascii.eqb c LF) eqn:Ec.
    - apply Ascii.eqb_eq in Ec. subst c.
      destruct (2 <=? leading_newlines s)%nat eqn:E2; cbn [andb].
      + apply Nat.leb_le in E2.
        rewrite !newlines_bounded_cons, !leading_newlines_cons, isspace_LF, Ascii.eqb_refl.
        rewrite IH3, IH4. cbn. split; [lia | reflexivity].
      + apply Nat.leb_gt in E2.
        rewrite !newlines_bounded_cons, !leading_newlines_cons, isspace_LF, Ascii.eqb_refl.
        rewrite IH2, andb_true_r. split; [lia|]. apply Nat.leb_le. lia.
    - cbn [andb].
      rewrite !newlines_bounded_cons, !leading_newlines_cons, Ec.
      rewrite IH2, andb_true_r.
      destruct (isspace c); cbn [Nat.add]; (split; [lia|]); apply Nat.leb_le; lia. }
  split; [exact Hfirst|].
  cbn [through_last_newline].
  destruct (isspace c && (Ascii.eqb c LF || (0 <? leading_newlines s)%nat)) eqn:E.
  - cbn [sub_excessive_newlines]. split; assumption.
  - destruct Hfirst as [H1 H2]. split; [|exact H2].
    assert (leading_newlines (String c s) = 0%nat) as H0; [|lia].
    rewrite leading_newlines_cons.
    destruct (isspace c); [|reflexivity]. cbn [andb] in E.
    apply orb_false_elim in E as [-> E]. apply Nat.ltb_ge in E. lia.
Qed.

(** A string whose white space runs hold at most two line feeds has no
    match of the first pattern. *)
Lemma sub_excessive_newlines_fixed s :
  newlines_bounded 2 s = true -> sub_excessive_newlines 0 s = s.
Proof.
  induction s as [|c s IH]; [reflexivity|].
  rewrite newlines_bounded_cons, leading_newlines_cons. intros H.
  apply andb_prop in H as [H1 H2]. apply Nat.leb_le in H1.
  cbn [sub_excessive_newlines].
  destruct (Ascii.eqb c LF) eqn:Ec.
  - apply Ascii.eqb_eq in Ec. subst c. rewrite isspace_LF in H1.
    replace (2 <=? leading_newlines s)%nat with false
      by (symmetry; apply Nat.leb_gt; lia).
    cbn [andb]. rewrite (IH H2). reflexivity.
  - cbn [andb]. rewrite (IH H2). reflexivity.
Qed.

Lemma blank_isspace c :
  Ascii.eqb c " " || Ascii.eqb c TAB = true -> isspace c = true /\ Ascii.eqb c LF = false.
Proof.
  intros H. apply orb_prop in H as [H|H]; apply Ascii.eqb_eq in H; subst c; split; reflexivity.
Qed.

Lemma leading_newlines_sub_blanks b s :
  leading_newlines (sub_blanks b s) = leading_newlines s.
Proof.
  revert b. induction s as [|c s IH]; intros b; [reflexivity|].
  cbn [sub_blanks]. destruct (Ascii.eqb c " " || Ascii.eqb c TAB) eqn:E.
  - destruct (blank_isspace c E) as [Hs Hl].
    rewrite (leading_newlines_cons c), Hs, Hl. destruct b.
    + rewrite IH. reflexivity.
    + rewrite leading_newlines_cons, IH. reflexivity.
  - rewrite !leading_newlines_cons, IH. reflexivity.
Qed.

Lemma newlines_bounded_sub_blanks n b s :
  newlines_bounded n s = true -> newlines_bounded n (sub_blanks b s) = true.
Proof.
  revert b. induction s as [|c s IH]; intros b; [trivial|].
  rewrite newlines_bounded_cons. intros H. apply andb_prop in H as [H1 H2].
  pose proof (leading_newlines_sub_blanks b (String c s)) as Hl. revert Hl.
  cbn [sub_blanks]. destruct (Ascii.eqb c " " || Ascii.eqb c TAB); [destruct b|]; intros Hl.
  - apply IH, H2.
  - rewrite newlines_bounded_cons, Hl, H1. apply IH, H2.
  - rewrite newlines_bounded_cons, Hl, H1. apply IH, H2.
Qed.

Lemma newlines_bounded_lstrip n s :
  newlines_bounded n s = true -> newlines_bounded n (lstrip s) = true.
Proof.
  induction s as [|c s IH]; [trivial|]. intros H. cbn [lstrip].
  destruct (isspace c); [|exact H].
  rewrite newlines_bounded_cons in H. apply andb_prop in H as [_ H]. auto.
Qed.

Lemma leading_newlines_app_le p r :
  (leading_newlines p <= leading_newlines (p ++ r))%nat.
Proof.
  induction p as [|c p IH]; [cbn; lia|].
  change (String c p ++ r) with (String c (p ++ r)). rewrite !leading_newlines_cons.
  destruct (isspace c); lia.
Qed.

Lemma newlines_bounded_app_l n p r :
  newlines_bounded n (p ++ r) = true -> newlines_bounded n p = true.
Proof.
  induction p as [|c p IH]; [reflexivity|].
  change (String c p ++ r) with (String c (p ++ r)). rewrite !newlines_bounded_cons.
  intros H. apply andb_prop in H as [H1 H2]. rewrite (IH H2), andb_true_r.
  apply Nat.leb_le in H1. apply Nat.leb_le.
  pose proof (leading_newlines_app_le (String c p) r) as Hle.
  change (String c p ++ r) with (String c (p ++ r)) in Hle. lia.
Qed.

Lemma newlines_bounded_strip n s :
  newlines_bounded n s = true -> newlines_bounded n (strip s) = true.
Proof.
  intros H. unfold strip. apply newlines_bounded_lstrip in H.
  destruct (rstrip_prefix (lstrip s)) as [r Hr]. rewrite Hr in H.
  exact (newlines_bounded_app_l _ _ _ H).
Qed.

(** The second substitution leaves no tab and no two blanks in a row. *)
Lemma sub_blanks_normal b s : blanks_normal b (sub_blanks b s) = true.
Proof.
  revert b. induction s as [|c s IH]; intros b; [reflexivity|].
  cbn [sub_blanks]. destruct (Ascii.eqb c " " || Ascii.eqb c TAB) eqn:E.
  - destruct b; [apply IH|]. cbn [blanks_normal]. cbn. apply IH.
  - cbn [blanks_normal]. rewrite E. apply IH.
Qed.

Lemma blanks_normal_fixed b s : blanks_normal b s = true -> sub_blanks b s = s.
Proof.
  revert b. induction s as [|c s IH]; intros b; [reflexivity|].
  cbn [blanks_normal sub_blanks]. destruct (Ascii.eqb c " " || Ascii.eqb c TAB).
  - intros H. apply andb_prop in H as [H H3]. apply andb_prop in H as [H1 H2].
    destruct b; [discriminate|]. apply Ascii.eqb_eq in H2. subst c.
    rewrite (IH _ H3). reflexivity.
  - intros H. rewrite (IH _ H). reflexivity.
Qed.

Lemma blanks_normal_weaken b s : blanks_normal b s = true -> blanks_normal false s = true.
Proof.
  destruct s as [|c s]; [trivial|]. cbn [blanks_normal].
  destruct (Ascii.eqb c " " || Ascii.eqb c TAB); [|trivial].
  intros H. apply andb_prop in H as [H H3]. apply andb_prop in H as [_ H2].
  rewrite H2, H3. reflexivity.
Qed.

Lemma blanks_normal_lstrip s :
  blanks_normal false s = true -> blanks_normal false (lstrip s) = true.
Proof.
  induction s as [|c s IH]; [trivial|]. intros H. cbn [lstrip].
  destruct (isspace c); [|exact H]. apply IH.
  cbn [blanks_normal] in H. destruct (Ascii.eqb c " " || Ascii.eqb c TAB); [|exact H].
  apply andb_prop in H as [_ H]. exact (blanks_normal_weaken _ _ H).
Qed.

Lemma blanks_normal_app_l b p r :
  blanks_normal b (p ++ r) = true -> blanks_normal b p = true.
Proof.
  revert b. induction p as [|c p IH]; intros b; [reflexivity|].
  change (String c p ++ r) with (String c (p ++ r)). cbn [blanks_normal].
  destruct (Ascii.eqb c " " || Ascii.eqb c TAB).
  - intros H. apply andb_prop in H as [H H3]. rewrite H, (IH _ H3). reflexivity.
  - apply IH.
Qed.

Lemma blanks_normal_strip s :
  blanks_normal false s = true -> blanks_normal false (strip s) = true.
Proof.
  intros H. unfold strip. apply blanks_normal_lstrip in H.
  destruct (rstrip_prefix (lstrip s)) as [r Hr]. rewrite Hr in H.
  exact (blanks_normal_app_l _ _ _ H).
Qed.

Lemma blanks_normal_no_tab b s :
  blanks_normal b s = true -> contains (String TAB "") s = false.
Proof.
  revert b. induction s as [|c s IH]; intros b; [reflexivity|].
  rewrite contains_cons, prefix_cons. cbn [blanks_normal].
  destruct (Ascii.eqb c TAB) eqn:Et.
  - apply Ascii.eqb_eq in Et. subst c. cbn. rewrite andb_false_r. discriminate.
  - cbn [andb orb]. destruct (Ascii.eqb c " " || false).
    + intros H. apply andb_prop in H as [_ H]. exact (IH _ H).
    + apply IH.
Qed.

Lemma blanks_normal_no_double_blank b s :
  blanks_normal b s = true -> contains "  " s = false.
Proof.
  revert b. induction s as [|c s IH]; intros b; [reflexivity|].
  rewrite contains_cons, prefix_cons. cbn [blanks_normal].
  destruct (Ascii.eqb c " ") eqn:Eb; cbn [andb orb].
  - intros H. apply andb_prop in H as [_ H]. rewrite (IH _ H), orb_false_r.
    destruct s as [|d s]; [reflexivity|]. rewrite prefix_cons.
    cbn [blanks_normal] in H. destruct (Ascii.eqb d " "); [discriminate H | reflexivity].
  - destruct (Ascii.eqb c TAB).
    + rewrite andb_false_r. discriminate.
    + apply IH.
Qed.

Lemma lf_run_leading_newlines s : (lf_run s <= leading_newlines s)%nat.
Proof.
  induction s as [|c s IH]; [cbn; lia|].
  cbn [lf_run]. rewrite leading_newlines_cons.
  destruct (Ascii.eqb c LF) eqn:Ec; [|lia].
  apply Ascii.eqb_eq in Ec. subst c. rewrite isspace_LF. lia.
Qed.

Lemma newlines_bounded_no_three s :
  newlines_bounded 2 s = true -> contains three_line_feeds s = false.
Proof.
  induction s as [|c s IH]; [reflexivity|].
  rewrite newlines_bounded_cons, contains_cons, prefix_three_line_feeds.
  intros H. apply andb_prop in H as [H1 H2]. apply Nat.leb_le in H1.
  rewrite (IH H2), orb_false_r. apply Nat.leb_gt.
  pose proof (lf_run_leading_newlines (String c s)). lia.
Qed.

(** X14. The text that [_extract_formatted_text] returns is in normal form:
    none of the three clean-up steps changes it any more (the pattern of
    excessive line feeds has no match in it, every run of blanks and tabs
    is one blank, and it is stripped), so it holds no three line feeds in
    a row, no tab and no two blanks in a row. *)
Theorem formatted_text_normal_form (element : Node) :
  let text := fst (_extract_formatted_text element) in
  sub_excessive_newlines 0 text = text
  /\ sub_blanks false text = text
  /\ strip text = text
  /\ contains three_line_feeds text = false
  /\ contains (String TAB "") text = false
  /\ contains "  " text = false.
Proof.
  unfold _extract_formatted_text. cbn [fst].
  set (joined := String.concat "" _).
  assert (Hn : newlines_bounded 2 (strip (sub_blanks false (sub_excessive_newlines 0 joined))) = true).
  { apply newlines_bounded_strip, newlines_bounded_sub_blanks.
    apply (sub_excessive_newlines_bounded joined). }
  assert (Hb : blanks_normal false (strip (sub_blanks false (sub_excessive_newlines 0 joined))) = true).
  { apply blanks_normal_strip, sub_blanks_normal. }
  repeat split.
  - apply sub_excessive_newlines_fixed, Hn.
  - apply blanks_normal_fixed, Hb.
  - apply strip_idempotent.
  - apply newlines_bounded_no_three, Hn.
  - apply (blanks_normal_no_tab _ _ Hb).
  - apply (blanks_normal_no_double_blank _ _ Hb).
Qed.

(** *** The cascades of the content extractor *)

Local Abbreviation text_length d := (String.length (get_text_strip (node d))).

(** The loop of [_find_largest_text_block] either keeps the candidate it
    started with, no element of the list being longer, or ends on the first
    element of the list whose text is the longest. *)
Lemma largest_loop_spec candidates best max_len :
  (largest_loop candidates best max_len = (best, max_len)
   /\ Forall (fun d => (text_length d <= max_len)%nat) candidates)
  \/ (exists earlier c later,
        candidates = (earlier ++ c :: later)%list
        /\ largest_loop candidates best max_len = (Some c, text_length c)
        /\ (max_len < text_length c)%nat
        /\ Forall (fun d => (text_length d < text_length c)%nat) earlier
        /\ Forall (fun d => (text_length d <= text_length c)%nat) later).
Proof.
  revert best max_len. induction candidates as [|c rest IH]; intros best max_len.
  { left. split; [reflexivity | constructor]. }
  cbn [largest_loop]. destruct (max_len <? text_length c)%nat eqn:E.
  - apply Nat.ltb_lt in E. right.
    destruct (IH (Some c) (text_length c)) as [[Hl Hall] | (earlier & c' & later & -> & Hl & Hlt & He & Hla)].
    + exists [], c, rest. repeat split; [exact Hl | exact E | constructor | exact Hall].
    + exists (c :: earlier), c', later. repeat split; [exact Hl | lia | | exact Hla].
      constructor; [exact Hlt | exact He].
  - apply Nat.ltb_ge in E.
    destruct (IH best max_len) as [[Hl Hall] | (earlier & c' & later & -> & Hl & Hlt & He & Hla)].
    + left. split; [exact Hl|]. constructor; [exact E | exact Hall].
    + right. exists (c :: earlier), c', later. repeat split; [exact Hl | exact Hlt | | exact Hla].
      constructor; [lia | exact He].
Qed.

(** What [_find_largest_text_block] returns is one of its candidates. *)
Lemma find_largest_text_block_candidate soup best :
  _find_largest_text_block soup = Some best ->
  In best (find_all ["div"; "section"; "article"] soup).
Proof.
  unfold _find_largest_text_block.
  destruct (largest_loop_spec (find_all ["div"; "section"; "article"] soup) None 0)
    as [[Hl _] | (earlier & c & later & Hc & Hl & _)]; rewrite Hl; [discriminate|].
  destruct (100 <? text_length c)%nat; [|discriminate].
  intros [= <-]. rewrite Hc. apply in_elt.
Qed.


(** A selector of the title cascade is passed over when it selects nothing
    or when the text of the first element it selects has at most 5
    characters. *)
Lemma title_loop_spec soup selectors :
  match title_loop soup selectors with
  | Some title =>
      exists earlier selector later element,
        selectors = (earlier ++ selector :: later)%list
        /\ select_one selector soup = Some element
        /\ title = get_text_strip (node element)
        /\ (5 < String.length title)%nat
        /\ Forall (fun s => forall e, select_one s soup = Some e -> (text_length e <= 5)%nat)
             earlier
  | None =>
      Forall (fun s => forall e, select_one s soup = Some e -> (text_length e <= 5)%nat)
        selectors
  end.
Proof.
  induction selectors as [|selector rest IH]; [constructor|].
  cbn [title_loop].
  destruct (select_one selector soup) as [element|] eqn:Es.
  - destruct (nonempty (get_text_strip (node element))
              && (5 <? text_length element)%nat) eqn:E.
    + apply andb_prop in E as [_ E]. apply Nat.ltb_lt in E.
      exists [], selector, rest, element. repeat split; [exact Es | exact E | constructor].
    + assert (forall e, Some element = Some e -> (text_length e <= 5)%nat) as Hshort.
      { intros e [= <-]. apply andb_false_iff in E as [E|E].
        - destruct (get_text_strip (node element)); [cbn; lia | discriminate].
        - apply Nat.ltb_ge in E. exact E. }
      destruct (title_loop soup rest) as [title|].
      * destruct IH as (earlier & s & later & e & -> & Hs & Ht & Hlen & He).
        exists (selector :: earlier), s, later, e.
        repeat split; [exact Hs | exact Ht | exact Hlen |].
        constructor; [rewrite Es; exact Hshort | exact He].
      * constructor; [rewrite Es; exact Hshort | exact IH].
  - destruct (title_loop soup rest) as [title|].
    + destruct IH as (earlier & s & later & e & -> & Hs & Ht & Hlen & He).
      exists (selector :: earlier), s, later, e.
      repeat split; [exact Hs | exact Ht | exact Hlen |].
      constructor; [rewrite Es; discriminate | exact He].
    + constructor; [rewrite Es; discriminate | exact IH].
Qed.


Lemma content_area_loop_spec soup selectors :
  (exists earlier selector later area,
      selectors = (earlier ++ selector :: later)%list
      /\ Forall (fun s => select_one s soup = None) earlier
      /\ select_one selector soup = Some area
      /\ content_area_loop soup selectors = Some area)
  \/ (Forall (fun s => select_one s soup = None) selectors
      /\ content_area_loop soup selectors = _find_largest_text_block soup).
Proof.
  induction selectors as [|selector rest IH].
  { right. split; [constructor | reflexivity]. }
  cbn [content_area_loop]. destruct (select_one selector soup) as [area|] eqn:Es.
  - left. exists [], selector, rest, area. repeat split; [constructor | exact Es].
  - destruct IH as [(earlier & s & later & area & -> & He & Hs & Hl) | [Hall Hl]].
    + left. exists (selector :: earlier), s, later, area.
      repeat split; [constructor; assumption | exact Hs | exact Hl].
    + right. split; [constructor; assumption | exact Hl].
Qed.

(** X17. The content area is chosen by selector alone: [_find_content_area]
    returns the first element in document order that the first selector of
    its cascade with any match selects, whatever text that element holds;
    the largest text block is looked for only when none of the eight
    selectors selects anything. In both cases the area is an element below
    the document. *)
Theorem find_content_area_spec (soup : PageElement) :
  ((exists earlier selector later area,
       content_selectors = (earlier ++ selector :: later)%list
       /\ Forall (fun s => select_one s soup = None) earlier
       /\ select_one selector soup = Some area
       /\ _find_content_area soup = Some area)
   \/ (Forall (fun s => select_one s soup = None) content_selectors
       /\ _find_content_area soup = _find_largest_text_block soup))
  /\ (forall area, _find_content_area soup = Some area -> In area (descendants soup)).
Proof.
  unfold _find_content_area.
  pose proof (content_area_loop_spec soup content_selectors) as H.
  split; [exact H|]. intros area Ha.
  destruct H as [(earlier & s & later & area' & _ & _ & Hs & Hl) | [_ Hl]].
  - rewrite Hl in Ha. injection Ha as <-.
    unfold select_one in Hs. apply List.find_some in Hs as [Hin _]. exact Hin.
  - rewrite Hl in Ha. apply find_largest_text_block_candidate in Ha.
    apply List.filter_In in Ha as [Hin _]. exact Hin.
Qed.

(* ---------------------------------------------------------------- *)
(** ** homepage_parser.py: further facts *)

Lemma prefix_length sub s :
  String.prefix sub s = true -> (String.length sub <= String.length s)%nat.
Proof.
  revert s. induction sub as [|a sub IH]; intros s; [cbn; lia|].
  destruct s as [|b s]; [discriminate|]. rewrite prefix_cons.
  intros H. apply andb_prop in H as [_ H]. apply IH in H. cbn [String.length]. lia.
Qed.

Lemma contains_length sub s :
  contains sub s = true -> (String.length sub <= String.length s)%nat.
Proof.
  induction s as [|c s IH].
  - rewrite contains_empty. apply prefix_length.
  - rewrite contains_cons. intros H. apply orb_prop in H as [H|H].
    + apply prefix_length, H.
    + apply IH in H. cbn [String.length]. lia.
Qed.

Lemma length_lower s : String.length (lower s) = String.length s.
Proof. induction s as [|c s IH]; [reflexivity|]. cbn. rewrite IH. reflexivity. Qed.

Lemma existsb_false_Forall {X : Type} (f : X -> bool) (l : list X) :
  existsb f l = false <-> Forall (fun x => f x = false) l.
Proof.
  induction l as [|x l IH]; cbn [existsb].
  - split; [constructor | reflexivity].
  - rewrite orb_false_iff, IH. split.
    + intros [H1 H2]. constructor; assumption.
    + intros H. inversion H; subst. split; assumption.
Qed.

Lemma contains_empty_sub s : contains "" s = true.
Proof. unfold contains. destruct s; reflexivity. Qed.

(** A preview text that [_extract_preview_text] returns has from 21 to 200
    characters. *)
Lemma _extract_preview_text_bounds anchor preview :
  _extract_preview_text anchor = Return (Some preview) ->
  (20 < String.length preview <= 200)%nat.
Proof.
  unfold _extract_preview_text. destruct (parent anchor) as [p|]; [|discriminate].
  match goal with |- context [List.find ?f ?l] => destruct (List.find f l) as [sibling|] eqn:Ef end.
  - apply List.find_some in Ef as [_ Ef]. apply andb_prop in Ef as [_ Ef].
    apply Nat.ltb_lt in Ef. intros [= <-]. rewrite length_slice_to. lia.
  - destruct (nonempty (get_text_strip (node p))
              && contains (get_text_strip (node anchor)) (get_text_strip (node p)));
      [|discriminate].
    unfold mbind, result_bind.
    destruct (split_once _ _) as [[|before_link [|after_link rest]]|e]; try discriminate.
    destruct (nonempty (strip after_link)); [|discriminate].
    destruct (20 <? String.length (strip after_link))%nat eqn:E; [|discriminate].
    apply Nat.ltb_lt in E. intros [= <-]. rewrite length_slice_to. lia.
Qed.

Lemma split_once_raises sep s e :
  split_once sep s = Raise e <-> sep = "" /\ e = ValueError "empty separator".
Proof.
  unfold split_once. destruct (String.eqb sep "") eqn:E.
  - apply String.eqb_eq in E. split; [intros [= <-]; auto | intros [_ ->]; reflexivity].
  - apply String.eqb_neq in E. destruct (find sep s); (split; [discriminate | tauto]).
Qed.


Section LinkDiscoveryFurther.
Context (base_url : string)
        (urljoin : string -> string -> result string)
        (urlparse : string -> result ParseResult.t)
        (str_of_node : Node -> string)
        (json_pattern_announcements : string -> list AnnouncementLink.t)
        (_extract_from_large_json_structure : string -> list AnnouncementLink.t).

Local Abbreviation is_announcement_url := (_is_announcement_url urlparse).
Local Abbreviation resolve_url := (_resolve_url base_url urljoin).
Local Abbreviation link_of_anchor := (anchor_link base_url urljoin urlparse).
Local Abbreviation links_of_section :=
  (extract_announcement_links base_url urljoin urlparse str_of_node
     json_pattern_announcements _extract_from_large_json_structure).
Local Abbreviation json_links_of_section :=
  (_extract_from_json_data str_of_node json_pattern_announcements
     _extract_from_large_json_structure).

(** X19. [_is_announcement_url] accepts a URL exactly when it parses, its
    host is empty or contains amazonaws.cn, its path in lower case contains
    none of the eleven skip patterns, and its path has more than one
    character. The list of announcement patterns never changes the answer:
    every path that contains one of them is longer than one character and
    is accepted by the last test as well. *)
Theorem is_announcement_url_spec (url : string) :
  is_announcement_url url = true
  <-> exists parsed,
        urlparse url = Return parsed
        /\ (ParseResult.netloc parsed = ""
            \/ contains "amazonaws.cn" (ParseResult.netloc parsed) = true)
        /\ Forall (fun pattern => contains pattern (lower (ParseResult.path parsed)) = false)
             skip_patterns
        /\ (1 < String.length (ParseResult.path parsed))%nat.
Proof.
  unfold _is_announcement_url. destruct (urlparse url) as [parsed|e].
  2:{ split; [discriminate | intros (parsed & [=] & _)]. }
  set (path := lower (ParseResult.path parsed)).
  assert (String.length path = String.length (ParseResult.path parsed)) as Hlen
    by apply length_lower.
  destruct (nonempty (ParseResult.netloc parsed)
            && negb (contains "amazonaws.cn" (ParseResult.netloc parsed))) eqn:Ehost.
  { split; [discriminate|]. intros (parsed' & [= <-] & Hhost & _).
    apply andb_prop in Ehost as [Hn Hc]. apply nonempty_true in Hn.
    apply negb_true_iff in Hc. destruct Hhost; congruence. }
  assert (ParseResult.netloc parsed = ""
          \/ contains "amazonaws.cn" (ParseResult.netloc parsed) = true) as Hhost.
  { apply andb_false_iff in Ehost as [Hn|Hc].
    - left. unfold nonempty in Hn. apply negb_false_iff, String.eqb_eq in Hn. exact Hn.
    - right. apply negb_false_iff in Hc. exact Hc. }
  destruct (existsb (fun pattern => contains pattern path) skip_patterns) eqn:Eskip.
  { split; [discriminate|]. intros (parsed' & [= <-] & _ & Hall & _).
    apply existsb_false_Forall in Hall. fold path in Hall. congruence. }
  apply existsb_false_Forall in Eskip.
  destruct (existsb (fun pattern => contains pattern path) announcement_patterns) eqn:Eann.
  - split; [|reflexivity]. intros _. exists parsed. repeat split; try assumption.
    apply existsb_exists in Eann as (pattern & Hin & Hc). apply contains_length in Hc.
    assert (5 <= String.length pattern)%nat as H5.
    { unfold announcement_patterns in Hin. cbn [In] in Hin.
      repeat (destruct Hin as [<-|Hin]; [cbn; lia|]). contradiction. }
    lia.
  - split.
    + intros H. apply andb_prop in H as [H _]. apply Nat.ltb_lt in H.
      exists parsed. repeat split; try assumption. lia.
    + intros (parsed' & [= <-] & _ & _ & Hl).
      replace (1 <? String.length path)%nat with true by (symmetry; apply Nat.ltb_lt; lia).
      destruct path as [|c [|c' path']]; cbn in Hlen; try lia.
      cbn [andb]. destruct (String.eqb (String c (String c' path')) "/") eqn:E; [|reflexivity].
      apply String.eqb_eq in E. discriminate.
Qed.

Lemma anchor_link_provenance anchor link :
  link_of_anchor anchor = Return (Some link) ->
  strip (get_or_empty "href" (node anchor)) <> ""
  /\ resolve_url (strip (get_or_empty "href" (node anchor)))
     = Return (AnnouncementLink.url link)
  /\ AnnouncementLink.title link = _extract_link_title anchor
  /\ AnnouncementLink.title link <> ""
  /\ _extract_preview_text anchor = Return (AnnouncementLink.preview_text link)
  /\ AnnouncementLink.publication_date link = None.
Proof.
  unfold anchor_link.
  destruct (nonempty (strip (get_or_empty "href" (node anchor)))) eqn:Hh; cbn [negb];
    [|discriminate].
  unfold mbind at 1, result_bind at 1.
  destruct (resolve_url _) as [full_url|e]; [|discriminate].
  destruct (is_announcement_url full_url); cbn [negb]; [|discriminate].
  destruct (nonempty (_extract_link_title anchor)) eqn:Ht; cbn [negb]; [|discriminate].
  unfold mbind, result_bind.
  destruct (_extract_preview_text anchor) as [preview|e]; [|discriminate].
  intros [= <-]. apply nonempty_true in Hh, Ht. cbn. repeat split; auto.
Qed.

(** The links that the loop adds come, in order, from anchors of the list. *)
Lemma anchor_loop_provenance anchor_tags links :
  exists added,
    anchor_loop base_url urljoin urlparse anchor_tags links = (links ++ added)%list
    /\ (length added <= length anchor_tags)%nat
    /\ Forall (fun link => exists anchor,
                 In anchor anchor_tags /\ link_of_anchor anchor = Return (Some link)) added.
Proof.
  revert links. induction anchor_tags as [|anchor rest IH]; intros links.
  { exists []. rewrite app_nil_r. repeat split; constructor. }
  cbn [anchor_loop].
  assert (forall added,
            (length added <= length rest)%nat ->
            Forall (fun link => exists a, In a rest /\ link_of_anchor a = Return (Some link)) added ->
            (length added <= length (anchor :: rest))%nat
            /\ Forall (fun link => exists a, In a (anchor :: rest)
                                     /\ link_of_anchor a = Return (Some link)) added) as Hweak.
  { intros added Hlen Hall. split; [cbn [length]; lia|].
    eapply List.Forall_impl; [|exact Hall]. intros link (a & Hin & Ha).
    exists a. split; [right; exact Hin | exact Ha]. }
  destruct (link_of_anchor anchor) as [[link|]|e] eqn:E.
  - destruct (IH (links ++ [link])%list) as (added & Hl & Hlen & Hall).
    exists (link :: added). rewrite Hl, <- app_assoc. split; [reflexivity|].
    destruct (Hweak added Hlen Hall) as [_ Hall']. split; [cbn [length]; lia|].
    constructor; [|exact Hall']. exists anchor. split; [left; reflexivity | exact E].
  - destruct (IH links) as (added & Hl & Hlen & Hall). exists added.
    split; [exact Hl | exact (Hweak added Hlen Hall)].
  - destruct (IH links) as (added & Hl & Hlen & Hall). exists added.
    split; [exact Hl | exact (Hweak added Hlen Hall)].
Qed.

(** X20. When the structured-data path yields nothing, every link that
    [extract_announcement_links] returns comes from an anchor with an href
    of the section: its url is that href, stripped and resolved, and passes
    the URL test; its title is the non-empty title of that anchor; its
    preview text is None or has 21 to 200 characters; and it has no
    publication date. There are at most as many links as such anchors. *)
Theorem html_fallback_links (section : PageElement) :
  json_links_of_section section = [] ->
  (length (links_of_section section)
   <= length (find_all_with_attr "a" "href" section))%nat
  /\ forall link, In link (links_of_section section) ->
       AnnouncementLink.publication_date link = None
       /\ AnnouncementLink.title link <> ""
       /\ is_announcement_url (AnnouncementLink.url link) = true
       /\ (forall preview, AnnouncementLink.preview_text link = Some preview ->
                           (20 < String.length preview <= 200)%nat)
       /\ exists anchor,
            In anchor (find_all_with_attr "a" "href" section)
            /\ resolve_url (strip (get_or_empty "href" (node anchor)))
               = Return (AnnouncementLink.url link)
            /\ AnnouncementLink.title link = _extract_link_title anchor.
Proof.
  intros Hjson. unfold extract_announcement_links. rewrite Hjson.
  destruct (anchor_loop_provenance (find_all_with_attr "a" "href" section) [])
    as (added & -> & Hlen & Hall).
  cbn [app]. split; [exact Hlen|]. intros link Hin.
  rewrite List.Forall_forall in Hall. destruct (Hall link Hin) as (anchor & Ha & Hl).
  pose proof (anchor_link_accepted _ _ _ _ _ Hl) as Hurl.
  apply anchor_link_provenance in Hl as (_ & Hr & Ht & Hne & Hp & Hd).
  split; [exact Hd|]. split; [exact Hne|]. split; [exact Hurl|]. split.
  - intros preview Hsome. rewrite Hsome in Hp.
    exact (_extract_preview_text_bounds _ _ Hp).
  - exists anchor. auto.
Qed.

End LinkDiscoveryFurther.

(* ---------------------------------------------------------------- *)
(** ** scraper_orchestrator.py and main.py *)

(** What a filter string that [parse_date_filter] accepts is made of. *)
Lemma parse_date_filter_parts s y m :
  parse_date_filter s = Return (Some (y, m)) ->
  nonempty s = true /\ date_pattern_match s = true
  /\ 2000 <= y <= 2100 /\ 1 <= m <= 12
  /\ exists year_str month_str,
       split_char "-" s = [year_str; month_str]
       /\ int year_str = Return y /\ int month_str = Return m.
Proof.
  unfold parse_date_filter, nonempty.
  destruct (String.eqb s ""); [discriminate|].
  destruct (date_pattern_match s); cbn [negb]; [|discriminate].
  unfold parse_date_filter_try.
  destruct (split_char "-" s) as [|year_str [|month_str [|? ?]]];
    try (cbn; discriminate).
  destruct (int year_str) as [year|e] eqn:Ey.
  2:{ destruct e; try discriminate.
      match goal with |- context [contains ?a ?b] => destruct (contains a b) end; discriminate. }
  destruct (int month_str) as [month|e] eqn:Em.
  2:{ destruct e; try discriminate.
      match goal with |- context [contains ?a ?b] => destruct (contains a b) end; discriminate. }
  destruct ((month <? 1) || (month >? 12)) eqn:Hm.
  { match goal with |- context [contains ?a ?b] => destruct (contains a b) end; discriminate. }
  destruct ((year <? 2000) || (year >? 2100)) eqn:Hy.
  { match goal with |- context [contains ?a ?b] => destruct (contains a b) end; discriminate. }
  intros [= <- <-]. apply orb_false_elim in Hm as [Hm1 Hm2]. apply orb_false_elim in Hy as [Hy1 Hy2].
  repeat split; try lia. exists year_str, month_str. auto.
Qed.

Lemma parse_date_filter_of_parts s year_str month_str y m :
  date_pattern_match s = true ->
  split_char "-" s = [year_str; month_str] ->
  int year_str = Return y -> int month_str = Return m ->
  2000 <= y <= 2100 -> 1 <= m <= 12 ->
  parse_date_filter s = Return (Some (y, m)).
Proof.
  intros Hp Hs Hy Hm Hyr Hmr. unfold parse_date_filter.
  destruct (String.eqb s "") eqn:E.
  { apply String.eqb_eq in E. subst s. discriminate Hp. }
  rewrite Hp. cbn [negb]. unfold parse_date_filter_try. rewrite Hs, Hy, Hm.
  replace (m <? 1) with false by lia. replace (m >? 12) with false by lia.
  replace (y <? 2000) with false by lia. replace (y >? 2100) with false by lia.
  reflexivity.
Qed.

Lemma links_loop_spec y m links acc :
  links_loop y m links acc = (acc ++ records_in_month y m links)%list.
Proof.
  revert acc. induction links as [|link rest IH]; intros acc; cbn [links_loop].
  - unfold records_in_month. cbn. rewrite app_nil_r. reflexivity.
  - rewrite IH. unfold records_in_month. cbn [List.filter].
    change (publication_date link) with (AnnouncementLink.publication_date link).
    destruct (AnnouncementLink.publication_date link) as [d|]; [|reflexivity].
    destruct ((year d =? y) && (month d =? m)); [|reflexivity].
    rewrite <- app_assoc. reflexivity.
Qed.

(** X21. The command line and the date filter accept the same filter
    strings: [validate_date_filter] returns its argument, unchanged,
    exactly when [parse_date_filter] reads a year and a month from it, and
    raises ArgumentTypeError otherwise, the empty string included, which
    [parse_date_filter] answers with None. *)
Theorem validate_date_filter_agrees (date_string : string) :
  (forall validated_string,
     validate_date_filter date_string = Valid validated_string ->
     validated_string = date_string)
  /\ (validate_date_filter date_string = Valid date_string
      <-> exists y m, parse_date_filter date_string = Return (Some (y, m)))
  /\ exists msg, validate_date_filter "" = @ArgumentTypeError string msg
                 /\ parse_date_filter "" = Return None.
Proof.
  split; [|split].
  - intros validated_string. unfold validate_date_filter.
    repeat match goal with
           | |- context [if ?b then _ else _] => destruct b
           | |- context [match split_char ?a ?b with _ => _ end] =>
               destruct (split_char a b) as [|? [|? [|? ?]]]
           | |- context [match int ?a with _ => _ end] => destruct (int a)
           end; try discriminate; intros [= <-]; reflexivity.
  - split.
    + unfold validate_date_filter.
      destruct (nonempty date_string); cbn [negb]; [|discriminate].
      destruct (date_pattern_match date_string) eqn:Hp; cbn [negb]; [|discriminate].
      destruct (split_char "-" date_string) as [|year_str [|month_str [|? ?]]] eqn:Hs;
        try discriminate.
      destruct (int year_str) as [y|e] eqn:Ey; [|discriminate].
      destruct (int month_str) as [m|e] eqn:Em; [|discriminate].
      destruct ((y <? 2000) || (y >? 2100)) eqn:Hy; [discriminate|].
      destruct ((m <? 1) || (m >? 12)) eqn:Hm; [discriminate|].
      intros _. exists y, m.
      apply orb_false_elim in Hm as [Hm1 Hm2]. apply orb_false_elim in Hy as [Hy1 Hy2].
      apply (parse_date_filter_of_parts _ _ _ _ _ Hp Hs Ey Em); lia.
    + intros (y & m & Hparse).
      apply parse_date_filter_parts in Hparse
        as (Hne & Hp & Hy & Hm & year_str & month_str & Hs & Ey & Em).
      unfold validate_date_filter. rewrite Hne, Hp. cbn [negb]. rewrite Hs, Ey, Em.
      replace (m <? 1) with false by lia. replace (m >? 12) with false by lia.
      replace (y <? 2000) with false by lia. replace (y >? 2100) with false by lia.
      reflexivity.
  - eexists. split; reflexivity.
Qed.

(** X22. [_apply_date_filtering_to_links] never raises and returns a
    subsequence of the links. With a filter string that [parse_date_filter]
    accepts it keeps exactly the links dated in that month, as
    [filter_by_date] does, so the undated links are all dropped. With any
    other string it returns either all the links or the links of one
    month. *)
Theorem apply_date_filtering_to_links_spec (self : ScraperOrchestrator)
    (links : list AnnouncementLink.t) :
  _apply_date_filtering_to_links self links `sublist_of` links
  /\ (_apply_date_filtering_to_links self links = links
      \/ exists y m, _apply_date_filtering_to_links self links = records_in_month y m links)
  /\ (forall s y m,
        date_filter_config self = Some s ->
        parse_date_filter s = Return (Some (y, m)) ->
        _apply_date_filtering_to_links self links = records_in_month y m links
        /\ filter_by_date links (Some s) = Return (records_in_month y m links)
        /\ Forall (fun link => AnnouncementLink.publication_date link <> None)
             (_apply_date_filtering_to_links self links)).
Proof.
  assert (_apply_date_filtering_to_links self links = links
          \/ exists y m, _apply_date_filtering_to_links self links = records_in_month y m links)
    as Hcases.
  { unfold _apply_date_filtering_to_links.
    destruct (date_filter_config self) as [s|]; [|left; reflexivity].
    destruct (negb (nonempty s)); [left; reflexivity|].
    destruct (split_char "-" s) as [|year_str [|month_str [|? ?]]]; try (left; reflexivity).
    destruct (int year_str) as [y|e]; [|left; reflexivity].
    destruct (int month_str) as [m|e]; [|left; reflexivity].
    right. exists y, m. rewrite links_loop_spec. reflexivity. }
  split; [|split; [exact Hcases|]].
  - destruct Hcases as [-> | (y & m & ->)]; [reflexivity | apply records_in_month_sublist].
  - intros s y m Hcfg Hparse.
    assert (_apply_date_filtering_to_links self links = records_in_month y m links) as Hres.
    { apply parse_date_filter_parts in Hparse
        as (Hne & _ & _ & _ & year_str & month_str & Hs & Ey & Em).
      unfold _apply_date_filtering_to_links. rewrite Hcfg, Hne. cbn [negb].
      rewrite Hs, Ey, Em. rewrite links_loop_spec. reflexivity. }
    split; [exact Hres|]. split; [apply (filter_by_date_parsed links s y m Hparse)|].
    rewrite Hres. apply List.Forall_forall. intros link Hin.
    apply list_elem_of_In, elem_of_records_in_month in Hin as (_ & d & Hd & _).
    change (publication_date link) with (AnnouncementLink.publication_date link) in Hd.
    rewrite Hd. discriminate.
Qed.

(** X23. [_apply_date_filtering] never raises and returns a subsequence of
    the announcements: those of the month when [parse_date_filter] accepts
    the configured string, and all of them, unfiltered, when it rejects the
    string or none is configured: an invalid filter filters nothing. *)
Theorem apply_date_filtering_spec (self : ScraperOrchestrator)
    (announcements : list AnnouncementContent.t) :
  _apply_date_filtering self announcements `sublist_of` announcements
  /\ (forall s y m,
        date_filter_config self = Some s ->
        parse_date_filter s = Return (Some (y, m)) ->
        _apply_date_filtering self announcements = records_in_month y m announcements)
  /\ (forall s e,
        date_filter_config self = Some s ->
        parse_date_filter s = Raise e ->
        _apply_date_filtering self announcements = announcements)
  /\ (date_filter_config self = None ->
      _apply_date_filtering self announcements = announcements).
Proof.
  unfold _apply_date_filtering.
  destruct (date_filter_config self) as [s|];
    [|repeat split; try reflexivity; intros; discriminate].
  destruct (parse_date_filter_cases s)
    as [[-> _] | [[Hne [msg Hr]] | (y & m & _ & _ & _ & Hp)]].
  - cbn. split; [reflexivity|]. split; [|split].
    + intros s' y m [= <-]. discriminate.
    + reflexivity.
    + discriminate.
  - pose proof Hne as Hne'. apply nonempty_true in Hne'. rewrite Hne'. cbn [negb].
    unfold filter_by_date. apply String.eqb_neq in Hne. rewrite Hne, Hr.
    split; [reflexivity|]. split; [|split].
    + intros s' y m [= <-] Hp. congruence.
    + reflexivity.
    + discriminate.
  - assert (nonempty s = true) as Hne by (apply (parse_date_filter_parts s y m Hp)).
    rewrite Hne. cbn [negb]. rewrite (filter_by_date_parsed announcements s y m Hp).
    split; [apply records_in_month_sublist|]. split; [|split].
    + intros s' y' m' [= <-] Hp'. rewrite Hp in Hp'. injection Hp' as <- <-. reflexivity.
    + intros s' e [= <-] Hp'. congruence.
    + discriminate.
Qed.

Section ScraperOrchestratorFacts.
Context (urljoin : string -> string -> result string)
        (urlparse : string -> result ParseResult.t)
        (_extract_publication_date : PageElement -> result (option datetime))
        (html_parser : string -> list Node)
        (str_of_node : Node -> string)
        (json_pattern_announcements : string -> list AnnouncementLink.t)
        (_extract_from_large_json_structure : string -> list AnnouncementLink.t)
        (str_of_request_exception name_of_request_exception
           : RequestExceptionClass -> option Response -> string).

Local Abbreviation parse_page := (parse_announcement_page urljoin _extract_publication_date).
Local Abbreviation content_of :=
  (extract_content urljoin _extract_publication_date html_parser).
Local Abbreviation extract_all :=
  (_extract_all_content urljoin _extract_publication_date html_parser
     str_of_request_exception name_of_request_exception).
Local Abbreviation extract_loop :=
  (extract_all_loop urljoin _extract_publication_date html_parser
     str_of_request_exception name_of_request_exception).

(** The clock readings of one parse: one or two when it returns a record,
    which carries the URL passed in; at most one when it raises. *)
Lemma parse_announcement_page_reads soup url date w res w' :
  parse_page soup url date w = (res, w') ->
  match res with
  | Return content =>
      AnnouncementContent.url content = url
      /\ (clock_reads w + 1 <= clock_reads w' <= clock_reads w + 2)%nat
  | Raise _ => (clock_reads w <= clock_reads w' <= clock_reads w + 1)%nat
  end.
Proof.
  rewrite parse_announcement_page_unfold.
  destruct (_extract_title soup) as [title|]; [|intros [= <- <-]; lia].
  unfold resolve_publication_date.
  destruct date as [d|].
  - destruct (_extract_content_text soup) as [[c|] soup'];
      intros [= <- <-]; cbn; repeat split; lia.
  - destruct (_extract_publication_date soup) as [[found|]|e];
      try (destruct (_extract_content_text soup) as [[c|] soup']);
      intros [= <- <-]; cbn; repeat split; lia.
Qed.

(** One call of [extract_content]: the requests are one more than the
    retries, every retry sleeps once, and a record carries the URL asked
    for. *)
Lemma extract_content_run client url date w res w' :
  content_of client url date w = (res, w') ->
  exists retries reads : nat,
    requests_made w' = (requests_made w + S retries)%nat
    /\ (retries <= 3)%nat
    /\ length (slept w') = (length (slept w) + retries)%nat
    /\ clock_reads w' = (clock_reads w + reads)%nat
    /\ match res with
       | Return content => AnnouncementContent.url content = url /\ (1 <= reads <= 2)%nat
       | Raise _ => (reads <= 1)%nat
       end.
Proof.
  unfold extract_content, try_except, mbind, IO_bind, fetch_with_retry.
  change (3 + 1) with (Z.of_nat (S 3)).
  destruct (retry_loop _ _ _ _ _ _ w) as [fetched w1] eqn:Hf.
  apply retry_loop_run in Hf
    as (_ & _ & Hrd & r & delays & Hreq & Hsl & Hr & Hlen & _); [|lia|lia].
  assert (length (slept w1) = (length (slept w) + r)%nat) as Hsl'
    by (rewrite Hsl, length_app; lia).
  destruct fetched as [response|e].
  - destruct (parse_page _ url date w1) as [parsed w2] eqn:Hp.
    pose proof (parse_announcement_page_world _ _ _ _ _ _ _ _ Hp) as (_ & Hreq2 & Hsl2 & _).
    apply parse_announcement_page_reads in Hp.
    destruct parsed as [content|e].
    + intros [= <- <-]. exists r, (clock_reads w2 - clock_reads w)%nat.
      rewrite Hreq2, Hsl2. repeat split; try lia. tauto.
    + destruct e as [msg|msg|cls resp]; intros [= <- <-];
        exists r, (clock_reads w2 - clock_reads w)%nat; rewrite Hreq2, Hsl2;
        repeat split; lia.
  - destruct e as [msg|msg|cls resp]; intros [= <- <-]; exists r, 0%nat;
      repeat split; lia.
Qed.

(** The loop of [_extract_all_content] from the [i]-th link on. *)
Lemma extract_all_loop_run self total links :
  forall i successful failed w,
    (i + length links = S total)%nat ->
    exists successful' failed' w',
      extract_loop self total i links successful failed w
      = (Return ((successful ++ successful')%list, (failed ++ failed')%list), w')
      /\ (length successful' + length failed' = length links)%nat
      /\ map AnnouncementContent.url successful' `sublist_of` map AnnouncementLink.url links
      /\ map FailedExtraction.url failed' `sublist_of` map AnnouncementLink.url links
      /\ (requests_made w + length links <= requests_made w'
          <= requests_made w + 4 * length links)%nat
      /\ (length (slept w') + length links
          = length (slept w) + (requests_made w' - requests_made w)
            + (if (0 <? rate_limit_delay self)%Z then length links - 1 else 0))%nat
      /\ (clock_reads w + length links <= clock_reads w'
          <= clock_reads w + 2 * length links)%nat.
Proof.
  induction links as [|link rest IH]; intros i successful failed w Hi.
  { exists [], [], w. rewrite !app_nil_r. cbn [extract_all_loop length map].
    repeat split; try reflexivity; try lia. destruct (0 <? rate_limit_delay self); lia. }
  cbn [length] in Hi. cbn [extract_all_loop].
  unfold mbind at 1, IO_bind at 1, try_except, mbind at 1, IO_bind at 1.
  destruct (content_of (http_client self) (AnnouncementLink.url link)
              (AnnouncementLink.publication_date link) w) as [res w1] eqn:Hc.
  apply extract_content_run in Hc as (retries & reads & Hreq & Hret & Hsl & Hrd & Hres).
  set (pause := if (i <? total)%nat && (0 <? rate_limit_delay self)
                then sleep (rate_limit_delay self) else mret tt).
  assert (forall w0, exists w0',
            pause w0 = (Return tt, w0')
            /\ requests_made w0' = requests_made w0 /\ clock_reads w0' = clock_reads w0
            /\ length (slept w0')
               = (length (slept w0)
                  + (if (0 <? rate_limit_delay self)%Z
                     then (match length rest with O => 0 | S _ => 1 end) else 0))%nat) as Hpause.
  { intros w0. unfold pause.
    destruct (i <? total)%nat eqn:Ei; [apply Nat.ltb_lt in Ei | apply Nat.ltb_ge in Ei].
    - destruct (0 <? rate_limit_delay self); cbn [andb].
      + eexists. split; [reflexivity|]. cbn. rewrite length_app. cbn [length].
        destruct (length rest) eqn:El; [lia|]. repeat split; lia.
      + eexists. split; [reflexivity|]. repeat split; lia.
    - cbn [andb]. eexists. split; [reflexivity|].
      destruct (length rest) eqn:El; [|lia].
      destruct (0 <? rate_limit_delay self); repeat split; lia. }
  destruct res as [content|e].
  - unfold mret at 1, IO_ret at 1. unfold mbind at 1, IO_bind at 1.
    destruct (Hpause w1) as (w2 & Hp & Hreq2 & Hrd2 & Hsl2). rewrite Hp. cbn [fst snd].
    destruct (IH (S i) (successful ++ [content])%list failed w2 ltac:(lia))
      as (successful' & failed' & w' & Hrun & Hlen & Hsub1 & Hsub2 & Hreqs & Hsleeps & Hreads).
    exists (content :: successful'), failed', w'.
    rewrite Hrun, <- app_assoc. split; [reflexivity|].
    destruct Hres as [Hurl Hreads1].
    split; [cbn [length]; lia|]. split; [|split; [|split; [|split]]].
    + cbn [map]. rewrite Hurl. apply sublist_skip, Hsub1.
    + cbn [map]. apply sublist_cons, Hsub2.
    + cbn [length]. lia.
    + cbn [length]. destruct (0 <? rate_limit_delay self); destruct (length rest); lia.
    + cbn [length]. lia.
  - unfold mbind at 1, IO_bind at 1, datetime_now. unfold mret at 1, IO_ret at 1.
    unfold mbind at 1, IO_bind at 1.
    match goal with |- context [pause ?w0] => destruct (Hpause w0) as (w2 & Hp & Hreq2 & Hrd2 & Hsl2) end.
    rewrite Hp. cbn [fst snd]. cbn [requests_made clock_reads slept] in Hreq2, Hrd2, Hsl2.
    match goal with |- context [(failed ++ [?f])%list] => set (failure := f) end.
    destruct (IH (S i) successful (failed ++ [failure])%list w2 ltac:(lia))
      as (successful' & failed' & w' & Hrun & Hlen & Hsub1 & Hsub2 & Hreqs & Hsleeps & Hreads).
    exists successful', (failure :: failed'), w'.
    rewrite Hrun, <- app_assoc. split; [reflexivity|].
    split; [cbn [length]; lia|]. split; [|split; [|split; [|split]]].
    + cbn [map]. apply sublist_cons, Hsub1.
    + cbn [map]. apply sublist_skip, Hsub2.
    + cbn [length]. lia.
    + cbn [length]. destruct (0 <? rate_limit_delay self); destruct (length rest); lia.
    + cbn [length]. lia.
Qed.


End ScraperOrchestratorFacts.

Section WorkflowFacts.
Context (base_url : string)
        (urljoin : string -> string -> result string)
        (urlparse : string -> result ParseResult.t)
        (_extract_publication_date : PageElement -> result (option datetime))
        (html_parser : string -> list Node)
        (str_of_node : Node -> string)
        (json_pattern_announcements : string -> list AnnouncementLink.t)
        (_extract_from_large_json_structure : string -> list AnnouncementLink.t)
        (str_of_request_exception name_of_request_exception
           : RequestExceptionClass -> option Response -> string).

Local Abbreviation links_of_section :=
  (extract_announcement_links base_url urljoin urlparse str_of_node
     json_pattern_announcements _extract_from_large_json_structure).
Local Abbreviation json_links_of_section :=
  (_extract_from_json_data str_of_node json_pattern_announcements
     _extract_from_large_json_structure).
Local Abbreviation extract_all :=
  (_extract_all_content urljoin _extract_publication_date html_parser
     str_of_request_exception name_of_request_exception).
Local Abbreviation fetch_homepage_links :=
  (_fetch_homepage_links urljoin urlparse html_parser str_of_node
     json_pattern_announcements _extract_from_large_json_structure).

Lemma records_in_month_undated (y m : Z) (links : list AnnouncementLink.t) :
  Forall (fun link => AnnouncementLink.publication_date link = None) links ->
  records_in_month y m links = [].
Proof.
  unfold records_in_month. induction 1 as [|link rest Hd _ IH]; [reflexivity|].
  cbn [List.filter]. change (publication_date link) with (AnnouncementLink.publication_date link).
  rewrite Hd. exact IH.
Qed.

(** X25. Links found by the anchor scan carry no publication date, so with
    a date filter that [parse_date_filter] accepts,
    [_apply_date_filtering_to_links] drops every one of them, whatever the
    month, and [_extract_all_content] is left with nothing to do: it makes
    no request and returns no record and no failure. *)
Theorem anchor_scan_links_filtered_out (self : ScraperOrchestrator)
    (section : PageElement) (s : string) (y m : Z) :
  json_links_of_section section = [] ->
  date_filter_config self = Some s ->
  parse_date_filter s = Return (Some (y, m)) ->
  _apply_date_filtering_to_links self (links_of_section section) = []
  /\ forall w,
       extract_all self (_apply_date_filtering_to_links self (links_of_section section)) w
       = (Return ([], []), w).
Proof.
  intros Hjson Hcfg Hparse.
  assert (_apply_date_filtering_to_links self (links_of_section section) = []) as Hnone.
  { apply parse_date_filter_parts in Hparse
      as (Hne & _ & _ & _ & year_str & month_str & Hs & Ey & Em).
    unfold _apply_date_filtering_to_links. rewrite Hcfg, Hne. cbn [negb].
    rewrite Hs, Ey, Em, links_loop_spec. cbn [app].
    apply records_in_month_undated.
    unfold extract_announcement_links. rewrite Hjson.
    destruct (anchor_loop_provenance base_url urljoin urlparse
                (find_all_with_attr "a" "href" section) [])
      as (added & -> & _ & Hall).
    cbn [app]. eapply List.Forall_impl; [|exact Hall].
    intros link (anchor & _ & Hl). apply anchor_link_provenance in Hl. tauto. }
  split; [exact Hnone|]. intros w. rewrite Hnone. reflexivity.
Qed.

(** X26. [_fetch_homepage_links] makes at least one request and at most
    max_retries + 1, none of them for the parse; when it returns links, the
    last request was answered with a status outside 400..599; and what it
    raises is the error of the last request or the ValueError of a landing
    page without an announcements section. *)
Theorem fetch_homepage_links_outcomes (self : ScraperOrchestrator) (target_url : string)
    (w w' : World) (res : result (list AnnouncementLink.t)) :
  0 <= max_retries self ->
  fetch_homepage_links self target_url w = (res, w') ->
  let last := request_outcome w (requests_made w' - 1) target_url (timeout (http_client self)) in
  (requests_made w + 1 <= requests_made w'
   <= requests_made w + Z.to_nat (max_retries self) + 1)%nat
  /\ (forall links, res = Return links ->
        exists response, last = Return response /\ ~ (400 <= status_code response < 600))
  /\ (forall e, res = Raise e ->
        last = Raise e
        \/ e = ValueError
                 "Could not find 'Most Recent Announcements from Amazon Web Services' section").
Proof.
  intros Hn. unfold _fetch_homepage_links, mbind, IO_bind, fetch_with_retry.
  replace (max_retries self + 1) with (Z.of_nat (S (Z.to_nat (max_retries self)))) by lia.
  destruct (retry_loop _ _ _ _ _ _ w) as [fetched w1] eqn:Hf.
  apply retry_loop_run in Hf as (_ & _ & _ & r & delays & Hreq & _ & Hr & _ & _ & Hres);
    [|lia|lia].
  assert (forall response, fetched = Return response ->
                           ~ (400 <= status_code response < 600)) as Hok.
  { intros response ->. unfold request_outcome in Hres.
    destruct (network w (requests_made w + r)%nat target_url (timeout (http_client self)))
      as [response'|e0]; [|discriminate].
    destruct ((400 <=? status_code response') && (status_code response' <? 600)) eqn:E;
      [discriminate|]. injection Hres as ->. lia. }
  destruct fetched as [response|e].
  - unfold lift, parse_homepage.
    destruct (find_announcements_section _ _) as [found|]; intros [= <- <-]; cbv zeta;
      replace (requests_made w1 - 1)%nat with (requests_made w + r)%nat by lia;
      (split; [lia|]); (split; [|intros e [= <-]; right; reflexivity]).
    + intros links _. exists response. split; [symmetry; exact Hres | apply Hok; reflexivity].
    + discriminate.
  - intros [= <- <-]. cbv zeta.
    replace (requests_made w1 - 1)%nat with (requests_made w + r)%nat by lia.
    split; [lia|]. split; [discriminate|]. intros e' [= <-]. left. symmetry. exact Hres.
Qed.

End WorkflowFacts.

(* ---------------------------------------------------------------- *)
(** ** config_manager.py *)

Lemma split_char_nonempty c s : split_char c s <> [].
Proof.
  destruct s as [|a s]; [discriminate|]. cbn [split_char].
  destruct (Ascii.eqb a c); [discriminate|]. destruct (split_char c s); discriminate.
Qed.

Section ConfigFacts.
Context {Scalar : Type}.
Import ConfigurationManager.

Local Abbreviation Value := (ConfigurationManager.Value Scalar).

Lemma get_loop_empty_dict keys (found : Value) :
  get_loop Scalar keys (Dict Scalar ∅) = Some found -> keys = [] /\ found = Dict Scalar ∅.
Proof.
  destruct keys as [|key rest]; cbn [get_loop].
  - intros [= <-]. auto.
  - rewrite lookup_empty. discriminate.
Qed.

(** After a [set] the key path leads to the value. *)
Lemma get_set_loop keys last_key (value : Value) :
  forall config config',
    set_loop Scalar keys last_key value config = Some config' ->
    get_loop Scalar (keys ++ [last_key])%list config' = Some value.
Proof.
  induction keys as [|key rest IH]; intros config config'; destruct config as [scalar|items];
    cbn [set_loop]; try discriminate.
  - intros [= <-]. cbn [app get_loop]. rewrite lookup_insert_eq. reflexivity.
  - destruct (set_loop Scalar rest last_key value _) as [child|] eqn:E; [|discriminate].
    intros [= <-]. cbn [app get_loop]. rewrite lookup_insert_eq. exact (IH _ _ E).
Qed.

(** A [set] changes nothing under a path that leaves the key path. *)
Lemma get_set_loop_other last_key (value : Value) common :
  forall keys config config' k1 k2 r1 r2,
    set_loop Scalar keys last_key value config = Some config' ->
    (keys ++ [last_key])%list = (common ++ k1 :: r1)%list ->
    k1 <> k2 ->
    get_loop Scalar (common ++ k2 :: r2)%list config'
    = get_loop Scalar (common ++ k2 :: r2)%list config.
Proof.
  induction common as [|c common IH]; intros keys' config config' k1 k2 r1 r2 Hset Hkeys Hne;
    destruct keys' as [|key rest]; destruct config as [scalar|items];
    cbn [set_loop] in Hset; try discriminate; cbn [app] in Hkeys.
  - injection Hset as <-. injection Hkeys as -> _.
    cbn [app get_loop]. rewrite lookup_insert_ne by exact Hne. reflexivity.
  - destruct (set_loop Scalar rest last_key value _) as [child|]; [|discriminate].
    injection Hset as <-. injection Hkeys as -> _.
    cbn [app get_loop]. rewrite lookup_insert_ne by exact Hne. reflexivity.
  - injection Hkeys as _ Hnil. destruct common; discriminate.
  - destruct (set_loop Scalar rest last_key value _) as [child|] eqn:E; [|discriminate].
    injection Hset as <-. injection Hkeys as -> Hrest.
    cbn [app get_loop]. rewrite lookup_insert_eq.
    rewrite (IH _ _ _ _ _ _ _ E Hrest Hne).
    destruct (items !! c) as [existing|]; [reflexivity|].
    destruct (get_loop Scalar (common ++ k2 :: r2)%list (Dict Scalar ∅)) eqn:Eg; [|reflexivity].
    apply get_loop_empty_dict in Eg as [Eg _]. destruct common; discriminate.
Qed.

(** A [set] raises exactly when the walk to the parent of the target key,
    or that parent, is a value that is not a dict. *)
Lemma set_loop_raises keys last_key (value : Value) :
  forall config,
    set_loop Scalar keys last_key value config = None
    <-> exists walked rest scalar,
          keys = (walked ++ rest)%list
          /\ get_loop Scalar walked config = Some (Leaf Scalar scalar).
Proof.
  induction keys as [|key keys IH]; intros config; destruct config as [scalar|items];
    cbn [set_loop].
  - split; [|reflexivity]. intros _. exists [], [], scalar. split; reflexivity.
  - split; [discriminate|]. intros (walked & rest & scalar & Hk & Hg).
    destruct walked; [|discriminate]. discriminate.
  - split; [|reflexivity]. intros _. exists [], (key :: keys), scalar. split; reflexivity.
  - destruct (set_loop Scalar keys last_key value _) as [child|] eqn:E.
    + split; [discriminate|]. intros (walked & rest & scalar & Hk & Hg).
      destruct walked as [|k walked]; [discriminate|].
      cbn [app] in Hk. injection Hk as <- ->. cbn [get_loop] in Hg.
      assert (set_loop Scalar (walked ++ rest)%list last_key value
                (match items !! key with Some child => child | None => Dict Scalar ∅ end)
              = None) as Hnone; [|congruence].
      apply IH. exists walked, rest, scalar. split; [reflexivity|].
      destruct (items !! key); [exact Hg | discriminate].
    + split; [|reflexivity]. intros _. apply IH in E as (walked & rest & scalar & -> & Hg).
      destruct (items !! key) as [existing|] eqn:El.
      * exists (key :: walked), rest, scalar. split; [reflexivity|].
        cbn [get_loop]. rewrite El. exact Hg.
      * apply get_loop_empty_dict in Hg as [_ Hg]. discriminate.
Qed.


End ConfigFacts.

(* ---------------------------------------------------------------- *)
(** ** homepage_parser.py: the announcements section *)

Lemma walk_up_container depth current found :
  walk_up depth current = Some found ->
  name_in ["div"; "section"; "article"] (node found) = true
  /\ find_all ["a"] found <> [].
Proof.
  revert current. induction depth as [|depth IH]; intros current; [discriminate|].
  cbn [walk_up]. destruct current as [current|]; [|discriminate].
  destruct (name_in ["div"; "section"; "article"] (node current)
            && bool_decide (find_all ["a"] current <> [])) eqn:E.
  - intros [= <-]. apply andb_prop in E as [E1 E2].
    apply bool_decide_eq_true in E2. split; assumption.
  - apply IH.
Qed.

Lemma heading_loop_container elements found :
  heading_loop elements = Some found ->
  name_in ["div"; "section"; "article"] (node found) = true
  /\ find_all ["a"] found <> [].
Proof.
  induction elements as [|element rest IH]; [discriminate|]. cbn [heading_loop].
  destruct (walk_up 5 (parent element)) as [current|] eqn:E; [|exact IH].
  intros [= <-]. exact (walk_up_container _ _ _ E).
Qed.

Section AnnouncementsSectionFacts.
Context (str_of_node : Node -> string).

(** X28. The section that [find_announcements_section] returns is the
    whole document, whose markup then contains "itemTitle" in double
    quotes; or a div, section or article with an anchor below it; or a div,
    section or ul of the document with a class that contains news,
    announcement, recent or latest and with three anchors with an href or
    more below it. A document whose markup contains "itemTitle" in double
    quotes always has a section. *)
Theorem find_announcements_section_cases (soup : PageElement) :
  (forall section,
     find_announcements_section str_of_node soup = Some section ->
     (section = soup /\ contains (quoted "itemTitle") (str_of_node (node soup)) = true)
     \/ (name_in ["div"; "section"; "article"] (node section) = true
         /\ find_all ["a"] section <> [])
     \/ (In section (descendants soup)
         /\ name_in ["div"; "section"; "ul"] (node section) = true
         /\ class_has_keyword (node section) = true
         /\ (3 <= length (find_all_with_attr "a" "href" section))%nat))
  /\ (contains (quoted "itemTitle") (str_of_node (node soup)) = true ->
      find_announcements_section str_of_node soup <> None).
Proof.
  unfold find_announcements_section.
  destruct (contains (quoted "itemTitle") (str_of_node (node soup))) eqn:Etitle.
  - split.
    + intros section. cbn [andb].
      destruct (contains (quoted "itemLink") (str_of_node (node soup)));
        [intros [= <-]; left; auto|].
      match goal with |- context [heading_loop ?l] => destruct (heading_loop l) as [current|] eqn:Eh end.
      { intros [= <-]. right. left. exact (heading_loop_container _ _ Eh). }
      match goal with |- context [List.find ?f ?l] => destruct (List.find f l) as [found|] eqn:Ef end.
      * intros [= <-]. right. right. apply List.find_some in Ef as [Hin Hlen].
        apply List.filter_In in Hin as [Hin Hname]. apply andb_prop in Hname as [Hname Hclass].
        apply Nat.leb_le in Hlen. auto.
      * intros [= <-]. left. auto.
    + intros _. cbn [andb].
      destruct (contains (quoted "itemLink") (str_of_node (node soup))); [discriminate|].
      match goal with |- context [heading_loop ?l] => destruct (heading_loop l) end;
        [discriminate|].
      match goal with |- context [List.find ?f ?l] => destruct (List.find f l) end; discriminate.
  - split; [|discriminate]. intros section. cbn [andb].
    match goal with |- context [heading_loop ?l] => destruct (heading_loop l) as [current|] eqn:Eh end.
    { intros [= <-]. right. left. exact (heading_loop_container _ _ Eh). }
    match goal with |- context [List.find ?f ?l] => destruct (List.find f l) as [found|] eqn:Ef end;
      [|discriminate].
    intros [= <-]. right. right. apply List.find_some in Ef as [Hin Hlen].
    apply List.filter_In in Hin as [Hin Hname]. apply andb_prop in Hname as [Hname Hclass].
    apply Nat.leb_le in Hlen. auto.
Qed.

End AnnouncementsSectionFacts.

(* ---------------------------------------------------------------- *)
(** ** The further facts on the example data *)

Lemma html_fallback_links_witness :
  Forall (fun link => AnnouncementLink.publication_date link = None
                      /\ AnnouncementLink.title link <> "")
    (extract_announcement_links default_base_url urljoin_ref urlparse_ref markup_ref
       no_json no_json (section_of landing_three_anchors)).
Proof.
  destruct (html_fallback_links default_base_url urljoin_ref urlparse_ref markup_ref
              no_json no_json (section_of landing_three_anchors)
              ltac:(vm_compute; reflexivity)) as [_ Hall].
  apply List.Forall_forall. intros link Hin.
  destruct (Hall link Hin) as (Hd & Ht & _). split; assumption.
Defined.

Lemma anchor_scan_links_filtered_out_witness :
  _apply_date_filtering_to_links orchestrator_january
    (extract_announcement_links default_base_url urljoin_ref urlparse_ref markup_ref
       no_json no_json (section_of landing_three_anchors))
  = [].
Proof.
  apply (anchor_scan_links_filtered_out default_base_url urljoin_ref urlparse_ref
           no_page_date (fun _ => []) markup_ref no_json no_json
           request_error_text request_error_name
           orchestrator_january (section_of landing_three_anchors) "2026-01" 2026 1);
    vm_compute; reflexivity.
Defined.

Lemma fetch_homepage_links_outcomes_witness :
  exists res w',
    _fetch_homepage_links urljoin_ref urlparse_ref (fun _ => []) markup_ref no_json no_json
      orchestrator_january default_base_url (server_with_status 503) = (res, w')
    /\ (1 <= requests_made w' <= 4)%nat.
Proof.
  destruct (_fetch_homepage_links urljoin_ref urlparse_ref (fun _ => []) markup_ref
              no_json no_json orchestrator_january default_base_url
              (server_with_status 503)) as [res w'] eqn:E.
  exists res, w'. split; [reflexivity|].
  destruct (fetch_homepage_links_outcomes urljoin_ref urlparse_ref (fun _ => []) markup_ref
              no_json no_json orchestrator_january default_base_url _ _ _
              ltac:(cbn; lia) E) as [Hreq _].
  cbn in Hreq. lia.
Defined.

